(** * Purview-driven Azure AI Search index: type mapping

  A shallow embedding of the type-mapping code of the repository:

  - [Inference]  : [map_purview_to_search] of purview_schema_inference.py;
  - [GetSchema]  : [map_purview_to_search] of purview_get_schema.py;
  - [IndexHint]  : [_map_python_type_to_azure_search], [_infer_column_types]
                   and [_create_dataframe_from_metadata] of
                   purview_schema_index_hint.py.

  Declared type names are byte strings; [PyStr.lower] is Python's
  [str.lower] on ASCII text. *)

From Stdlib Require Import Bool List ZArith Lia Ascii String.
Import ListNotations.

Open Scope string_scope.
Open Scope list_scope.

(* ------------------------------------------------------------------ *)
(** ** Python string operations used by the mappers *)

Module PyStr.

(** [c.lower()] for one character: the letters A-Z move to a-z. *)
Definition lower_ascii (c : ascii) : ascii :=
  let n := nat_of_ascii c in
  if (65 <=? n)%nat && (n <=? 90)%nat then ascii_of_nat (n + 32) else c.

(** [s.lower()] *)
Fixpoint lower (s : string) : string :=
  match s with
  | EmptyString => EmptyString
  | String c r => String (lower_ascii c) (lower r)
  end.

(** [x in t] for two strings: [x] occurs in [t] as a contiguous run. *)
Fixpoint contains (x t : string) : bool :=
  String.prefix x t ||
  match t with
  | EmptyString => false
  | String _ r => contains x r
  end.

(** [any(x in t for x in xs)] *)
Definition any_in (xs : list string) (t : string) : bool :=
  existsb (fun x => contains x t) xs.

(** The logical reading of [x in t]. *)
Definition occurs_in (x t : string) : Prop :=
  exists pre post, t = (pre ++ x ++ post)%string.

End PyStr.

(* ------------------------------------------------------------------ *)
(** ** purview_schema_inference.py *)

Module Inference.
Import PyStr.

Inductive AzureSearchDataType : Type :=
| EDM_STRING
| EDM_INT32
| EDM_INT64
| EDM_DOUBLE
| EDM_BOOLEAN
| EDM_DATETIME_OFFSET
| COLLECTION_EDM_STRING
| COLLECTION_EDM_INT32
| COLLECTION_EDM_INT64
| COLLECTION_EDM_DOUBLE
| COLLECTION_EDM_DATETIME_OFFSET.

(** The [.value] of an enum member. *)
Definition value (d : AzureSearchDataType) : string :=
  match d with
  | EDM_STRING => "Edm.String"
  | EDM_INT32 => "Edm.Int32"
  | EDM_INT64 => "Edm.Int64"
  | EDM_DOUBLE => "Edm.Double"
  | EDM_BOOLEAN => "Edm.Boolean"
  | EDM_DATETIME_OFFSET => "Edm.DateTimeOffset"
  | COLLECTION_EDM_STRING => "Collection(Edm.String)"
  | COLLECTION_EDM_INT32 => "Collection(Edm.Int32)"
  | COLLECTION_EDM_INT64 => "Collection(Edm.Int64)"
  | COLLECTION_EDM_DOUBLE => "Collection(Edm.Double)"
  | COLLECTION_EDM_DATETIME_OFFSET => "Collection(Edm.DateTimeOffset)"
  end.

Definition members : list AzureSearchDataType :=
  [ EDM_STRING; EDM_INT32; EDM_INT64; EDM_DOUBLE; EDM_BOOLEAN;
    EDM_DATETIME_OFFSET; COLLECTION_EDM_STRING; COLLECTION_EDM_INT32;
    COLLECTION_EDM_INT64; COLLECTION_EDM_DOUBLE;
    COLLECTION_EDM_DATETIME_OFFSET ].

(** [map_purview_to_search(purview_type: str)].  The argument is a [str]:
    the function calls [purview_type.lower()] on it directly. *)
Definition map_purview_to_search (purview_type : string)
  : AzureSearchDataType :=
  let t := lower purview_type in
  if any_in ["char"; "text"; "string"] t then EDM_STRING
  else if any_in ["bigint"; "int64"] t then EDM_INT64
  else if any_in ["int"; "smallint"; "tinyint"] t then EDM_INT32
  else if any_in ["float"; "double"; "real"; "decimal"; "numeric"; "money"] t
       then EDM_DOUBLE
  else if any_in ["bit"; "bool"; "boolean"] t then EDM_BOOLEAN
  else if any_in ["date"; "time"; "datetime"] t then EDM_DATETIME_OFFSET
  else EDM_STRING.

End Inference.

(* ------------------------------------------------------------------ *)
(** ** purview_get_schema.py *)

Module GetSchema.
Import PyStr.

Inductive AzureSearchDataType : Type :=
| EDM_STRING
| EDM_INT32
| EDM_INT64
| EDM_DOUBLE
| EDM_BOOLEAN
| EDM_DATETIME_OFFSET
| COLLECTION_EDM_STRING
| COLLECTION_EDM_INT32
| COLLECTION_EDM_INT64
| COLLECTION_EDM_DOUBLE
| COLLECTION_EDM_DATETIME_OFFSET.

Definition value (d : AzureSearchDataType) : string :=
  match d with
  | EDM_STRING => "Edm.String"
  | EDM_INT32 => "Edm.Int32"
  | EDM_INT64 => "Edm.Int64"
  | EDM_DOUBLE => "Edm.Double"
  | EDM_BOOLEAN => "Edm.Boolean"
  | EDM_DATETIME_OFFSET => "Edm.DateTimeOffset"
  | COLLECTION_EDM_STRING => "Collection(Edm.String)"
  | COLLECTION_EDM_INT32 => "Collection(Edm.Int32)"
  | COLLECTION_EDM_INT64 => "Collection(Edm.Int64)"
  | COLLECTION_EDM_DOUBLE => "Collection(Edm.Double)"
  | COLLECTION_EDM_DATETIME_OFFSET => "Collection(Edm.DateTimeOffset)"
  end.

Definition members : list AzureSearchDataType :=
  [ EDM_STRING; EDM_INT32; EDM_INT64; EDM_DOUBLE; EDM_BOOLEAN;
    EDM_DATETIME_OFFSET; COLLECTION_EDM_STRING; COLLECTION_EDM_INT32;
    COLLECTION_EDM_INT64; COLLECTION_EDM_DOUBLE;
    COLLECTION_EDM_DATETIME_OFFSET ].

(** [purview_type or ""] : [None] and the empty string both give [""]. *)
Definition or_empty (purview_type : option string) : string :=
  match purview_type with
  | Some s => s
  | None => ""
  end.

(** [map_purview_to_search(purview_type: str | None)].  The date/time
    rule is commented out in the source, so it has no branch here. *)
Definition map_purview_to_search (purview_type : option string)
  : AzureSearchDataType :=
  let t := lower (or_empty purview_type) in
  (* string types *)
  if any_in ["varchar"; "nvarchar"; "char"; "text"; "ntext";
             "uniqueidentifier"] t then EDM_STRING
  (* boolean *)
  else if contains "bit" t then EDM_BOOLEAN
  (* 32-bit integers *)
  else if any_in ["tinyint"; "smallint"; "int"] t then EDM_INT32
  (* 64-bit integer *)
  else if contains "bigint" t then EDM_INT64
  (* floating-point *)
  else if any_in ["float"; "real"] t then EDM_DOUBLE
  (* fixed-precision numeric *)
  else if any_in ["decimal"; "numeric"; "money"; "smallmoney"] t
       then EDM_DOUBLE
  (* fallback to string *)
  else EDM_STRING.

End GetSchema.

(* ------------------------------------------------------------------ *)
(** ** Python values, exceptions and the built-ins [max] and [min] *)

Module Py.

Inductive exn : Type :=
| TypeError
| ValueError
| AttributeError.

(** The outcome of a Python call: a value or a raised exception. *)
Inductive result (A : Type) : Type :=
| Ok (a : A)
| Raise (e : exn).
Arguments Ok {A} a.
Arguments Raise {A} e.

Definition bind {A B : Type} (r : result A) (k : A -> result B)
  : result B :=
  match r with
  | Ok a => k a
  | Raise e => Raise e
  end.

(** The classes the mapper tests for, and any other class by name. *)
Inductive type : Type :=
| ty_str
| ty_object
| ty_int
| ty_np_int32
| ty_np_int64
| ty_float
| ty_np_float64
| ty_np_float32
| ty_Decimal
| ty_bool
| ty_datetime
| ty_date
| ty_other (name : string).

(** [a == b] on classes is identity: [bool] is not [int]. *)
Definition type_eqb (a b : type) : bool :=
  match a, b with
  | ty_str, ty_str => true
  | ty_object, ty_object => true
  | ty_int, ty_int => true
  | ty_np_int32, ty_np_int32 => true
  | ty_np_int64, ty_np_int64 => true
  | ty_float, ty_float => true
  | ty_np_float64, ty_np_float64 => true
  | ty_np_float32, ty_np_float32 => true
  | ty_Decimal, ty_Decimal => true
  | ty_bool, ty_bool => true
  | ty_datetime, ty_datetime => true
  | ty_date, ty_date => true
  | ty_other n, ty_other m => String.eqb n m
  | _, _ => false
  end.

(** [python_type in (c1, c2, ...)] *)
Definition type_in (t : type) (cs : list type) : bool :=
  existsb (type_eqb t) cs.

(** A cell or sample value.  Integers, booleans and strings carry their
    content; a container ([list], [tuple], [ndarray]) carries its items;
    a value of any other class (a float, a [Decimal], a [datetime], a
    numpy scalar, ...) is known by its class only, since the mapper never
    reads such a value. *)
#[warnings="-register-all"]
Inductive value : Type :=
| VInt (z : Z)
| VBool (b : bool)
| VStr (s : string)
| VSeq (items : list value)
| VObj (cls : type).

(** [type(v)] *)
Definition type_of (v : value) : type :=
  match v with
  | VInt _ => ty_int
  | VBool _ => ty_bool
  | VStr _ => ty_str
  | VSeq _ => ty_other "list"
  | VObj cls => cls
  end.

(** [isinstance(v, (list, tuple, np.ndarray))] *)
Definition is_container (v : value) : bool :=
  match v with
  | VSeq _ => true
  | _ => false
  end.

(** Integers and booleans order as numbers ([True] is [1]). *)
Definition as_number (v : value) : option Z :=
  match v with
  | VInt z => Some z
  | VBool b => Some (Z.b2z b)
  | _ => None
  end.

(** Rich comparison.  Numbers order with numbers and strings with
    strings; a string or a container against a number raises
    [TypeError].  The order of containers and of values known by class
    only is outside this model and is reported as [TypeError] as well; no
    statement below compares such values. *)
Definition compare (a b : value) : result comparison :=
  match as_number a, as_number b with
  | Some x, Some y => Ok (x ?= y)%Z
  | _, _ =>
      match a, b with
      | VStr s, VStr t => Ok (String.compare s t)
      | _, _ => Raise TypeError
      end
  end.

Definition gt (a b : value) : result bool :=
  bind (compare a b)
       (fun c => Ok match c with Gt => true | _ => false end).

Definition lt (a b : value) : result bool :=
  bind (compare a b)
       (fun c => Ok match c with Lt => true | _ => false end).

Definition ge (a b : value) : result bool :=
  bind (compare a b)
       (fun c => Ok match c with Lt => false | _ => true end).

Definition le (a b : value) : result bool :=
  bind (compare a b)
       (fun c => Ok match c with Gt => false | _ => true end).

(** The loop of [max]: keep the running best, replace it by an item
    that is greater. *)
Fixpoint max_from (best : value) (rest : list value) : result value :=
  match rest with
  | [] => Ok best
  | item :: rest' =>
      bind (gt item best)
           (fun b => max_from (if b then item else best) rest')
  end.

Fixpoint min_from (best : value) (rest : list value) : result value :=
  match rest with
  | [] => Ok best
  | item :: rest' =>
      bind (lt item best)
           (fun b => min_from (if b then item else best) rest')
  end.

(** [max(xs)] and [min(xs)]; on an empty list they raise [ValueError]. *)
Definition max (xs : list value) : result value :=
  match xs with
  | [] => Raise ValueError
  | x :: rest => max_from x rest
  end.

Definition min (xs : list value) : result value :=
  match xs with
  | [] => Raise ValueError
  | x :: rest => min_from x rest
  end.

(** Truth value of a list: non-empty. *)
Definition truthy {A : Type} (xs : list A) : bool :=
  match xs with
  | [] => false
  | _ :: _ => true
  end.

End Py.

Notation "x <- r ;; k" := (Py.bind r (fun x => k))
(at level 61, r at next level, right associativity).

(* ------------------------------------------------------------------ *)
(** ** pandas: dtypes, series and frames, as far as the builder uses them *)

Module Pandas.
Import Py.

Inductive width : Type := W8 | W16 | W32 | W64.

(** Column dtypes: numpy's and pandas' own.  [masked] tells pandas'
    nullable extension dtypes (Int64, Float64, boolean) from numpy's
    (int64, float64, bool).  A categorical dtype is known by whether its
    categories are booleans, which is all the dtype tests of the builder
    see of it.  [dt_other] stands for timedelta64, complex, period and
    interval dtypes, which each of the five tests rejects.  Sparse and
    Arrow-backed dtypes are not modelled. *)
Inductive dtype : Type :=
| dt_object
| dt_string
| dt_int (masked : bool) (signed : bool) (w : width)
| dt_float (masked : bool) (w : width)
| dt_bool (masked : bool)
| dt_datetime64 (tz_aware : bool)
| dt_category (boolean_categories : bool)
| dt_other (name : string).

(** [pd.api.types.is_string_dtype(dtype)]: object and string dtypes. *)
Definition is_string_dtype (d : dtype) : bool :=
  match d with
  | dt_object | dt_string => true
  | _ => false
  end.

(** [pd.api.types.is_integer_dtype(dtype)]: every signed or unsigned
    integer dtype, numpy or nullable. *)
Definition is_integer_dtype (d : dtype) : bool :=
  match d with
  | dt_int _ _ _ => true
  | _ => false
  end.

Definition is_float_dtype (d : dtype) : bool :=
  match d with
  | dt_float _ _ => true
  | _ => false
  end.

(** [pd.api.types.is_bool_dtype(dtype)]: the two boolean dtypes, and a
    categorical dtype whose categories are booleans (for a categorical
    dtype the test looks at the categories). *)
Definition is_bool_dtype (d : dtype) : bool :=
  match d with
  | dt_bool _ => true
  | dt_category boolean_categories => boolean_categories
  | _ => false
  end.

Definition is_datetime64_any_dtype (d : dtype) : bool :=
  match d with
  | dt_datetime64 _ => true
  | _ => false
  end.

(** [dtype == 'int32']: numpy's signed 32-bit dtype and no other (the
    nullable Int32 has the name 'Int32'). *)
Definition eq_int32 (d : dtype) : bool :=
  match d with
  | dt_int false true W32 => true
  | _ => false
  end.

(** A column: its dtype and its cells, [None] for an absent cell
    (None, NaN, NaT, pd.NA). *)
Record Series : Type := mkSeries {
  series_dtype : dtype;
  series_cells : list (option value)
}.

(** What pandas guarantees of the cells of a column of numpy's dtype
    int32: each is a 32-bit integer, and none is absent.  (Columns of
    other dtypes are not constrained here.) *)
Definition is_int32_value (v : value) : bool :=
  match v with
  | VInt z => ((-2147483648 <=? z) && (z <=? 2147483647))%Z
  | _ => false
  end.

Definition well_typed (s : Series) : bool :=
  if eq_int32 (series_dtype s)
  then forallb (fun c => match c with
                         | None => false
                         | Some v => is_int32_value v
                         end)
               (series_cells s)
  else true.

(** A frame: its columns in order, each under its label.  pandas lets a
    label be repeated. *)
Definition DataFrame : Type := list (string * Series).

(** [df[label]] as a column: the column under [label] when exactly one
    column has that label.  When several have it [df[label]] is a frame,
    not a column, and the answer here is [None].  (A label that no
    column has is not asked for: the builder reads the labels off the
    frame.) *)
Definition getitem (label : string) (df : DataFrame) : option Series :=
  match filter (fun c => String.eqb (fst c) label) df with
  | [c] => Some (snd c)
  | _ => None
  end.

(** [series.dropna()] *)
Fixpoint dropna (cells : list (option value)) : list value :=
  match cells with
  | [] => []
  | Some v :: rest => v :: dropna rest
  | None :: rest => dropna rest
  end.

(** [series.isnull().any()] *)
Definition isnull_any (cells : list (option value)) : bool :=
  existsb (fun c => match c with None => true | Some _ => false end)
          cells.

(** [.head(n).tolist()] *)
Definition head {A : Type} (n : nat) (xs : list A) : list A := firstn n xs.

(** [name in df.columns] *)
Definition has_column (name : string) (df : DataFrame) : bool :=
  existsb (fun c => String.eqb (fst c) name) df.

(** [df[name] = f(df[name])] *)
Definition update_column (name : string) (f : Series -> Series)
           (df : DataFrame) : DataFrame :=
  map (fun c => if String.eqb (fst c) name then (fst c, f (snd c)) else c)
      df.

(** [series.astype(d)] and [pd.to_datetime(series)] on a column of a
    frame without rows: the dtype changes, there is no cell to convert. *)
Definition astype (d : dtype) (s : Series) : Series :=
  mkSeries d (series_cells s).

(** [pd.DataFrame(columns=names)]: empty object columns. *)
Definition empty_frame (names : list string) : DataFrame :=
  map (fun n => (n, mkSeries dt_object [])) names.

End Pandas.

(* ------------------------------------------------------------------ *)
(** ** purview_schema_index_hint.py *)

Module IndexHint.
Import PyStr Py Pandas.

Inductive AzureSearchDataType : Type :=
| EDM_STRING
| EDM_INT32
| EDM_INT64
| EDM_DOUBLE
| EDM_BOOLEAN
| EDM_DATETIME_OFFSET
| EDM_GEOGRAPHY_POINT
| EDM_COMPLEX_TYPE
| COLLECTION_EDM_STRING
| COLLECTION_EDM_INT32
| COLLECTION_EDM_INT64
| COLLECTION_EDM_DOUBLE
| COLLECTION_EDM_DATETIME_OFFSET
| COLLECTION_EDM_GEOGRAPHY_POINT
| COLLECTION_EDM_COMPLEX_TYPE.

Definition value (d : AzureSearchDataType) : string :=
  match d with
  | EDM_STRING => "Edm.String"
  | EDM_INT32 => "Edm.Int32"
  | EDM_INT64 => "Edm.Int64"
  | EDM_DOUBLE => "Edm.Double"
  | EDM_BOOLEAN => "Edm.Boolean"
  | EDM_DATETIME_OFFSET => "Edm.DateTimeOffset"
  | EDM_GEOGRAPHY_POINT => "Edm.GeographyPoint"
  | EDM_COMPLEX_TYPE => "Edm.ComplexType"
  | COLLECTION_EDM_STRING => "Collection(Edm.String)"
  | COLLECTION_EDM_INT32 => "Collection(Edm.Int32)"
  | COLLECTION_EDM_INT64 => "Collection(Edm.Int64)"
  | COLLECTION_EDM_DOUBLE => "Collection(Edm.Double)"
  | COLLECTION_EDM_DATETIME_OFFSET => "Collection(Edm.DateTimeOffset)"
  | COLLECTION_EDM_GEOGRAPHY_POINT => "Collection(Edm.GeographyPoint)"
  | COLLECTION_EDM_COMPLEX_TYPE => "Collection(Edm.ComplexType)"
  end.

(** Every member of the enumeration, in the order of the class body. *)
Definition members : list AzureSearchDataType :=
  [ EDM_STRING; EDM_INT32; EDM_INT64; EDM_DOUBLE; EDM_BOOLEAN;
    EDM_DATETIME_OFFSET; EDM_GEOGRAPHY_POINT; EDM_COMPLEX_TYPE;
    COLLECTION_EDM_STRING; COLLECTION_EDM_INT32; COLLECTION_EDM_INT64;
    COLLECTION_EDM_DOUBLE; COLLECTION_EDM_DATETIME_OFFSET;
    COLLECTION_EDM_GEOGRAPHY_POINT; COLLECTION_EDM_COMPLEX_TYPE ].

(** The members named COLLECTION_... *)
Definition is_collection_type (d : AzureSearchDataType) : bool :=
  match d with
  | COLLECTION_EDM_STRING | COLLECTION_EDM_INT32 | COLLECTION_EDM_INT64
  | COLLECTION_EDM_DOUBLE | COLLECTION_EDM_DATETIME_OFFSET
  | COLLECTION_EDM_GEOGRAPHY_POINT | COLLECTION_EDM_COMPLEX_TYPE => true
  | _ => false
  end.

(** The collection member of a scalar member, where the class has one. *)
Definition collection_of (d : AzureSearchDataType)
  : option AzureSearchDataType :=
  match d with
  | EDM_STRING => Some COLLECTION_EDM_STRING
  | EDM_INT32 => Some COLLECTION_EDM_INT32
  | EDM_INT64 => Some COLLECTION_EDM_INT64
  | EDM_DOUBLE => Some COLLECTION_EDM_DOUBLE
  | EDM_DATETIME_OFFSET => Some COLLECTION_EDM_DATETIME_OFFSET
  | EDM_GEOGRAPHY_POINT => Some COLLECTION_EDM_GEOGRAPHY_POINT
  | EDM_COMPLEX_TYPE => Some COLLECTION_EDM_COMPLEX_TYPE
  | _ => None
  end.

Definition INT32_MIN : Z := -2147483648.
Definition INT32_MAX : Z := 2147483647.

(** [_map_python_type_to_azure_search(python_type, is_collection,
    sample_values)] *)
Definition _map_python_type_to_azure_search
           (python_type : type) (is_collection : bool)
           (sample_values : option (list Py.value))
  : result AzureSearchDataType :=
  let sample_values :=
    match sample_values with None => [] | Some xs => xs end in
  (* Handle collections/arrays *)
  if is_collection then
    if type_in python_type [ty_str; ty_object]
    then Ok COLLECTION_EDM_STRING
    else if type_in python_type [ty_int; ty_np_int32]
    then Ok COLLECTION_EDM_INT32
    else if type_in python_type [ty_np_int64]
    then Ok COLLECTION_EDM_INT64
    else if type_in python_type [ty_float; ty_np_float64; ty_np_float32]
    then Ok COLLECTION_EDM_DOUBLE
    else if type_in python_type [ty_datetime; ty_date]
    then Ok COLLECTION_EDM_DATETIME_OFFSET
    else Ok COLLECTION_EDM_STRING
  (* Handle scalar types *)
  else if type_eqb python_type ty_str then Ok EDM_STRING
  else if type_in python_type [ty_int; ty_np_int32] then
    (* Check if values fit in Int32 range *)
    if truthy sample_values then
      max_val <- (if truthy sample_values
                  then Py.max sample_values else Ok (VInt 0)) ;;
      min_val <- (if truthy sample_values
                  then Py.min sample_values else Ok (VInt 0)) ;;
      fits_low <- ge min_val (VInt INT32_MIN) ;;
      if fits_low then
        fits_high <- le max_val (VInt INT32_MAX) ;;
        if fits_high then Ok EDM_INT32 else Ok EDM_INT64
      else Ok EDM_INT64
    else Ok EDM_INT32
  else if type_in python_type [ty_np_int64] then Ok EDM_INT64
  else if type_in python_type
            [ty_float; ty_np_float64; ty_np_float32; ty_Decimal]
  then Ok EDM_DOUBLE
  else if type_eqb python_type ty_bool then Ok EDM_BOOLEAN
  else if type_in python_type [ty_datetime; ty_date]
  then Ok EDM_DATETIME_OFFSET
  else Ok EDM_STRING.

Record ColumnTypeInfo : Type := mkColumnTypeInfo {
  column_name : string;
  python_type : type;
  nullable : bool;
  is_collection : bool;
  azure_search_type : AzureSearchDataType;
  sample_values : list Py.value
}.

(** The python type the builder takes from a dtype (scalar columns). *)
Definition python_type_of_dtype (d : dtype) : type :=
  if is_string_dtype d then ty_str
  else if is_integer_dtype d then
    if eq_int32 d then ty_int else ty_np_int64
  else if is_float_dtype d then ty_float
  else if is_bool_dtype d then ty_bool
  else if is_datetime64_any_dtype d then ty_datetime
  else ty_str.

(** The body of the loop of [_infer_column_types], for one column. *)
Definition infer_column (column : string) (series : Series)
  : result ColumnTypeInfo :=
  (* Get non-null values for analysis *)
  let non_null_values := dropna (series_cells series) in
  let sample_values := head 10 non_null_values in
  (* Determine if nullable *)
  let nullable := isnull_any (series_cells series) in
  (* Determine if collection *)
  let is_collection :=
    match non_null_values with
    | [] => false
    | first_value :: _ => is_container first_value
    end in
  (* Infer Python type *)
  let python_type :=
    if is_collection && truthy non_null_values then
      match non_null_values with
      | VSeq (first_item :: _) :: _ => type_of first_item
      | _ => ty_str
      end
    else python_type_of_dtype (series_dtype series) in
  (* Map to Azure Search type *)
  azure_search_type <-
    _map_python_type_to_azure_search python_type is_collection
                                     (Some sample_values) ;;
  Ok (mkColumnTypeInfo column python_type nullable is_collection
                       azure_search_type sample_values).

(** The loop [for column in df.columns: series = df[column] ...].  For a
    label that the frame has more than once [df[column]] is a frame, and
    [.head(10).tolist()] on it raises AttributeError. *)
Fixpoint infer_columns (df : DataFrame) (columns : list string)
  : result (list ColumnTypeInfo) :=
  match columns with
  | [] => Ok []
  | column :: rest =>
      match getitem column df with
      | Some series =>
          column_info <- infer_column column series ;;
          column_types <- infer_columns df rest ;;
          Ok (column_info :: column_types)
      | None => Raise AttributeError
      end
  end.

(** [_infer_column_types(df)]: one descriptor per column, in order. *)
Definition _infer_column_types (df : DataFrame)
  : result (list ColumnTypeInfo) :=
  infer_columns df (map fst df).

(** The attributes of a column entity of the catalog that
    [analyze_table_schema] reads; each may be missing. *)
Record ColumnAttrs : Type := mkColumnAttrs {
  attr_name : option string;
  attr_dataType : option string;
  attr_isNullable : option bool
}.

(** The [column_info] dictionary, without the three keys that no code
    reads (max_length, precision, scale). *)
Record ColumnInfo : Type := mkColumnInfo {
  info_name : option string;
  info_data_type : option string;
  info_is_nullable : bool
}.

(** The dictionary [analyze_table_schema] builds from the attributes:
    [column_attrs.get("isNullable", True)]. *)
Definition column_info_of_attrs (a : ColumnAttrs) : ColumnInfo :=
  mkColumnInfo (attr_name a) (attr_dataType a)
               (match attr_isNullable a with Some b => b | None => true end).

(** The names kept for the frame: [col["name"]] when it is truthy. *)
Fixpoint column_names (columns_info : list ColumnInfo) : list string :=
  match columns_info with
  | [] => []
  | col :: rest =>
      match info_name col with
      | Some n => if String.eqb n "" then column_names rest
                  else n :: column_names rest
      | None => column_names rest
      end
  end.

(** The dtype chosen from the lower-cased declared type. *)
Definition dtype_of_data_type (data_type : string) : dtype :=
  if contains "int" data_type || contains "integer" data_type
  then dt_int true true W64            (* astype('Int64') *)
  else if contains "float" data_type || contains "double" data_type
          || contains "decimal" data_type
  then dt_float false W64              (* astype('float64') *)
  else if contains "bool" data_type || contains "bit" data_type
  then dt_bool true                    (* astype('boolean') *)
  else if contains "date" data_type || contains "time" data_type
  then dt_datetime64 false             (* pd.to_datetime *)
  else dt_string.                      (* astype('string') *)

(** The body of the loop that sets the dtypes, for one column and its
    lower-cased declared type: [if col_name in df.columns: ...].  The
    names are taken to be distinct: under a repeated name [df[col_name]]
    is a frame, and what pandas does with it is not modelled. *)
Definition set_dtype (col_info : ColumnInfo) (data_type : string)
           (df : DataFrame) : DataFrame :=
  match info_name col_info with
  | Some col_name =>
      if has_column col_name df
      then update_column col_name
                         (astype (dtype_of_data_type data_type)) df
      else df
  | None => df
  end.

(** The loop that sets the dtypes.  [col_info.get("data_type", "")] is
    the stored value, and [.lower()] on [None] raises. *)
Fixpoint set_dtypes (columns_info : list ColumnInfo) (df : DataFrame)
  : result DataFrame :=
  match columns_info with
  | [] => Ok df
  | col_info :: rest =>
      data_type <- match info_data_type col_info with
                   | Some s => Ok (lower s)
                   | None => Raise AttributeError
                   end ;;
      set_dtypes rest (set_dtype col_info data_type df)
  end.

(** [_create_dataframe_from_metadata(columns_info)] *)
Definition _create_dataframe_from_metadata
           (columns_info : list ColumnInfo) : result DataFrame :=
  if negb (truthy columns_info) then Ok []
  else set_dtypes columns_info (empty_frame (column_names columns_info)).

End IndexHint.

(* ------------------------------------------------------------------ *)
(** ** The specification's wording, for comparison with the code *)

Module Spec.
Import Py IndexHint.

(** "the first element of the first non-empty container" *)
Fixpoint first_element (non_null_values : list Py.value)
  : option Py.value :=
  match non_null_values with
  | [] => None
  | VSeq (x :: _) :: _ => Some x
  | _ :: rest => first_element rest
  end.

(** "derive the element representative from the first element of the
    first non-empty container; empty containers default the element
    representative to textual" *)
Definition representative (non_null_values : list Py.value) : Py.type :=
  match first_element non_null_values with
  | Some x => type_of x
  | None => ty_str
  end.

End Spec.

(* ------------------------------------------------------------------ *)
(** ** More string methods: [replace], [split], [join] *)

Module PyText.

(** The scan of [s.replace(old, new)] for a non-empty [old]: occurrences
    are taken from the left and do not overlap.  [skip] counts the
    characters of a matched occurrence that are still to be dropped. *)
Fixpoint replace_from (old new : string) (skip : nat) (s : string)
  : string :=
  match s with
  | EmptyString => EmptyString
  | String c r =>
      match skip with
      | S k => replace_from old new k r
      | O =>
          if String.prefix old s
          then (new ++ replace_from old new (String.length old - 1) r)%string
          else String c (replace_from old new 0 r)
      end
  end.

(** [s.replace(old, new)], for the non-empty literals the code passes. *)
Definition replace (old new s : string) : string :=
  replace_from old new 0 s.

(** [s.split(sep)] for a separator of one character, the only kind the
    code passes ("/", "@", "."): the pieces between the separators, at
    least one. *)
Fixpoint split (sep : ascii) (s : string) : list string :=
  match s with
  | EmptyString => [EmptyString]
  | String c r =>
      if Ascii.eqb c sep then EmptyString :: split sep r
      else match split sep r with
           | piece :: pieces => String c piece :: pieces
           | [] => [String c EmptyString]
           end
  end.

(** [sep.join(pieces)] *)
Definition join (sep : string) (pieces : list string) : string :=
  String.concat sep pieces.

(** [s.endswith(suffix)] *)
Fixpoint endswith (suffix s : string) : bool :=
  String.eqb s suffix ||
  match s with
  | EmptyString => false
  | String _ r => endswith suffix r
  end.

End PyText.

(* ------------------------------------------------------------------ *)
(** ** purview_schema_index_hint.py: data source type and connection *)

Module Connection.
Import PyStr PyText.

(** [_get_data_source_type(qualified_name)] *)
Definition _get_data_source_type (qualified_name : string) : string :=
  if contains "mssql://" qualified_name
     || contains "sqlserver://" qualified_name
  then "sql_server"
  else if contains "abfss://" qualified_name
          || contains "adls" (lower qualified_name)
  then "azure_data_lake"
  else if contains "https://" qualified_name
          && contains "blob" qualified_name
  then "azure_blob"
  else if contains "cosmos" (lower qualified_name)
  then "cosmos_db"
  else "unknown".

(** A dictionary with string keys and string values, in insertion
    order. *)
Definition dict : Type := list (string * string).

Fixpoint dict_get (key : string) (d : dict) : option string :=
  match d with
  | [] => None
  | (k, v) :: rest => if String.eqb k key then Some v else dict_get key rest
  end.

(** [d[key] = v]: an existing key keeps its place, a new key goes last. *)
Fixpoint dict_set (key v : string) (d : dict) : dict :=
  match d with
  | [] => [(key, v)]
  | (k, w) :: rest =>
      if String.eqb k key then (k, v) :: rest
      else (k, w) :: dict_set key v rest
  end.

(** [d.update({k1: v1, ...})] *)
Definition dict_update (d : dict) (items : list (string * string)) : dict :=
  fold_left (fun acc kv => dict_set (fst kv) (snd kv) acc) items d.

(** [_get_connection_info(table_guid, qualified_name)].  The body runs
    under [try ... except Exception: return None]; the one exception the
    body can raise is the IndexError of [split("@")[1]], and an index out
    of range is [None] of [nth_error] here. *)
Definition _get_connection_info (table_guid qualified_name : string)
  : option dict :=
  let data_source_type := _get_data_source_type qualified_name in
  let connection_info :=
    [("type", data_source_type); ("qualified_name", qualified_name)] in
  if String.eqb data_source_type "sql_server" then
    (* Format: mssql://server/database/schema/table *)
    let parts := split "/" (replace "mssql://" "" qualified_name) in
    if (4 <=? List.length parts)%nat then
      match nth_error parts 0, nth_error parts 1,
            nth_error parts 2, nth_error parts 3 with
      | Some p0, Some p1, Some p2, Some p3 =>
          Some (dict_update connection_info
                            [("server", p0); ("database", p1);
                             ("schema", p2); ("table", p3)])
      | _, _, _, _ => None
      end
    else Some connection_info
  else if String.eqb data_source_type "azure_data_lake" then
    (* Format: abfss://container@account.dfs.core.windows.net/path *)
    if contains "abfss://" qualified_name then
      let url_part := replace "abfss://" "" qualified_name in
      if contains "@" url_part then
        match nth_error (split "/" url_part) 0 with
        | Some container_account =>
            match nth_error (split "@" container_account) 0,
                  nth_error (split "@" container_account) 1 with
            | Some container, Some account_host =>
                match nth_error (split "." account_host) 0 with
                | Some account =>
                    let path := join "/" (tl (split "/" url_part)) in
                    Some (dict_update connection_info
                                      [("storage_account", account);
                                       ("container", container);
                                       ("path", path)])
                | None => None
                end
            | _, _ => None
            end
        | None => None
        end
      else Some connection_info
    else Some connection_info
  else Some connection_info.

End Connection.

(* ------------------------------------------------------------------ *)
(** ** JSON values as Python reads them *)

Module Json.
Import Py.

(** A decoded JSON document: [None], [bool], [int], [str], [list] and
    [dict] with string keys in document order.  Numbers are integers
    here. *)
#[warnings="-register-all"]
Inductive json : Type :=
| JNull
| JBool (b : bool)
| JNum (z : Z)
| JStr (s : string)
| JArr (items : list json)
| JObj (fields : list (string * json)).

(** Truth value, as [if v:] takes it. *)
Definition truthy (v : json) : bool :=
  match v with
  | JNull => false
  | JBool b => b
  | JNum z => negb (z =? 0)%Z
  | JStr s => negb (String.eqb s "")
  | JArr items => match items with [] => false | _ :: _ => true end
  | JObj fields => match fields with [] => false | _ :: _ => true end
  end.

Fixpoint lookup (key : string) (fields : list (string * json))
  : option json :=
  match fields with
  | [] => None
  | (k, v) :: rest => if String.eqb k key then Some v else lookup key rest
  end.

(** [d.get(key, default)]; only a [dict] has the method. *)
Definition get (key : string) (default : json) (d : json) : result json :=
  match d with
  | JObj fields =>
      Ok (match lookup key fields with Some v => v | None => default end)
  | _ => Raise AttributeError
  end.

(** [d.values()] *)
Definition values (d : json) : result (list json) :=
  match d with
  | JObj fields => Ok (map snd fields)
  | _ => Raise AttributeError
  end.

Fixpoint chars (s : string) : list json :=
  match s with
  | EmptyString => []
  | String c r => JStr (String c EmptyString) :: chars r
  end.

(** [for x in v]: the items of a list, the characters of a string, the
    keys of a dict; nothing else can be iterated. *)
Definition iterate (v : json) : result (list json) :=
  match v with
  | JArr items => Ok items
  | JStr s => Ok (chars s)
  | JObj fields => Ok (map (fun kv => JStr (fst kv)) fields)
  | _ => Raise TypeError
  end.

(** A loop that runs [body] on every item for its effect or its
    exception. *)
Fixpoint for_each {A : Type} (body : A -> result unit) (xs : list A)
  : result unit :=
  match xs with
  | [] => Ok tt
  | x :: rest => _ <- body x ;; for_each body rest
  end.

End Json.

(* ------------------------------------------------------------------ *)
(** ** purview_get_schema.py: searching assets and reading their schema *)

Module GetSchemaMain.
Import Py Json.

(** What [session.post] and [session.get] answer: the status code and
    the decoded body, [None] when the body is no JSON and
    [response.json()] raises. *)
Record Response : Type := mkResponse {
  status_code : Z;
  json_body : option json
}.

(** [response.json()] *)
Definition response_json (response : Response) : result json :=
  match json_body response with
  | Some v => Ok v
  | None => Raise ValueError
  end.

(** The key of a [dict] entry is hashable: lists and dicts are not. *)
Definition hashable (key : json) : bool :=
  match key with
  | JArr _ | JObj _ => false
  | _ => true
  end.

(** Equality of keys: [True == 1] and [False == 0]; other kinds are
    equal to their own kind only. *)
Definition key_eqb (a b : json) : bool :=
  match a, b with
  | JNull, JNull => true
  | JStr s, JStr t => String.eqb s t
  | JNum x, JNum y => (x =? y)%Z
  | JBool x, JBool y => Bool.eqb x y
  | JBool x, JNum y | JNum y, JBool x => (Z.b2z x =? y)%Z
  | _, _ => false
  end.

(** [search_fields: Dict[str, AzureSearchDataType]], in insertion
    order. *)
Definition fields : Type := list (json * GetSchema.AzureSearchDataType).

Fixpoint fields_get (key : json) (d : fields)
  : option GetSchema.AzureSearchDataType :=
  match d with
  | [] => None
  | (k, v) :: rest => if key_eqb k key then Some v else fields_get key rest
  end.

Fixpoint fields_put (key : json) (v : GetSchema.AzureSearchDataType)
         (d : fields) : fields :=
  match d with
  | [] => [(key, v)]
  | (k, w) :: rest =>
      if key_eqb k key then (k, v) :: rest
      else (k, w) :: fields_put key v rest
  end.

(** [search_fields[name] = v] *)
Definition fields_set (key : json) (v : GetSchema.AzureSearchDataType)
           (d : fields) : result fields :=
  if hashable key then Ok (fields_put key v d) else Raise TypeError.

(** [map_purview_to_search(dtype)] on a decoded value:
    [(purview_type or "")] is [""] for a false value, and only a string
    has [.lower()]. *)
Definition map_purview_to_search_value (dtype : json)
  : result GetSchema.AzureSearchDataType :=
  match dtype with
  | JStr s => Ok (GetSchema.map_purview_to_search (Some s))
  | _ => if truthy dtype then Raise AttributeError
         else Ok (GetSchema.map_purview_to_search None)
  end.

(** The body of the loop over the referred entities, for one of them. *)
Definition add_column (search_fields : fields) (col : json)
  : result fields :=
  attrs <- get "attributes" (JObj []) col ;;
  name <- get "name" JNull attrs ;;
  dtype <- get "data_type" JNull attrs ;;
  if truthy name && truthy dtype then
    v <- map_purview_to_search_value dtype ;;
    fields_set name v search_fields
  else Ok search_fields.

Fixpoint add_columns (search_fields : fields) (cols : list json)
  : result fields :=
  match cols with
  | [] => Ok search_fields
  | col :: rest =>
      search_fields' <- add_column search_fields col ;;
      add_columns search_fields' rest
  end.

(** The extraction of [main]: column names and types out of the
    referred entities of a schema. *)
Definition extract_search_fields (schema : json) : result fields :=
  referred <- get "referredEntities" (JObj []) schema ;;
  cols <- values referred ;;
  add_columns [] cols.

(** One line of the log of [main]: the type name of the table, the GUID
    and the fields found. *)
Record LogEntry : Type := mkLogEntry {
  log_type_name : json;
  log_guid : json;
  log_fields : fields
}.

Section Session.

(** The shared session: the answer to the search posted for a
    collection and a search term, and to the request for the entity of
    a GUID. *)
Variable session_post : string -> string -> Response.
Variable session_get : json -> Response.

(** [search_data_assets(collection_name, search_term, headers)].  The
    function returns the assets, or [None] by falling off its end. *)
Definition search_data_assets (collection_name search_term : string)
  : result json :=
  let response := session_post collection_name search_term in
  if (status_code response =? 200)%Z then
    data <- response_json response ;;
    search_count <- get "@search.count" (JNum 0) data ;;
    assets <- get "value" (JArr []) data ;;
    if truthy assets then
      items <- iterate assets ;;
      _ <- for_each (fun asset =>
                       _ <- get "name" JNull asset ;;
                       _ <- get "entityType" JNull asset ;;
                       _ <- get "id" JNull asset ;;
                       _ <- get "qualifiedName" JNull asset ;;
                       Ok tt) items ;;
      Ok assets
    else Ok JNull
  else Ok JNull.

(** [get_asset_schema(guid, headers)] *)
Definition get_asset_schema (guid : json) : result json :=
  let response := session_get guid in
  if (status_code response =? 200)%Z then response_json response
  else Ok (JObj []).

(** The body of the loop of [main] over the assets, for one asset; the
    log grows by one line unless the asset has no GUID. *)
Definition log_asset (log : list LogEntry) (asset : json)
  : result (list LogEntry) :=
  guid <- get "id" JNull asset ;;
  if negb (truthy guid) then Ok log
  else
    schema <- get_asset_schema guid ;;
    search_fields <- extract_search_fields schema ;;
    table <- get "entity" (JObj []) schema ;;
    type_name <- get "typeName" JNull table ;;
    Ok (log ++ [mkLogEntry type_name guid search_fields]).

Fixpoint log_assets (log : list LogEntry) (assets : list json)
  : result (list LogEntry) :=
  match assets with
  | [] => Ok log
  | asset :: rest =>
      log' <- log_asset log asset ;;
      log_assets log' rest
  end.

(** [main], from the search on, for the collection it has chosen: what
    it logs, or the exception that leaves it ([main] catches AzureError
    only, which none of these is). *)
Definition main_for_collection (collection_name : string)
  : result (list LogEntry) :=
  assets <- search_data_assets collection_name "*" ;;
  items <- iterate assets ;;
  log_assets [] items.

End Session.

End GetSchemaMain.

(* ------------------------------------------------------------------ *)
(** ** purview_schema_index_hint.py: sample retrieval and table analysis *)

Module Analysis.
Import PyStr PyText Py Pandas IndexHint Connection.

(** What [get_entity_by_guid] answers, as far as [analyze_table_schema]
    reads it: the attributes of the entity (those of a column, and the
    qualified name of a table), and the "columns" relationship, a list of
    references that carry a GUID or lack the key.  The attributes are
    taken well-typed: strings and a boolean, where present. *)
Record Entity : Type := mkEntity {
  entity_attributes : ColumnAttrs;
  entity_qualifiedName : option string;
  entity_columns : option (list (option string))
}.

(** [df.head(n)]: the first [n] rows of every column. *)
Definition frame_head (n : nat) (df : DataFrame) : DataFrame :=
  map (fun c => (fst c, mkSeries (series_dtype (snd c))
                                 (firstn n (series_cells (snd c))))) df.

(** [d.get(key)] on the connection dictionary. *)
Definition conn_get (key : string) (d : dict) : option string :=
  dict_get key d.

Section Sources.

(** The catalog: [None] when the client raises (an AzureError). *)
Variable get_entity_by_guid : string -> option Entity.

(** The stores.  Each stands for the calls to a library outside the
    repository and answers [None] when any of them raises: connecting and
    [SELECT TOP 10] for SQL Server, the download of a file from the data
    lake, and the two pandas readers on the downloaded content. *)
Variable read_sql :
  option string -> option string -> option string -> option string ->
  option DataFrame.
Variable download_file :
  option string -> option string -> option string -> option string.
Variable read_csv : string -> option DataFrame.
Variable read_parquet : string -> option DataFrame.

(** [_retrieve_sql_server_data(connection_info, columns_info)] *)
Definition _retrieve_sql_server_data
           (connection_info : dict) (columns_info : list ColumnInfo)
  : option DataFrame :=
  read_sql (conn_get "server" connection_info)
           (conn_get "database" connection_info)
           (conn_get "schema" connection_info)
           (conn_get "table" connection_info).

(** [_retrieve_adls_data(connection_info, columns_info)]: the file is
    downloaded first, then read by its extension; [path.endswith] raises
    on a missing path, and every exception ends in [None]. *)
Definition _retrieve_adls_data
           (connection_info : dict) (columns_info : list ColumnInfo)
  : option DataFrame :=
  let storage_account := conn_get "storage_account" connection_info in
  let container := conn_get "container" connection_info in
  let path := conn_get "path" connection_info in
  match download_file storage_account container path with
  | None => None
  | Some content =>
      match path with
      | None => None
      | Some path =>
          if endswith ".csv" path then
            match read_csv content with
            | Some df => Some (frame_head 10 df)
            | None => None
            end
          else if endswith ".parquet" path then
            match read_parquet content with
            | Some df => Some (frame_head 10 df)
            | None => None
            end
          else None
      end
  end.

(** [_retrieve_blob_data(connection_info, columns_info)]: not
    implemented in the source, [None] on every path. *)
Definition _retrieve_blob_data
           (connection_info : dict) (columns_info : list ColumnInfo)
  : option DataFrame :=
  None.

(** [_retrieve_sample_data(connection_info, qualified_name,
    columns_info)] *)
Definition _retrieve_sample_data
           (connection_info : dict) (qualified_name : string)
           (columns_info : list ColumnInfo) : option DataFrame :=
  match conn_get "type" connection_info with
  | Some data_source_type =>
      if String.eqb data_source_type "sql_server"
      then _retrieve_sql_server_data connection_info columns_info
      else if String.eqb data_source_type "azure_data_lake"
      then _retrieve_adls_data connection_info columns_info
      else if String.eqb data_source_type "azure_blob"
      then _retrieve_blob_data connection_info columns_info
      else None
  | None => None
  end.

(** The loop over the column references: a reference without GUID, or
    whose entity cannot be fetched, is skipped. *)
Fixpoint collect_columns (columns : list (option string))
  : list ColumnInfo :=
  match columns with
  | [] => []
  | column_ref :: rest =>
      match column_ref with
      | Some guid =>
          match get_entity_by_guid guid with
          | Some column_entity =>
              column_info_of_attrs (entity_attributes column_entity)
              :: collect_columns rest
          | None => collect_columns rest
          end
      | None => collect_columns rest
      end
  end.

(** [analyze_table_schema(table_guid)]: a frame, [None], or the
    exception that [_create_dataframe_from_metadata] raises (only an
    AzureError is caught). *)
Definition analyze_table_schema (table_guid : string)
  : result (option DataFrame) :=
  match get_entity_by_guid table_guid with
  | None => Ok None
  | Some entity =>
      let qualified_name :=
        match entity_qualifiedName entity with
        | Some q => q
        | None => ""
        end in
      let columns_info :=
        match entity_columns entity with
        | Some columns => collect_columns columns
        | None => []
        end in
      if negb (truthy columns_info) then Ok None
      else
        let from_metadata :=
          df <- _create_dataframe_from_metadata columns_info ;;
          Ok (Some df) in
        match _get_connection_info table_guid qualified_name with
        | Some connection_info =>
            match _retrieve_sample_data connection_info qualified_name
                                        columns_info with
            | Some df => Ok (Some df)
            | None => from_metadata
            end
        | None => from_metadata
        end
  end.

End Sources.

End Analysis.

(* ------------------------------------------------------------------ *)
(** * Facts about the string operations *)

Section StringFacts.
Import PyStr.

Lemma prefix_append (x post : string) :
  String.prefix x (x ++ post)%string = true.
Proof.
  induction x as [|c x IH]; simpl.
  - destruct post; reflexivity.
  - destruct (ascii_dec c c) as [_|n]; [exact IH | now elim n].
Qed.

Lemma prefix_split (x t : string) :
  String.prefix x t = true -> exists post, t = (x ++ post)%string.
Proof.
  revert t; induction x as [|c x IH]; intros t H.
  - exists t; reflexivity.
  - destruct t as [|d t]; simpl in H; [discriminate|].
    destruct (ascii_dec c d) as [->|]; [|discriminate].
    destruct (IH _ H) as [post ->].
    exists post; reflexivity.
Qed.

Lemma append_assoc (a b c : string) :
  ((a ++ b) ++ c)%string = (a ++ (b ++ c))%string.
Proof. induction a as [|x a IH]; simpl; [|rewrite IH]; reflexivity. Qed.

Lemma contains_cons (x : string) (c : ascii) (t : string) :
  contains x (String c t) = String.prefix x (String c t) || contains x t.
Proof. reflexivity. Qed.

Lemma contains_empty (x : string) :
  contains x EmptyString = String.prefix x EmptyString.
Proof. apply orb_false_r. Qed.

(** [contains] decides occurrence as a contiguous run. *)
Lemma contains_occurs (x t : string) :
  contains x t = true <-> occurs_in x t.
Proof.
  split.
  - induction t as [|c t IH]; intros H.
    + rewrite contains_empty in H.
      destruct (prefix_split _ _ H) as [post E].
      exists EmptyString, post; exact E.
    + rewrite contains_cons in H.
      apply orb_true_iff in H as [H|H].
      * destruct (prefix_split _ _ H) as [post E].
        exists EmptyString, post; exact E.
      * destruct (IH H) as (pre & post & ->).
        exists (String c pre), post; reflexivity.
  - intros (pre & post & ->).
    induction pre as [|c pre IH].
    + change (EmptyString ++ x ++ post)%string with (x ++ post)%string.
      assert (P : String.prefix x (x ++ post)%string = true)
        by apply prefix_append.
      destruct (x ++ post)%string.
      * now rewrite contains_empty.
      * now rewrite contains_cons, P.
    + change (String c pre ++ x ++ post)%string
        with (String c (pre ++ x ++ post)%string).
      rewrite contains_cons, IH; apply orb_true_r.
Qed.

(** A string that holds [b] holds every run of [b]. *)
Lemma contains_trans (a b t : string) :
  contains a b = true -> contains b t = true -> contains a t = true.
Proof.
  rewrite !contains_occurs.
  intros (p1 & q1 & ->) (p2 & q2 & ->).
  exists (p2 ++ p1)%string, (q1 ++ q2)%string.
  now rewrite !append_assoc.
Qed.

(** The contrapositive, in the form the mappers need. *)
Lemma contains_none (a b t : string) :
  contains a b = true -> contains a t = false -> contains b t = false.
Proof.
  intros Hab Hat.
  destruct (contains b t) eqn:E; [|reflexivity].
  now rewrite (contains_trans _ _ _ Hab E) in Hat.
Qed.

Lemma lower_append (a b : string) :
  lower (a ++ b) = (lower a ++ lower b)%string.
Proof. induction a as [|c a IH]; simpl; [|rewrite IH]; reflexivity. Qed.

Lemma lower_ascii_idem (c : ascii) :
  lower_ascii (lower_ascii c) = lower_ascii c.
Proof.
  destruct c as [[] [] [] [] [] [] [] []]; reflexivity.
Qed.

Lemma lower_idem (s : string) : lower (lower s) = lower s.
Proof.
  induction s as [|c s IH]; simpl; [|rewrite IH, lower_ascii_idem];
    reflexivity.
Qed.

(** Matching ignores case: an occurrence of [x] in [s], in any case,
    is an occurrence of [lower x] in [lower s]. *)
Lemma contains_lower (x s : string) :
  occurs_in x s -> contains (lower x) (lower s) = true.
Proof.
  intros (pre & post & ->).
  apply contains_occurs.
  exists (lower pre), (lower post).
  now rewrite !lower_append.
Qed.

End StringFacts.

(* ------------------------------------------------------------------ *)
(** * The two declared-type mappers *)

(** [absent p k] rewrites the keyword [k] away where its run [p] is known
  to be absent from the type name. *)
Ltac absent p k :=
match goal with
| H : PyStr.contains p ?t = false |- _ =>
    rewrite (contains_none p k t eq_refl H)
| _ => idtac
end.

Section DeclaredTypeMappers.
Import PyStr.

(** The mapper of purview_schema_inference.py by the keywords that
    decide it: a keyword that holds another of the same or an earlier
    family (smallint, tinyint, boolean, datetime) adds nothing. *)
Lemma inference_by_keywords (s : string) :
  Inference.map_purview_to_search s =
  let t := lower s in
  if contains "char" t || contains "text" t || contains "string" t
  then Inference.EDM_STRING
  else if contains "bigint" t || contains "int64" t
  then Inference.EDM_INT64
  else if contains "int" t then Inference.EDM_INT32
  else if contains "float" t || contains "double" t || contains "real" t
          || contains "decimal" t || contains "numeric" t
          || contains "money" t
  then Inference.EDM_DOUBLE
  else if contains "bit" t || contains "bool" t
  then Inference.EDM_BOOLEAN
  else if contains "date" t || contains "time" t
  then Inference.EDM_DATETIME_OFFSET
  else Inference.EDM_STRING.
Proof.
  unfold Inference.map_purview_to_search.
  cbn [any_in existsb]. cbv zeta.
  generalize (lower s) as t; intros t.
  destruct (contains "char" t) eqn:Hchar; [reflexivity|].
  destruct (contains "text" t) eqn:Htext; [reflexivity|].
  destruct (contains "string" t) eqn:Hstring; [reflexivity|].
  destruct (contains "bigint" t) eqn:Hbigint; [reflexivity|].
  destruct (contains "int64" t) eqn:Hint64; [reflexivity|].
  destruct (contains "int" t) eqn:Hint; [reflexivity|].
  absent "int" "smallint". absent "int" "tinyint".
  destruct (contains "float" t); [reflexivity|].
  destruct (contains "double" t); [reflexivity|].
  destruct (contains "real" t); [reflexivity|].
  destruct (contains "decimal" t); [reflexivity|].
  destruct (contains "numeric" t); [reflexivity|].
  destruct (contains "money" t); [reflexivity|].
  destruct (contains "bit" t); [reflexivity|].
  destruct (contains "bool" t) eqn:Hbool; [reflexivity|].
  absent "bool" "boolean".
  destruct (contains "date" t) eqn:Hdate; [reflexivity|].
  destruct (contains "time" t) eqn:Htime; [reflexivity|].
  absent "time" "datetime".
  reflexivity.
Qed.

(** The mapper of purview_get_schema.py by the keywords that decide it.
    The test for bigint has no case of its own: it is reached only when
    the type name does not hold int. *)
Lemma get_schema_by_keywords (purview_type : option string) :
  GetSchema.map_purview_to_search purview_type =
  let t := lower (GetSchema.or_empty purview_type) in
  if contains "char" t || contains "text" t
     || contains "uniqueidentifier" t
  then GetSchema.EDM_STRING
  else if contains "bit" t then GetSchema.EDM_BOOLEAN
  else if contains "int" t then GetSchema.EDM_INT32
  else if contains "float" t || contains "real" t
          || contains "decimal" t || contains "numeric" t
          || contains "money" t
  then GetSchema.EDM_DOUBLE
  else GetSchema.EDM_STRING.
Proof.
  unfold GetSchema.map_purview_to_search.
  cbn [any_in existsb]. cbv zeta.
  generalize (lower (GetSchema.or_empty purview_type)) as t; intros t.
  destruct (contains "char" t) eqn:Hchar.
  { now rewrite !orb_true_r. }
  absent "char" "varchar". absent "char" "nvarchar".
  destruct (contains "text" t) eqn:Htext.
  { now rewrite !orb_true_r. }
  absent "text" "ntext".
  destruct (contains "uniqueidentifier" t); [reflexivity|].
  destruct (contains "bit" t); [reflexivity|].
  destruct (contains "int" t) eqn:Hint.
  { now rewrite !orb_true_r. }
  absent "int" "tinyint". absent "int" "smallint". absent "int" "bigint".
  destruct (contains "float" t); [reflexivity|].
  destruct (contains "real" t); [reflexivity|].
  destruct (contains "decimal" t); [reflexivity|].
  destruct (contains "numeric" t); [reflexivity|].
  destruct (contains "money" t) eqn:Hmoney; [reflexivity|].
  absent "money" "smallmoney".
  reflexivity.
Qed.

End DeclaredTypeMappers.

Section BigintPriority.
Import PyStr.

(** In purview_schema_inference.py the 64-bit family is tested before
    the generic int family: a type name that holds bigint, and no
    keyword of the textual family tested first, maps to Edm.Int64. *)
Lemma inference_bigint_is_int64 (s : string) :
  contains "bigint" (lower s) = true ->
  any_in ["char"; "text"; "string"] (lower s) = false ->
  Inference.map_purview_to_search s = Inference.EDM_INT64.
Proof.
  unfold Inference.map_purview_to_search; cbv zeta.
  intros Hbig Htext; rewrite Htext.
  cbn [any_in existsb]; now rewrite Hbig.
Qed.

Example inference_bigint_examples :
  Inference.map_purview_to_search "bigint" = Inference.EDM_INT64 /\
  Inference.map_purview_to_search "BIGINT" = Inference.EDM_INT64 /\
  Inference.map_purview_to_search "int64" = Inference.EDM_INT64 /\
  Inference.map_purview_to_search "int" = Inference.EDM_INT32.
Proof. repeat split; reflexivity. Qed.

(** The textual family is tested first in both files: a type name that
    holds string as well as bigint is textual. *)
Example inference_textual_first :
  Inference.map_purview_to_search "struct<name:string,id:bigint>"
  = Inference.EDM_STRING.
Proof. reflexivity. Qed.

(** C1, on purview_get_schema.py: there the generic int family is tested
    before bigint, so the declared type bigint (in any case) maps to
    Edm.Int32, and no declared type at all maps to Edm.Int64: every type
    name that holds bigint holds int and is taken by the earlier test. *)
Theorem get_schema_bigint_is_int32 :
  GetSchema.map_purview_to_search (Some "bigint") = GetSchema.EDM_INT32 /\
  GetSchema.map_purview_to_search (Some "BIGINT") = GetSchema.EDM_INT32 /\
  (forall purview_type : option string,
      GetSchema.map_purview_to_search purview_type
      <> GetSchema.EDM_INT64).
Proof.
  split; [reflexivity|]. split; [reflexivity|].
  intros purview_type.
  rewrite get_schema_by_keywords; cbv zeta.
  generalize (lower (GetSchema.or_empty purview_type)) as t; intros t.
  repeat match goal with
         | |- context [if ?b then _ else _] => destruct b
         end; discriminate.
Qed.

End BigintPriority.

Section Variants.
Import PyStr.

(** C6, the claim as stated fails: the declared type double holds no
    date/time keyword, and the two mappers give it different types. *)
Lemma variants_disagree_on_double :
  ~ (forall s : string,
        any_in ["date"; "time"; "datetime"; "datetimeoffset"] (lower s)
        = false ->
        Inference.value (Inference.map_purview_to_search s)
        = GetSchema.value (GetSchema.map_purview_to_search (Some s))).
Proof.
  intros H. specialize (H "double" eq_refl). discriminate H.
Qed.

(** C6, amended.  A declared type that holds date or time, and no
    keyword tested earlier, is Edm.DateTimeOffset for
    purview_schema_inference.py and Edm.String for purview_get_schema.py,
    which never answers Edm.DateTimeOffset.  The mappers agree on every
    declared type that holds neither date nor time, none of bigint, int64,
    double, bool, string and uniqueidentifier (keywords of one file
    only, or tested in another order), and not bit together with a
    numeric keyword (one file tests bit before them, the other after). *)
Theorem variants_differ_on_datetime (s : string) :
  (any_in ["date"; "time"] (lower s) = true ->
   any_in [ "char"; "text"; "string"; "bigint"; "int64"; "int"; "smallint";
            "tinyint"; "float"; "double"; "real"; "decimal"; "numeric";
            "money"; "bit"; "bool"; "boolean" ] (lower s) = false ->
   Inference.map_purview_to_search s = Inference.EDM_DATETIME_OFFSET /\
   GetSchema.map_purview_to_search (Some s) = GetSchema.EDM_STRING) /\
  GetSchema.map_purview_to_search (Some s)
  <> GetSchema.EDM_DATETIME_OFFSET /\
  (any_in ["date"; "time"] (lower s) = false ->
   any_in [ "bigint"; "int64"; "double"; "bool"; "string";
            "uniqueidentifier" ] (lower s) = false ->
   contains "bit" (lower s)
   && any_in [ "int"; "float"; "real"; "decimal"; "numeric"; "money" ]
             (lower s) = false ->
   Inference.value (Inference.map_purview_to_search s)
   = GetSchema.value (GetSchema.map_purview_to_search (Some s))).
Proof.
  rewrite inference_by_keywords, get_schema_by_keywords.
  unfold GetSchema.or_empty.
  cbn [any_in existsb]. cbv zeta.
  generalize (lower s) as t; intros t.
  split; [|split].
  - intros Hdt Hnone.
    repeat (apply orb_false_iff in Hnone; destruct Hnone as [? Hnone]).
    repeat match goal with
           | H : contains _ t = false |- _ => rewrite H; clear H
           end.
    rewrite orb_false_r in Hdt. rewrite Hdt.
    cbn [orb]. split; [reflexivity|].
    destruct (contains "uniqueidentifier" t); reflexivity.
  - repeat match goal with
           | |- context [if ?b then _ else _] => destruct b
           end; discriminate.
  - intros Hdt Hone Hbit.
    repeat (apply orb_false_iff in Hdt; destruct Hdt as [? Hdt]).
    repeat (apply orb_false_iff in Hone; destruct Hone as [? Hone]).
    repeat match goal with
           | H : contains _ t = false |- _ => rewrite H in *; clear H
           end.
    rewrite !orb_false_r in *.
    destruct (contains "char" t); [reflexivity|].
    destruct (contains "text" t); [reflexivity|].
    destruct (contains "bit" t), (contains "int" t),
      (contains "float" t), (contains "real" t), (contains "decimal" t),
      (contains "numeric" t), (contains "money" t);
      try discriminate Hbit; reflexivity.
Qed.

Lemma variants_differ_on_datetime_witness :
  (Inference.map_purview_to_search "datetimeoffset"
   = Inference.EDM_DATETIME_OFFSET /\
   GetSchema.map_purview_to_search (Some "datetimeoffset")
   = GetSchema.EDM_STRING) /\
  Inference.value (Inference.map_purview_to_search "smallint")
  = GetSchema.value (GetSchema.map_purview_to_search (Some "smallint")).
Proof.
  split.
  - apply (proj1 (variants_differ_on_datetime "datetimeoffset"));
      reflexivity.
  - apply (proj2 (proj2 (variants_differ_on_datetime "smallint")));
      reflexivity.
Defined.

(** The four date/time type names of the family, one by one. *)
Example datetime_family :
  map Inference.map_purview_to_search
      ["date"; "time"; "datetime"; "datetimeoffset"]
  = [Inference.EDM_DATETIME_OFFSET; Inference.EDM_DATETIME_OFFSET;
     Inference.EDM_DATETIME_OFFSET; Inference.EDM_DATETIME_OFFSET] /\
  map (fun s => GetSchema.map_purview_to_search (Some s))
      ["date"; "time"; "datetime"; "datetimeoffset"]
  = [GetSchema.EDM_STRING; GetSchema.EDM_STRING;
     GetSchema.EDM_STRING; GetSchema.EDM_STRING].
Proof. split; reflexivity. Qed.

End Variants.

(* ------------------------------------------------------------------ *)
(** * [max] and [min] on integer samples *)

Section IntegerSamples.
Import Py.
Open Scope Z_scope.

Lemma gt_ints (x y : Z) : gt (VInt x) (VInt y) = Ok (y <? x).
Proof.
  unfold gt, compare; simpl. rewrite Z.ltb_antisym, Z.leb_compare.
  destruct (x ?= y); reflexivity.
Qed.

Lemma lt_ints (x y : Z) : lt (VInt x) (VInt y) = Ok (x <? y).
Proof.
  unfold lt, compare; simpl. unfold Z.ltb.
  destruct (x ?= y); reflexivity.
Qed.

Lemma ge_ints (x y : Z) : ge (VInt x) (VInt y) = Ok (y <=? x).
Proof.
  unfold ge, compare; simpl.
  rewrite Z.leb_antisym. unfold Z.ltb.
  destruct (x ?= y); reflexivity.
Qed.

Lemma le_ints (x y : Z) : le (VInt x) (VInt y) = Ok (x <=? y).
Proof.
  unfold le, compare; simpl. unfold Z.leb.
  destruct (x ?= y); reflexivity.
Qed.

(** On integers the loop of [max] ends with a sample that bounds the
    others from above. *)
Lemma max_from_ints (zs : list Z) : forall best : Z,
  exists hi : Z,
    max_from (VInt best) (map VInt zs) = Ok (VInt hi) /\
    In hi (best :: zs) /\
    Forall (fun z => z <= hi) (best :: zs).
Proof.
  induction zs as [|z zs IH]; intros best.
  - exists best. repeat split; [now left | repeat constructor; lia].
  - cbn [map max_from]. rewrite gt_ints. cbn [bind].
    destruct (best <? z) eqn:E.
    + apply Z.ltb_lt in E.
      destruct (IH z) as (hi & Hrun & Hin & Hall).
      exists hi. split; [exact Hrun|]. split.
      * right; exact Hin.
      * inversion Hall; subst. constructor; [lia|]. now constructor.
    + apply Z.ltb_ge in E.
      destruct (IH best) as (hi & Hrun & Hin & Hall).
      exists hi. split; [exact Hrun|]. split.
      * destruct Hin as [->|Hin]; [now left | now right; right].
      * inversion Hall; subst. constructor; [lia|]. constructor; [lia|].
        assumption.
Qed.

Lemma min_from_ints (zs : list Z) : forall best : Z,
  exists lo : Z,
    min_from (VInt best) (map VInt zs) = Ok (VInt lo) /\
    In lo (best :: zs) /\
    Forall (fun z => lo <= z) (best :: zs).
Proof.
  induction zs as [|z zs IH]; intros best.
  - exists best. repeat split; [now left | repeat constructor; lia].
  - cbn [map min_from]. rewrite lt_ints. cbn [bind].
    destruct (z <? best) eqn:E.
    + apply Z.ltb_lt in E.
      destruct (IH z) as (lo & Hrun & Hin & Hall).
      exists lo. split; [exact Hrun|]. split.
      * right; exact Hin.
      * inversion Hall; subst. constructor; [lia|]. now constructor.
    + apply Z.ltb_ge in E.
      destruct (IH best) as (lo & Hrun & Hin & Hall).
      exists lo. split; [exact Hrun|]. split.
      * destruct Hin as [->|Hin]; [now left | now right; right].
      * inversion Hall; subst. constructor; [lia|]. constructor; [lia|].
        assumption.
Qed.

(** [max] and [min] of a non-empty list of integers return the greatest
    and the least sample. *)
Lemma max_min_ints (zs : list Z) :
  zs <> [] ->
  exists lo hi : Z,
    Py.min (map VInt zs) = Ok (VInt lo) /\
    Py.max (map VInt zs) = Ok (VInt hi) /\
    In lo zs /\ In hi zs /\
    Forall (fun z => lo <= z <= hi) zs.
Proof.
  destruct zs as [|z zs]; [congruence|]; intros _.
  destruct (min_from_ints zs z) as (lo & Hmin & Hlo & Hall_lo).
  destruct (max_from_ints zs z) as (hi & Hmax & Hhi & Hall_hi).
  exists lo, hi. repeat split; try assumption.
  rewrite Forall_forall in *. intros x Hx.
  split; [apply Hall_lo | apply Hall_hi]; exact Hx.
Qed.

(** Integers and booleans compare with each other as numbers, so the
    loops of [max] and [min] return on them, with a number. *)
Lemma compare_numbers (a b : value) (x y : Z) :
  as_number a = Some x -> as_number b = Some y ->
  compare a b = Ok (x ?= y).
Proof. unfold compare. intros -> ->. reflexivity. Qed.

Lemma max_from_numbers (rest : list value) : forall best : value,
  as_number best <> None ->
  Forall (fun v => as_number v <> None) rest ->
  exists hi, max_from best rest = Ok hi /\ as_number hi <> None.
Proof.
  induction rest as [|item rest IH]; intros best Hb Hall.
  - exists best. split; [reflexivity | exact Hb].
  - inversion Hall as [|? ? Hi Hrest]; subst.
    cbn [max_from]. unfold gt.
    destruct (as_number item) as [x|] eqn:Ex; [|congruence].
    destruct (as_number best) as [y|] eqn:Ey; [|congruence].
    rewrite (compare_numbers _ _ _ _ Ex Ey). cbn [bind].
    apply IH; [|exact Hrest].
    destruct (x ?= y); congruence.
Qed.

Lemma min_from_numbers (rest : list value) : forall best : value,
  as_number best <> None ->
  Forall (fun v => as_number v <> None) rest ->
  exists lo, min_from best rest = Ok lo /\ as_number lo <> None.
Proof.
  induction rest as [|item rest IH]; intros best Hb Hall.
  - exists best. split; [reflexivity | exact Hb].
  - inversion Hall as [|? ? Hi Hrest]; subst.
    cbn [min_from]. unfold lt.
    destruct (as_number item) as [x|] eqn:Ex; [|congruence].
    destruct (as_number best) as [y|] eqn:Ey; [|congruence].
    rewrite (compare_numbers _ _ _ _ Ex Ey). cbn [bind].
    apply IH; [|exact Hrest].
    destruct (x ?= y); congruence.
Qed.

End IntegerSamples.

(* ------------------------------------------------------------------ *)
(** * The classifier [_map_python_type_to_azure_search] *)

Section Classifier.
Import Py Pandas IndexHint.
Open Scope Z_scope.

Lemma int_family (python_type : type) :
  type_in python_type [ty_int; ty_np_int32] = true ->
  python_type = ty_int \/ python_type = ty_np_int32.
Proof. destruct python_type; try discriminate; auto. Qed.

(** The integer branch, once [min] and [max] have returned. *)
Lemma int_branch (python_type : type) (zs : list Z) (lo hi : Z) :
  type_in python_type [ty_int; ty_np_int32] = true ->
  zs <> [] ->
  Py.min (map VInt zs) = Ok (VInt lo) ->
  Py.max (map VInt zs) = Ok (VInt hi) ->
  _map_python_type_to_azure_search python_type false (Some (map VInt zs))
  = Ok (if (INT32_MIN <=? lo) && (hi <=? INT32_MAX)
        then EDM_INT32 else EDM_INT64).
Proof.
  intros Hty Hne Hmin Hmax.
  unfold _map_python_type_to_azure_search.
  rewrite Hty.
  replace (type_eqb python_type ty_str) with false
    by (destruct (int_family _ Hty) as [-> | ->]; reflexivity).
  destruct zs as [|z zs]; [congruence|].
  change (truthy (map VInt (z :: zs))) with true. cbv iota.
  rewrite Hmin, Hmax. cbn [bind].
  rewrite ge_ints. cbn [bind].
  destruct (INT32_MIN <=? lo); [|reflexivity].
  rewrite le_ints. cbn [bind andb].
  destruct (hi <=? INT32_MAX); reflexivity.
Qed.

(** C3.  For a scalar column whose representative type is int (or
    np.int32), classified by its integer samples: an empty sample gives
    Edm.Int32 without calling min or max; a non-empty sample gives
    Edm.Int32 exactly when min(sample) >= -2147483648 and max(sample) <=
    2147483647, where min and max are the least and the greatest sample;
    so samples all within the range give Edm.Int32 and a single sample
    outside it gives Edm.Int64 for the column. *)
Theorem int_samples_range (python_type : type) (zs : list Z) :
  type_in python_type [ty_int; ty_np_int32] = true ->
  (_map_python_type_to_azure_search python_type false (Some [])
   = Ok EDM_INT32) /\
  (zs <> [] ->
   exists lo hi : Z,
     Py.min (map VInt zs) = Ok (VInt lo) /\
     Py.max (map VInt zs) = Ok (VInt hi) /\
     In lo zs /\ In hi zs /\ Forall (fun z => lo <= z <= hi) zs /\
     _map_python_type_to_azure_search python_type false
                                      (Some (map VInt zs))
     = Ok (if (-2147483648 <=? lo) && (hi <=? 2147483647)
           then EDM_INT32 else EDM_INT64)) /\
  (zs <> [] ->
   Forall (fun z => -2147483648 <= z <= 2147483647) zs ->
   _map_python_type_to_azure_search python_type false (Some (map VInt zs))
   = Ok EDM_INT32) /\
  (Exists (fun z => z < -2147483648 \/ 2147483647 < z) zs ->
   _map_python_type_to_azure_search python_type false (Some (map VInt zs))
   = Ok EDM_INT64).
Proof.
  intros Hty. split; [|split; [|split]].
  - destruct (int_family _ Hty) as [-> | ->]; reflexivity.
  - intros Hne.
    destruct (max_min_ints zs Hne) as (lo & hi & Hmin & Hmax & Hlo & Hhi & Hall).
    exists lo, hi.
    split; [exact Hmin|]. split; [exact Hmax|]. split; [exact Hlo|].
    split; [exact Hhi|]. split; [exact Hall|].
    apply (int_branch _ _ _ _ Hty Hne Hmin Hmax).
  - intros Hne Hin.
    destruct (max_min_ints zs Hne) as (lo & hi & Hmin & Hmax & Hlo & Hhi & _).
    rewrite (int_branch _ _ _ _ Hty Hne Hmin Hmax).
    rewrite Forall_forall in Hin.
    pose proof (Hin _ Hlo) as Blo. pose proof (Hin _ Hhi) as Bhi.
    unfold INT32_MIN, INT32_MAX.
    replace (-2147483648 <=? lo) with true by (symmetry; apply Z.leb_le; lia).
    replace (hi <=? 2147483647) with true by (symmetry; apply Z.leb_le; lia).
    reflexivity.
  - intros Hout.
    assert (Hne : zs <> []) by (destruct Hout; discriminate).
    destruct (max_min_ints zs Hne) as (lo & hi & Hmin & Hmax & _ & _ & Hall).
    rewrite (int_branch _ _ _ _ Hty Hne Hmin Hmax).
    apply Exists_exists in Hout as (z & Hz & Hbad).
    rewrite Forall_forall in Hall. specialize (Hall _ Hz).
    unfold INT32_MIN, INT32_MAX.
    destruct (-2147483648 <=? lo) eqn:Elo; [|reflexivity].
    destruct (hi <=? 2147483647) eqn:Ehi; [|reflexivity].
    apply Z.leb_le in Elo. apply Z.leb_le in Ehi. lia.
Qed.

Lemma int_samples_range_witness :
  (_map_python_type_to_azure_search ty_int false (Some []) = Ok EDM_INT32)
  /\
  (_map_python_type_to_azure_search
     ty_int false (Some (map VInt [1; 2; 3])) = Ok EDM_INT32) /\
  (_map_python_type_to_azure_search
     ty_int false (Some (map VInt [1; 2; 3000000000])) = Ok EDM_INT64).
Proof.
  split; [|split].
  - apply (proj1 (int_samples_range ty_int [] eq_refl)).
  - apply (proj1 (proj2 (proj2 (int_samples_range ty_int [1; 2; 3]
                                                  eq_refl)))).
    + discriminate.
    + repeat constructor; lia.
  - apply (proj2 (proj2 (proj2 (int_samples_range ty_int [1; 2; 3000000000]
                                                  eq_refl)))).
    right; right; left. lia.
Defined.

End Classifier.

Section ClassifierCases.
Import Py Pandas IndexHint.
Open Scope Z_scope.

(** Integer samples within the 32-bit range, or none at all, give
    Edm.Int32 on the integer branch. *)
Lemma int_samples_in_range (python_type : type) (zs : list Z) :
  type_in python_type [ty_int; ty_np_int32] = true ->
  Forall (fun z => INT32_MIN <= z <= INT32_MAX) zs ->
  _map_python_type_to_azure_search python_type false (Some (map VInt zs))
  = Ok EDM_INT32.
Proof.
  intros Hty Hin.
  destruct zs as [|z0 zs0] eqn:Ezs.
  - destruct (int_family _ Hty) as [-> | ->]; reflexivity.
  - rewrite <- Ezs in *.
    assert (Hne : zs <> []) by (rewrite Ezs; discriminate).
    destruct (max_min_ints zs Hne)
      as (lo & hi & Hmin & Hmax & Hlo & Hhi & _).
    rewrite (int_branch _ _ _ _ Hty Hne Hmin Hmax).
    rewrite Forall_forall in Hin.
    pose proof (Hin _ Hlo) as Blo. pose proof (Hin _ Hhi) as Bhi.
    replace (INT32_MIN <=? lo) with true by (symmetry; apply Z.leb_le; lia).
    replace (hi <=? INT32_MAX) with true by (symmetry; apply Z.leb_le; lia).
    reflexivity.
Qed.

(** What the classifier answers is a collection member exactly when it
    was called with [is_collection]. *)
Lemma classifier_collection_flag
      (python_type : type) (is_coll : bool)
      (samples : option (list Py.value)) (ft : AzureSearchDataType) :
  _map_python_type_to_azure_search python_type is_coll samples = Ok ft ->
  is_collection_type ft = is_coll.
Proof.
  unfold _map_python_type_to_azure_search. intros H.
  destruct is_coll.
  - repeat match type of H with
           | context [if ?b then _ else _] => destruct b
           end; inversion H; reflexivity.
  - repeat match type of H with
           | context [if ?b then _ else _] => destruct b
           | context [bind ?r _] => destruct r; cbn [bind] in H
           end; inversion H; reflexivity.
Qed.

(** The collection branch never reads the samples. *)
Lemma collection_ignores_samples
      (python_type : type) (s1 s2 : option (list Py.value)) :
  _map_python_type_to_azure_search python_type true s1
  = _map_python_type_to_azure_search python_type true s2.
Proof. reflexivity. Qed.

(** Outside the integer branch the scalar cases do not read them
    either, and the call returns. *)
Lemma scalar_returns (python_type : type)
      (samples : option (list Py.value)) :
  type_in python_type [ty_int; ty_np_int32] = false ->
  exists ft, _map_python_type_to_azure_search python_type false samples
             = Ok ft.
Proof.
  intros Hty. unfold _map_python_type_to_azure_search. rewrite Hty.
  repeat match goal with
         | |- context [if ?b then _ else _] => destruct b
         end; eexists; reflexivity.
Qed.

Lemma collection_returns (python_type : type)
      (samples : option (list Py.value)) :
  exists ft, _map_python_type_to_azure_search python_type true samples
             = Ok ft.
Proof.
  unfold _map_python_type_to_azure_search.
  repeat match goal with
         | |- context [if ?b then _ else _] => destruct b
         end; eexists; reflexivity.
Qed.

(** The classifier returns on every call but one kind: a scalar of the
    integer branch with a sample that is no number. *)
Lemma classifier_returns (python_type : type) (is_coll : bool)
      (samples : option (list Py.value)) :
  (is_coll = false ->
   type_in python_type [ty_int; ty_np_int32] = true ->
   Forall (fun v => as_number v <> None)
          (match samples with None => [] | Some xs => xs end)) ->
  exists ft, _map_python_type_to_azure_search python_type is_coll samples
             = Ok ft.
Proof.
  intros H. destruct is_coll; [apply collection_returns|].
  destruct (type_in python_type [ty_int; ty_np_int32]) eqn:Hty;
    [|now apply scalar_returns].
  specialize (H eq_refl eq_refl).
  unfold _map_python_type_to_azure_search. rewrite Hty.
  replace (type_eqb python_type ty_str) with false
    by (destruct (int_family _ Hty) as [-> | ->]; reflexivity).
  destruct samples as [[|v vs]|];
    [eexists; reflexivity | | eexists; reflexivity].
  cbv zeta. cbn [truthy Py.max Py.min].
  inversion H as [|? ? Hv Hvs]; subst.
  destruct (max_from_numbers vs v Hv Hvs) as (hi & -> & Hhi).
  destruct (min_from_numbers vs v Hv Hvs) as (lo & -> & Hlo).
  cbn [bind]. unfold ge, le.
  destruct (as_number lo) as [l|] eqn:El; [|congruence].
  destruct (as_number hi) as [h|] eqn:Eh; [|congruence].
  rewrite (compare_numbers lo (VInt INT32_MIN) l INT32_MIN El eq_refl).
  cbn [bind].
  destruct (l ?= INT32_MIN);
    try (eexists; reflexivity);
    rewrite (compare_numbers hi (VInt INT32_MAX) h INT32_MAX Eh eq_refl);
    cbn [bind]; destruct (h ?= INT32_MAX); eexists; reflexivity.
Qed.

End ClassifierCases.

(* ------------------------------------------------------------------ *)
(** * The builder [_infer_column_types] *)

Section Builder.
Import Py Pandas IndexHint.
Open Scope Z_scope.

(** A column whose first non-null value is a container: the element
    type is the type of the first item of that container, or [str] when
    the container is empty. *)
Lemma infer_column_collection
      (column : string) (d : dtype) (cells : list (option Py.value))
      (items rest : list Py.value) :
  dropna cells = VSeq items :: rest ->
  infer_column column (mkSeries d cells) =
  let ty := match items with [] => ty_str | x :: _ => type_of x end in
  ft <- _map_python_type_to_azure_search
          ty true (Some (head 10 (dropna cells))) ;;
  Ok (mkColumnTypeInfo column ty (isnull_any cells) true ft
                       (head 10 (dropna cells))).
Proof.
  intros H. unfold infer_column. cbn [series_cells series_dtype].
  rewrite H. cbn [is_container truthy andb].
  destruct items; reflexivity.
Qed.

(** A column without a non-null value, or whose first non-null value is
    no container: the type comes from the dtype. *)
Lemma infer_column_scalar
      (column : string) (d : dtype) (cells : list (option Py.value)) :
  match dropna cells with
  | [] => true
  | v :: _ => negb (is_container v)
  end = true ->
  infer_column column (mkSeries d cells) =
  ft <- _map_python_type_to_azure_search
          (python_type_of_dtype d) false (Some (head 10 (dropna cells))) ;;
  Ok (mkColumnTypeInfo column (python_type_of_dtype d) (isnull_any cells)
                       false ft (head 10 (dropna cells))).
Proof.
  intros H. unfold infer_column. cbn [series_cells series_dtype].
  destruct (dropna cells) as [|v vs]; [reflexivity|].
  apply negb_true_iff in H. rewrite H. reflexivity.
Qed.

Lemma in_head {A : Type} (n : nat) (xs : list A) (x : A) :
  In x (head n xs) -> In x xs.
Proof.
  unfold head. intros H. rewrite <- (firstn_skipn n xs).
  apply in_or_app; now left.
Qed.

Lemma int32_cells (cells : list (option Py.value)) :
  forallb (fun c => match c with
                    | None => false
                    | Some v => is_int32_value v
                    end) cells = true ->
  exists zs : list Z,
    cells = map (fun z => Some (VInt z)) zs /\
    dropna cells = map VInt zs /\
    Forall (fun z => INT32_MIN <= z <= INT32_MAX) zs.
Proof.
  induction cells as [|c cells IH]; intros H.
  - exists []. split; [reflexivity | split; [reflexivity | constructor]].
  - cbn [forallb] in H. apply andb_true_iff in H as [Hc Hrest].
    destruct (IH Hrest) as (zs & Ec & E & Hin).
    destruct c as [v|]; [|discriminate Hc]. cbn [dropna].
    destruct v; try discriminate Hc.
    cbn [is_int32_value] in Hc. apply andb_true_iff in Hc as [L U].
    apply Z.leb_le in L. apply Z.leb_le in U.
    exists (z :: zs).
    split; [cbn [map]; now rewrite Ec|].
    split; [cbn [map]; now rewrite E|].
    constructor; [unfold INT32_MIN, INT32_MAX; lia | exact Hin].
Qed.

(** The builder passes plain [int] for the dtype int32 and for no other
    dtype, and never passes [np.int32]. *)
Lemma int_only_for_int32 (d : dtype) :
  type_in (python_type_of_dtype d) [ty_int; ty_np_int32] = eq_int32 d.
Proof.
  destruct d as [| |m s w|m w|m|tz|b|n]; try reflexivity.
  - destruct m, s, w; reflexivity.
  - destruct b; reflexivity.
Qed.

(** On a well-typed column of dtype int32 the answer is Edm.Int32. *)
Lemma infer_int32_column
      (column : string) (cells : list (option Py.value)) :
  well_typed (mkSeries (dt_int false true W32) cells) = true ->
  exists zs : list Z,
    dropna cells = map VInt zs /\
    infer_column column (mkSeries (dt_int false true W32) cells)
    = Ok (mkColumnTypeInfo column ty_int (isnull_any cells) false
                           EDM_INT32 (head 10 (map VInt zs))).
Proof.
  unfold well_typed. cbn [series_dtype series_cells eq_int32]. intros H.
  destruct (int32_cells _ H) as (zs & _ & E & Hin).
  exists zs. split; [exact E|].
  rewrite infer_column_scalar by (rewrite E; destruct zs; reflexivity).
  rewrite E. unfold head. rewrite firstn_map.
  change (python_type_of_dtype (dt_int false true W32)) with ty_int.
  rewrite int_samples_in_range; [reflexivity | reflexivity |].
  rewrite Forall_forall in *. intros z Hz.
  apply Hin. exact (in_head 10 _ _ Hz).
Qed.

(** The loop body returns on every well-typed column. *)
Lemma infer_column_returns (column : string) (series : Series) :
  well_typed series = true ->
  exists info, infer_column column series = Ok info.
Proof.
  destruct series as [d cells]. intros Hwt.
  destruct (dropna cells) as [|v vs] eqn:E.
  - rewrite infer_column_scalar by (now rewrite E).
    rewrite E. cbn [head firstn].
    destruct (eq_int32 d) eqn:Ed.
    + destruct d as [| |m s w|m w|m|tz|b|n]; try discriminate Ed.
      destruct m, s, w; try discriminate Ed. eexists; reflexivity.
    + destruct (scalar_returns (python_type_of_dtype d) (Some []))
        as (ft & Hft); [now rewrite int_only_for_int32|].
      rewrite Hft. eexists; reflexivity.
  - destruct (is_container v) eqn:Ev.
    + destruct v; try discriminate Ev.
      rewrite (infer_column_collection _ _ _ _ _ E). cbv zeta.
      match goal with
      | |- context [_map_python_type_to_azure_search ?ty true ?s] =>
          destruct (collection_returns ty s) as (ft & Hft); rewrite Hft
      end.
      eexists; reflexivity.
    + destruct (eq_int32 d) eqn:Ed.
      * destruct d as [| |m s w|m w|m|tz|b|n]; try discriminate Ed.
        destruct m, s, w; try discriminate Ed.
        destruct (infer_int32_column column cells Hwt) as (zs & _ & R).
        rewrite R. eexists; reflexivity.
      * rewrite infer_column_scalar by (now rewrite E, Ev).
        match goal with
        | |- context [_map_python_type_to_azure_search ?ty false ?s] =>
            destruct (scalar_returns ty s) as (ft & Hft);
              [now rewrite int_only_for_int32 | rewrite Hft]
        end.
        eexists; reflexivity.
Qed.

(** One descriptor per column, in the order of the columns. *)
Lemma infer_column_name (column : string) (series : Series)
      (info : ColumnTypeInfo) :
  infer_column column series = Ok info -> column_name info = column.
Proof.
  unfold infer_column.
  match goal with
  | |- context [bind ?r _] => destruct r; cbn [bind]
  end; intros H; inversion H; reflexivity.
Qed.

(** [df[label]] on a frame where no column has the label, and where one
    has. *)
Lemma filter_absent (df : DataFrame) (label : string) :
  ~ In label (map fst df) ->
  filter (fun c => String.eqb (fst c) label) df = [].
Proof.
  induction df as [|[n s] df IH]; intros H; [reflexivity|].
  cbn [filter fst]. cbn [map fst] in H.
  destruct (String.eqb n label) eqn:E.
  - apply String.eqb_eq in E. elim H. now left.
  - apply IH. intros Hin. apply H. now right.
Qed.

Lemma getitem_unique (df : DataFrame) (label : string) (series : Series) :
  NoDup (map fst df) -> In (label, series) df ->
  getitem label df = Some series.
Proof.
  unfold getitem.
  induction df as [|[n s] df IH]; intros Hnd Hin; [contradiction|].
  cbn [map fst] in Hnd. inversion Hnd as [|? ? Hn Hrest]; subst.
  cbn [filter fst].
  destruct Hin as [Hin | Hin].
  - inversion Hin; subst. rewrite String.eqb_refl.
    now rewrite (filter_absent df label Hn).
  - destruct (String.eqb n label) eqn:E.
    + apply String.eqb_eq in E. subst n. elim Hn.
      apply in_map_iff. now exists (label, series).
    + now apply IH.
Qed.


(** [df[label]] is no column when two entries have the label. *)
Lemma getitem_repeated (df1 df2 df3 : DataFrame) (label : string)
      (s1 s2 : Series) :
  getitem label (df1 ++ (label, s1) :: df2 ++ (label, s2) :: df3) = None.
Proof.
  unfold getitem. rewrite filter_app. cbn [filter fst].
  rewrite String.eqb_refl, filter_app. cbn [filter fst].
  rewrite String.eqb_refl.
  destruct (filter (fun c => String.eqb (fst c) label) df1)
    as [|c [|c' rest]]; cbn [app];
    destruct (filter (fun c => String.eqb (fst c) label) df2);
    reflexivity.
Qed.

Lemma infer_columns_names (df : DataFrame) (columns : list string) :
  forall infos, infer_columns df columns = Ok infos ->
                map column_name infos = columns.
Proof.
  induction columns as [|column columns IH]; intros infos H.
  - inversion H; reflexivity.
  - cbn [infer_columns] in H.
    destruct (getitem column df) as [series|]; [|discriminate].
    destruct (infer_column column series) as [info|] eqn:E1;
      cbn [bind] in H; [|discriminate].
    destruct (infer_columns df columns) as [rest|] eqn:E2;
      cbn [bind] in H; [|discriminate].
    inversion H; subst. cbn [map].
    now rewrite (infer_column_name _ _ _ E1), (IH rest eq_refl).
Qed.

Lemma infer_column_types_names (df : DataFrame) :
  forall infos, _infer_column_types df = Ok infos ->
                map column_name infos = map fst df.
Proof. intros infos. apply infer_columns_names. Qed.

(** The loop returns when every label names one column and the body
    returns on it; what holds of each descriptor holds of all. *)
Lemma infer_columns_all (df : DataFrame) (P : ColumnTypeInfo -> Prop)
      (columns : list string) :
  (forall column, In column columns ->
                  exists series info,
                    getitem column df = Some series /\
                    infer_column column series = Ok info /\ P info) ->
  exists infos, infer_columns df columns = Ok infos /\ Forall P infos.
Proof.
  induction columns as [|column columns IH]; intros H.
  - exists []. split; [reflexivity | constructor].
  - destruct (H column (or_introl eq_refl)) as (series & info & G & E & HP).
    destruct (IH (fun c Hc => H c (or_intror Hc))) as (infos & E2 & Hall).
    cbn [infer_columns]. rewrite G, E, E2. cbn [bind].
    eexists. split; [reflexivity|]. now constructor.
Qed.


(** Every descriptor the loop returns is one the body returned. *)
Lemma infer_columns_each (df : DataFrame) (columns : list string) :
  forall infos, infer_columns df columns = Ok infos ->
  Forall (fun info => exists column series,
                        infer_column column series = Ok info) infos.
Proof.
  induction columns as [|column columns IH]; intros infos H.
  - inversion H. constructor.
  - cbn [infer_columns] in H.
    destruct (getitem column df) as [series|]; [|discriminate].
    destruct (infer_column column series) as [info|] eqn:E1;
      cbn [bind] in H; [|discriminate].
    destruct (infer_columns df columns) as [rest|] eqn:E2;
      cbn [bind] in H; [|discriminate].
    inversion H; subst. constructor; [|now apply IH].
    now exists column, series.
Qed.

(** The loop raises AttributeError at a repeated label when the body
    returns on the columns before it. *)
Lemma infer_columns_raises (df : DataFrame) (before : list string)
      (column : string) (rest : list string) :
  (forall c, In c before ->
             exists series info,
               getitem c df = Some series /\
               infer_column c series = Ok info) ->
  getitem column df = None ->
  infer_columns df (before ++ column :: rest) = Raise AttributeError.
Proof.
  induction before as [|c before IH]; intros H G.
  - cbn [app infer_columns]. now rewrite G.
  - destruct (H c (or_introl eq_refl)) as (series & info & Gc & E).
    cbn [app infer_columns]. rewrite Gc, E. cbn [bind].
    rewrite (IH (fun c' Hc' => H c' (or_intror Hc')) G). reflexivity.
Qed.

Lemma infer_column_types_returns (df : DataFrame) :
  NoDup (map fst df) ->
  forallb (fun c => well_typed (snd c)) df = true ->
  exists infos, _infer_column_types df = Ok infos.
Proof.
  intros Hnd H. unfold _infer_column_types.
  destruct (infer_columns_all df (fun _ => True) (map fst df))
    as (infos & E & _); [|now exists infos].
  intros column Hc. apply in_map_iff in Hc as ([n series] & <- & Hin).
  cbn [fst]. rewrite forallb_forall in H.
  destruct (infer_column_returns n series (H _ Hin)) as (info & E).
  exists series, info.
  split; [now apply getitem_unique | split; [exact E | exact I]].
Qed.

End Builder.

(* ------------------------------------------------------------------ *)
(** * Totality and fallbacks *)

Section Fallbacks.
Import PyStr Py Pandas IndexHint.

(** C2, the claim as stated fails: the classifier is not total.  Called
    for a scalar of type int with the samples '12' and '7', it takes
    their maximum and minimum and raises TypeError on comparing a string
    with the 32-bit bound. *)
Lemma classifier_is_not_total :
  ~ (forall (python_type : type) (is_coll : bool)
            (samples : option (list Py.value)),
        exists ft,
          _map_python_type_to_azure_search python_type is_coll samples
          = Ok ft).
Proof.
  intros H.
  destruct (H ty_int false (Some [VStr "12"; VStr "7"])) as (ft & E).
  discriminate E.
Qed.

(** The same call, evaluated. *)
Example classifier_on_string_samples :
  Py.max [VStr "12"; VStr "7"] = Ok (VStr "7") /\
  Py.min [VStr "12"; VStr "7"] = Ok (VStr "12") /\
  ge (VStr "12") (VInt INT32_MIN) = Raise TypeError /\
  _map_python_type_to_azure_search ty_int false
                                   (Some [VStr "12"; VStr "7"])
  = Raise TypeError.
Proof. repeat split; reflexivity. Qed.

(** The builder is not total on frames either: on a frame with a
    repeated label it raises AttributeError, although each column is
    well typed. *)
Example repeated_label_raises :
  let df := [ ("id", mkSeries dt_object [Some (VStr "a")]);
              ("id", mkSeries dt_object [Some (VStr "b")]) ] in
  forallb (fun c => well_typed (snd c)) df = true /\
  getitem "id" df = None /\
  _infer_column_types df = Raise AttributeError.
Proof. repeat split; reflexivity. Qed.

(** C2, amended.  Classification returns a field type on every evidence
    but one kind.  The mapper of purview_get_schema.py takes an absent
    declared type for the empty string and answers Edm.String for it and
    for every type name that holds none of its keywords.  The classifier
    returns for every class, flag and sample unless it is called for a
    scalar of type int or np.int32 with a sample that is neither an
    integer nor a boolean; for a class it does not know it answers
    Edm.String for a scalar and Collection(Edm.String) for a collection,
    whatever the samples, and with [str], no samples and no collection
    the answer is Edm.String.  The builder returns a descriptor for every
    well-typed column, Edm.String for an object column without any
    value, and one descriptor per column for every frame of well-typed
    columns with distinct labels. *)
Theorem classification_returns :
  GetSchema.map_purview_to_search None = GetSchema.EDM_STRING /\
  (forall purview_type : option string,
      any_in [ "char"; "text"; "uniqueidentifier"; "bit"; "int"; "float";
               "real"; "decimal"; "numeric"; "money" ]
             (lower (GetSchema.or_empty purview_type)) = false ->
      GetSchema.map_purview_to_search purview_type
      = GetSchema.EDM_STRING) /\
  (forall (python_type : type) (is_coll : bool)
          (samples : option (list Py.value)),
      (is_coll = false ->
       type_in python_type [ty_int; ty_np_int32] = true ->
       Forall (fun v => as_number v <> None)
              (match samples with None => [] | Some xs => xs end)) ->
      exists ft,
        _map_python_type_to_azure_search python_type is_coll samples
        = Ok ft) /\
  (forall (name : string) (samples : option (list Py.value)),
      _map_python_type_to_azure_search (ty_other name) false samples
      = Ok EDM_STRING /\
      _map_python_type_to_azure_search (ty_other name) true samples
      = Ok COLLECTION_EDM_STRING) /\
  _map_python_type_to_azure_search ty_str false None = Ok EDM_STRING /\
  (forall (column : string) (d : dtype),
      exists ty ft,
        infer_column column (mkSeries d [])
        = Ok (mkColumnTypeInfo column ty false false ft [])) /\
  (forall column : string,
      infer_column column (mkSeries dt_object [])
      = Ok (mkColumnTypeInfo column ty_str false false EDM_STRING [])) /\
  (forall (column : string) (series : Series),
      well_typed series = true ->
      exists info, infer_column column series = Ok info) /\
  (forall df : DataFrame,
      NoDup (map fst df) ->
      forallb (fun c => well_typed (snd c)) df = true ->
      exists infos,
        _infer_column_types df = Ok infos /\
        map column_name infos = map fst df).
Proof.
  split; [reflexivity|].
  split.
  { intros purview_type H.
    rewrite get_schema_by_keywords. cbv zeta.
    cbn [any_in existsb] in H.
    repeat (apply orb_false_iff in H; destruct H as [? H]).
    repeat match goal with
           | E : contains _ _ = false |- _ => rewrite E; clear E
           end.
    reflexivity. }
  split; [exact classifier_returns|].
  split.
  { intros name samples. split; reflexivity. }
  split; [reflexivity|].
  split.
  { intros column d.
    destruct (infer_column_returns column (mkSeries d [])) as (info & E).
    - unfold well_typed. cbn. now destruct (eq_int32 d).
    - rewrite infer_column_scalar in E by reflexivity.
      rewrite infer_column_scalar by reflexivity.
      cbn [dropna head firstn isnull_any existsb] in *.
      destruct (_map_python_type_to_azure_search
                  (python_type_of_dtype d) false (Some [])) as [ft|];
        [|discriminate E].
      eexists; eexists; reflexivity. }
  split; [reflexivity|].
  split; [exact infer_column_returns|].
  intros df Hnd H.
  destruct (infer_column_types_returns df Hnd H) as (infos & E).
  exists infos. split; [exact E|].
  now apply infer_column_types_names.
Qed.

Lemma classification_returns_witness :
  GetSchema.map_purview_to_search (Some "geography")
  = GetSchema.EDM_STRING /\
  (exists ft,
      _map_python_type_to_azure_search
        ty_int false (Some [VInt 5; VBool true; VInt 3000000000])
      = Ok ft) /\
  (exists info,
      infer_column "id" (mkSeries (dt_int false true W32)
                                  [Some (VInt 7); Some (VInt 9)])
      = Ok info) /\
  (exists infos,
      _infer_column_types
        [ ("id", mkSeries (dt_int false true W32) [Some (VInt 7)]);
          ("tags", mkSeries dt_object [Some (VSeq [VStr "a"]); None]) ]
      = Ok infos /\
      map column_name infos = ["id"; "tags"]).
Proof.
  destruct classification_returns
    as (_ & Hget & Hmap & _ & _ & _ & _ & Hcol & Hdf).
  split; [|split; [|split]].
  - apply (Hget (Some "geography")). reflexivity.
  - apply Hmap. intros _ _.
    repeat constructor; discriminate.
  - apply Hcol. reflexivity.
  - apply (Hdf [ ("id", mkSeries (dt_int false true W32) [Some (VInt 7)]);
                 ("tags",
                  mkSeries dt_object [Some (VSeq [VStr "a"]); None]) ]).
    + repeat constructor; cbn; intuition discriminate.
    + reflexivity.
Defined.

(** C7.  The answer is a collection member exactly when the column was
    taken for a collection: with [is_collection] false the classifier
    never answers a Collection member, the descriptor of a column
    carries one type, and the declared-type mappers, which take no
    collection flag, never answer a Collection token. *)
Theorem collection_only_for_collections :
  (forall (python_type : type) (is_coll : bool)
          (samples : option (list Py.value)) (ft : AzureSearchDataType),
      _map_python_type_to_azure_search python_type is_coll samples = Ok ft ->
      is_collection_type ft = is_coll) /\
  (forall (column : string) (series : Series) (info : ColumnTypeInfo),
      infer_column column series = Ok info ->
      is_collection_type (azure_search_type info) = is_collection info) /\
  (forall s : string,
      String.prefix "Collection("
                    (Inference.value (Inference.map_purview_to_search s))
      = false) /\
  (forall purview_type : option string,
      String.prefix "Collection("
                    (GetSchema.value
                       (GetSchema.map_purview_to_search purview_type))
      = false).
Proof.
  split; [exact classifier_collection_flag|].
  split.
  { intros column series info. unfold infer_column.
    match goal with
    | |- context [bind ?r _] => destruct r as [ft|] eqn:E; cbn [bind]
    end; intros H; inversion H; subst; cbn.
    apply (classifier_collection_flag _ _ _ _ E). }
  split.
  - intros s. rewrite inference_by_keywords. cbv zeta.
    repeat match goal with
           | |- context [if ?b then _ else _] => destruct b
           end; reflexivity.
  - intros purview_type. rewrite get_schema_by_keywords. cbv zeta.
    repeat match goal with
           | |- context [if ?b then _ else _] => destruct b
           end; reflexivity.
Qed.

Lemma collection_only_for_collections_witness :
  is_collection_type EDM_INT64 = false /\
  is_collection_type COLLECTION_EDM_STRING = true.
Proof.
  destruct collection_only_for_collections as (Hmap & Hcol & _).
  split.
  - apply (Hmap ty_np_int64 false (Some [VObj ty_np_int64]) EDM_INT64).
    reflexivity.
  - apply (Hcol "tags" (mkSeries dt_object [Some (VSeq [VStr "a"])])
                (mkColumnTypeInfo "tags" ty_str false true
                                  COLLECTION_EDM_STRING
                                  [VSeq [VStr "a"]])).
    reflexivity.
Defined.

End Fallbacks.

(* ------------------------------------------------------------------ *)
(** * Collections *)

Section Collections.
Import Py Pandas IndexHint.

(** C5, the claim as stated fails: the builder looks at the first
    non-null container only.  When that one is empty the element type is
    [str], although a later container has an integer as first element. *)
Lemma representative_is_of_first_container :
  ~ (forall (column : string) (series : Series) (info : ColumnTypeInfo),
        infer_column column series = Ok info ->
        is_collection info = true ->
        python_type info
        = Spec.representative (dropna (series_cells series))).
Proof.
  intros H.
  specialize (H "scores"
                (mkSeries dt_object [Some (VSeq []); Some (VSeq [VInt 1])])
                _ eq_refl eq_refl).
  discriminate H.
Qed.

(** The same column, classified: Collection(Edm.String). *)
Example empty_first_container :
  infer_column "scores"
               (mkSeries dt_object [Some (VSeq []); Some (VSeq [VInt 1])])
  = Ok (mkColumnTypeInfo "scores" ty_str false true COLLECTION_EDM_STRING
                         [VSeq []; VSeq [VInt 1]]).
Proof. reflexivity. Qed.

(** C5, amended.  For a collection the answer depends on the class of
    the representative element alone, not on the samples: str or object
    gives Collection(Edm.String), int or np.int32 Collection(Edm.Int32),
    np.int64 Collection(Edm.Int64), float, np.float64 or np.float32
    Collection(Edm.Double), datetime or date
    Collection(Edm.DateTimeOffset), and a class the mapper does not know
    Collection(Edm.String).  The representative element is the first
    item of the first non-null container of the column; when that
    container is empty the representative class is str. *)
Theorem collection_by_first_item :
  (forall samples : option (list Py.value),
      let classify ty :=
        _map_python_type_to_azure_search ty true samples in
      classify ty_str = Ok COLLECTION_EDM_STRING /\
      classify ty_object = Ok COLLECTION_EDM_STRING /\
      classify ty_int = Ok COLLECTION_EDM_INT32 /\
      classify ty_np_int32 = Ok COLLECTION_EDM_INT32 /\
      classify ty_np_int64 = Ok COLLECTION_EDM_INT64 /\
      classify ty_float = Ok COLLECTION_EDM_DOUBLE /\
      classify ty_np_float64 = Ok COLLECTION_EDM_DOUBLE /\
      classify ty_np_float32 = Ok COLLECTION_EDM_DOUBLE /\
      classify ty_datetime = Ok COLLECTION_EDM_DATETIME_OFFSET /\
      classify ty_date = Ok COLLECTION_EDM_DATETIME_OFFSET /\
      (forall name : string,
          classify (ty_other name) = Ok COLLECTION_EDM_STRING)) /\
  (forall (python_type : type) (s1 s2 : option (list Py.value)),
      _map_python_type_to_azure_search python_type true s1
      = _map_python_type_to_azure_search python_type true s2) /\
  (forall (column : string) (d : dtype) (cells : list (option Py.value))
          (items rest : list Py.value),
      dropna cells = VSeq items :: rest ->
      let ty := match items with [] => ty_str | x :: _ => type_of x end in
      exists ft,
        _map_python_type_to_azure_search ty true None = Ok ft /\
        infer_column column (mkSeries d cells)
        = Ok (mkColumnTypeInfo column ty (isnull_any cells) true ft
                               (head 10 (dropna cells)))).
Proof.
  split; [|split].
  - intros samples classify. subst classify.
    repeat split; reflexivity.
  - exact collection_ignores_samples.
  - intros column d cells items rest E ty.
    rewrite (infer_column_collection _ _ _ _ _ E). cbv zeta. fold ty.
    destruct (collection_returns ty None) as (ft & Hft).
    exists ft. split; [exact Hft|].
    rewrite (collection_ignores_samples ty _ None), Hft. reflexivity.
Qed.

Lemma collection_by_first_item_witness :
  exists ft,
    _map_python_type_to_azure_search ty_str true None = Ok ft /\
    infer_column "tags"
                 (mkSeries dt_object
                           [None; Some (VSeq [VStr "a"; VStr "b"]);
                            Some (VSeq [VStr "c"])])
    = Ok (mkColumnTypeInfo "tags" ty_str true true ft
                           [VSeq [VStr "a"; VStr "b"]; VSeq [VStr "c"]]).
Proof.
  apply (proj2 (proj2 collection_by_first_item)
               "tags" dt_object
               [None; Some (VSeq [VStr "a"; VStr "b"]);
                Some (VSeq [VStr "c"])]
               [VStr "a"; VStr "b"] [VSeq [VStr "c"]]).
  reflexivity.
Defined.

(** The collection branch takes the class for the magnitude, and has no
    case for Decimal. *)
Example wide_int_and_decimal_items :
  infer_column "n" (mkSeries dt_object [Some (VSeq [VInt 3000000000])])
  = Ok (mkColumnTypeInfo "n" ty_int false true COLLECTION_EDM_INT32
                         [VSeq [VInt 3000000000]]) /\
  _map_python_type_to_azure_search ty_Decimal true None
  = Ok COLLECTION_EDM_STRING /\
  _map_python_type_to_azure_search ty_Decimal false None
  = Ok EDM_DOUBLE.
Proof. repeat split; reflexivity. Qed.

(** C9.  A collection whose representative element is a boolean is
    classified Collection(Edm.String): the collection branch has no case
    for [bool], no member of the enumeration has the token
    Collection(Edm.Boolean), and so no call answers one. *)
Theorem boolean_collection_is_string :
  (forall samples : option (list Py.value),
      _map_python_type_to_azure_search ty_bool true samples
      = Ok COLLECTION_EDM_STRING) /\
  (forall (column : string) (d : dtype) (cells : list (option Py.value))
          (b : bool) (items rest : list Py.value),
      dropna cells = VSeq (VBool b :: items) :: rest ->
      infer_column column (mkSeries d cells)
      = Ok (mkColumnTypeInfo column ty_bool (isnull_any cells) true
                             COLLECTION_EDM_STRING
                             (head 10 (dropna cells)))) /\
  (forall ft : AzureSearchDataType,
      value ft <> "Collection(Edm.Boolean)") /\
  (forall (python_type : type) (is_coll : bool)
          (samples : option (list Py.value)) (ft : AzureSearchDataType),
      _map_python_type_to_azure_search python_type is_coll samples = Ok ft ->
      value ft <> "Collection(Edm.Boolean)").
Proof.
  assert (Hno : forall ft, value ft <> "Collection(Edm.Boolean)")
    by (intros ft; destruct ft; discriminate).
  split; [reflexivity|]. split; [|split].
  - intros column d cells b items rest E.
    rewrite (infer_column_collection _ _ _ _ _ E). reflexivity.
  - exact Hno.
  - intros ? ? ? ft _. apply Hno.
Qed.

Lemma boolean_collection_is_string_witness :
  infer_column "flags"
               (mkSeries dt_object
                         [None; Some (VSeq [VBool true; VBool false])])
  = Ok (mkColumnTypeInfo "flags" ty_bool true true COLLECTION_EDM_STRING
                         [VSeq [VBool true; VBool false]]).
Proof.
  apply (proj1 (proj2 boolean_collection_is_string)
               "flags" dt_object
               [None; Some (VSeq [VBool true; VBool false])]
               true [VBool false] []).
  reflexivity.
Defined.

End Collections.

(* ------------------------------------------------------------------ *)
(** * Integer dtypes *)

Section IntegerDtypes.
Import Py Pandas IndexHint.
Open Scope Z_scope.

(** C10.  For an integer column the builder takes plain [int], the type
    whose samples are checked against the 32-bit range, exactly when the
    dtype is int32; every other integer dtype gets [np.int64], and the
    column is classified Edm.Int64 whatever its values, also when all of
    them lie within the 32-bit range. *)
Theorem only_int32_is_range_checked :
  (forall d : dtype,
      is_integer_dtype d = true ->
      (python_type_of_dtype d = ty_int <-> d = dt_int false true W32) /\
      (d <> dt_int false true W32 ->
       python_type_of_dtype d = ty_np_int64)) /\
  (forall (column : string) (d : dtype) (cells : list (option Py.value))
          (zs : list Z),
      is_integer_dtype d = true ->
      d <> dt_int false true W32 ->
      dropna cells = map VInt zs ->
      infer_column column (mkSeries d cells)
      = Ok (mkColumnTypeInfo column ty_np_int64 (isnull_any cells) false
                             EDM_INT64 (head 10 (map VInt zs)))).
Proof.
  assert (Hty : forall d, is_integer_dtype d = true ->
                          d <> dt_int false true W32 ->
                          python_type_of_dtype d = ty_np_int64).
  { intros d Hint Hne.
    destruct d as [| |m s w|m w|m|tz|b|n]; try discriminate Hint.
    destruct m, s, w; try reflexivity. now elim Hne. }
  split.
  - intros d Hint. split; [split|].
    + intros H.
      destruct d as [| |m s w|m w|m|tz|b|n]; try discriminate Hint.
      destruct m, s, w; try discriminate H. reflexivity.
    + intros ->. reflexivity.
    + apply Hty, Hint.
  - intros column d cells zs Hint Hne E.
    rewrite infer_column_scalar by (rewrite E; destruct zs; reflexivity).
    rewrite (Hty d Hint Hne), E. reflexivity.
Qed.

Lemma only_int32_is_range_checked_witness :
  infer_column "qty"
               (mkSeries (dt_int false true W64)
                         [Some (VInt 1); Some (VInt 2); Some (VInt 3)])
  = Ok (mkColumnTypeInfo "qty" ty_np_int64 false false EDM_INT64
                         [VInt 1; VInt 2; VInt 3]).
Proof.
  apply (proj2 only_int32_is_range_checked
               "qty" (dt_int false true W64)
               [Some (VInt 1); Some (VInt 2); Some (VInt 3)] [1; 2; 3]).
  - reflexivity.
  - discriminate.
  - reflexivity.
Defined.

(** The same values in a column of dtype int32 are Edm.Int32. *)
Example int32_column :
  infer_column "qty"
               (mkSeries (dt_int false true W32)
                         [Some (VInt 1); Some (VInt 2); Some (VInt 3)])
  = Ok (mkColumnTypeInfo "qty" ty_int false false EDM_INT32
                         [VInt 1; VInt 2; VInt 3]).
Proof. reflexivity. Qed.

End IntegerDtypes.

(* ------------------------------------------------------------------ *)
(** * The enumerations and their tokens *)

Section Enumerations.
Import IndexHint.

Lemma members_complete (d : AzureSearchDataType) : In d members.
Proof. destruct d; cbn; tauto. Qed.

Lemma members_nodup : NoDup members.
Proof.
  unfold members.
  repeat (constructor; [cbn; intuition discriminate|]).
  constructor.
Qed.

(** C8, the claim as stated fails: the enumeration has no sixteen
    distinct members. *)
Lemma no_sixteen_members :
  ~ (exists l : list AzureSearchDataType,
        NoDup l /\ (forall d, In d l) /\ List.length l = 16%nat).
Proof.
  intros (l & Hnd & _ & Hlen).
  assert (Hle : (List.length l <= List.length members)%nat).
  { apply NoDup_incl_length; [exact Hnd|].
    intros d _. apply members_complete. }
  rewrite Hlen in Hle. cbn in Hle. lia.
Qed.

(** C8, amended.  Every member has the token of the table: Edm.X for
    the eight scalar members and Collection(Edm.X) for the collection
    member of X, and the tokens are distinct.  The enumeration of
    purview_schema_index_hint.py has exactly fifteen members: the eight
    scalar ones and a collection member for each of them except Boolean.
    The enumerations of the other two files have the eleven members
    without GeographyPoint and ComplexType, with the same tokens. *)
Theorem wire_tokens :
  map value members
  = [ "Edm.String"; "Edm.Int32"; "Edm.Int64"; "Edm.Double"; "Edm.Boolean";
      "Edm.DateTimeOffset"; "Edm.GeographyPoint"; "Edm.ComplexType";
      "Collection(Edm.String)"; "Collection(Edm.Int32)";
      "Collection(Edm.Int64)"; "Collection(Edm.Double)";
      "Collection(Edm.DateTimeOffset)"; "Collection(Edm.GeographyPoint)";
      "Collection(Edm.ComplexType)" ] /\
  (forall d c : AzureSearchDataType,
      collection_of d = Some c ->
      value c = ("Collection(" ++ value d ++ ")")%string) /\
  (forall d : AzureSearchDataType,
      collection_of d = None <->
      d = EDM_BOOLEAN \/ is_collection_type d = true) /\
  (forall d : AzureSearchDataType, In d members) /\
  NoDup (map value members) /\
  List.length members = 15%nat /\
  (forall d : Inference.AzureSearchDataType, In d Inference.members) /\
  (forall d : GetSchema.AzureSearchDataType, In d GetSchema.members) /\
  map Inference.value Inference.members
  = [ "Edm.String"; "Edm.Int32"; "Edm.Int64"; "Edm.Double"; "Edm.Boolean";
      "Edm.DateTimeOffset"; "Collection(Edm.String)";
      "Collection(Edm.Int32)"; "Collection(Edm.Int64)";
      "Collection(Edm.Double)"; "Collection(Edm.DateTimeOffset)" ] /\
  map GetSchema.value GetSchema.members
  = map Inference.value Inference.members.
Proof.
  split; [reflexivity|].
  split.
  { intros d c H. destruct d; inversion H; reflexivity. }
  split.
  { intros d. destruct d; cbn; split;
      solve [ intros H; discriminate H
            | intros _; auto
            | intros [H|H]; discriminate H
            | intros _; reflexivity ]. }
  split; [exact members_complete|].
  split.
  { cbn. repeat (constructor; [cbn; intuition discriminate|]).
    constructor. }
  split; [reflexivity|].
  split; [intros d; destruct d; cbn; tauto|].
  split; [intros d; destruct d; cbn; tauto|].
  split; reflexivity.
Qed.

Lemma wire_tokens_witness :
  value COLLECTION_EDM_GEOGRAPHY_POINT = "Collection(Edm.GeographyPoint)".
Proof.
  apply (proj1 (proj2 wire_tokens) EDM_GEOGRAPHY_POINT). reflexivity.
Defined.

End Enumerations.

(* ------------------------------------------------------------------ *)
(** * The metadata-only path *)

Section MetadataOnly.
Import PyStr Py Pandas IndexHint.

Lemma update_column_names (n : string) (f : Series -> Series)
      (df : DataFrame) :
  map fst (update_column n f df) = map fst df.
Proof.
  unfold update_column. rewrite map_map. apply map_ext.
  intros [m s]; cbn. now destruct (String.eqb m n).
Qed.



Lemma update_column_empty (n : string) (d : dtype) (df : DataFrame) :
  Forall (fun c => series_cells (snd c) = []) df ->
  Forall (fun c => series_cells (snd c) = [])
         (update_column n (astype d) df).
Proof.
  intros H. unfold update_column. apply Forall_map.
  eapply Forall_impl; [|exact H].
  intros [m s] Hs; cbn in *. now destruct (String.eqb m n).
Qed.

Lemma set_dtype_names col_info t df :
  map fst (set_dtype col_info t df) = map fst df.
Proof.
  unfold set_dtype. destruct (info_name col_info); [|reflexivity].
  destruct (has_column _ df); [apply update_column_names | reflexivity].
Qed.

Lemma set_dtype_empty col_info t df :
  Forall (fun c => series_cells (snd c) = []) df ->
  Forall (fun c => series_cells (snd c) = []) (set_dtype col_info t df).
Proof.
  intros H. unfold set_dtype.
  destruct (info_name col_info); [|exact H].
  destruct (has_column _ df); [now apply update_column_empty | exact H].
Qed.




End MetadataOnly.

Section MetadataFrame.
Import PyStr Py Pandas IndexHint.






(** The loop ends when every column has a declared type; it keeps the
    columns, their order, and the frame without rows. *)
Lemma set_dtypes_returns (columns_info : list ColumnInfo) :
  (forall c, In c columns_info -> info_data_type c <> None) ->
  forall df : DataFrame,
  exists df',
    set_dtypes columns_info df = Ok df' /\
    map fst df' = map fst df /\
    (Forall (fun c => series_cells (snd c) = []) df ->
     Forall (fun c => series_cells (snd c) = []) df').
Proof.
  induction columns_info as [|c0 rest IH]; intros Hdt df.
  - exists df. repeat split; auto.
  - cbn [set_dtypes].
    destruct (info_data_type c0) as [s0|] eqn:E0.
    2:{ exfalso. apply (Hdt c0); [now left | exact E0]. }
    cbn [bind].
    destruct (IH (fun c Hc => Hdt c (or_intror Hc))
                 (set_dtype c0 (lower s0) df)) as (df' & R & Hn & He).
    exists df'. split; [exact R|]. split.
    + now rewrite Hn, set_dtype_names.
    + intros H. now apply He, set_dtype_empty.
Qed.

(** The loop raises on the first column without a declared type. *)
Lemma set_dtypes_raises (columns_info : list ColumnInfo) :
  (exists c, In c columns_info /\ info_data_type c = None) ->
  forall df : DataFrame,
    set_dtypes columns_info df = Raise AttributeError.
Proof.
  induction columns_info as [|c0 rest IH]; intros (c & Hc & Hnone) df.
  - contradiction.
  - cbn [set_dtypes].
    destruct (info_data_type c0) as [s0|] eqn:E0; [|reflexivity].
    cbn [bind]. apply IH. exists c. split; [|exact Hnone].
    destruct Hc as [-> | Hc]; [congruence | exact Hc].
Qed.



Lemma create_is_set_dtypes (columns_info : list ColumnInfo) :
  _create_dataframe_from_metadata columns_info
  = set_dtypes columns_info (empty_frame (column_names columns_info)).
Proof. destruct columns_info; reflexivity. Qed.




End MetadataFrame.

Section MetadataOnlyPath.
Import PyStr Py Pandas IndexHint.



(** The same table, evaluated. *)
Example metadata_only_int_column :
  let col := column_info_of_attrs
               (mkColumnAttrs (Some "id") (Some "int") None) in
  info_is_nullable col = true /\
  (df <- _create_dataframe_from_metadata [col] ;; _infer_column_types df)
  = Ok [mkColumnTypeInfo "id" ty_np_int64 false false EDM_INT64 []].
Proof. split; reflexivity. Qed.

(** Without a declared type the frame is not built. *)
Example metadata_only_without_type :
  _create_dataframe_from_metadata
    [column_info_of_attrs (mkColumnAttrs (Some "id") None (Some true))]
  = Raise AttributeError.
Proof. reflexivity. Qed.



End MetadataOnlyPath.


(* ------------------------------------------------------------------ *)
(** * [split], [replace] and [join] *)

Section TextFacts.
Import PyStr PyText.

Lemma contains_char_cons (c d : ascii) (r : string) :
  contains (String c EmptyString) (String d r)
  = Ascii.eqb d c || contains (String c EmptyString) r.
Proof.
  rewrite contains_cons. f_equal.
  cbn [String.prefix].
  destruct (ascii_dec c d) as [->|n].
  - rewrite Ascii.eqb_refl. now destruct r.
  - destruct (Ascii.eqb d c) eqn:E; [|reflexivity].
    apply Ascii.eqb_eq in E. now elim n.
Qed.

Lemma split_nonempty (c : ascii) (s : string) :
  exists piece pieces, split c s = piece :: pieces.
Proof.
  induction s as [|d r IH]; cbn [split].
  - eexists; eexists; reflexivity.
  - destruct (Ascii.eqb d c); [eexists; eexists; reflexivity|].
    destruct IH as (p & ps & ->). eexists; eexists; reflexivity.
Qed.

(** A string without the separator is one piece. *)
Lemma split_single (c : ascii) (a : string) :
  contains (String c EmptyString) a = false -> split c a = [a].
Proof.
  induction a as [|d r IH]; intros H; [reflexivity|].
  rewrite contains_char_cons in H. apply orb_false_iff in H as [Hd Hr].
  cbn [split]. rewrite Hd, (IH Hr). reflexivity.
Qed.

(** The first piece ends at the first separator. *)
Lemma split_first (c : ascii) (a b : string) :
  contains (String c EmptyString) a = false ->
  split c (a ++ String c b) = a :: split c b.
Proof.
  induction a as [|d r IH]; intros H.
  - cbn [append split]. now rewrite Ascii.eqb_refl.
  - rewrite contains_char_cons in H. apply orb_false_iff in H as [Hd Hr].
    cbn [append split]. rewrite Hd, (IH Hr). reflexivity.
Qed.

(** [join] undoes [split]. *)
Lemma join_split (c : ascii) (s : string) :
  join (String c EmptyString) (split c s) = s.
Proof.
  unfold join. induction s as [|d r IH]; [reflexivity|].
  cbn [split].
  destruct (split_nonempty c r) as (p & ps & E). rewrite E in *.
  destruct (Ascii.eqb d c) eqn:Ed.
  - apply Ascii.eqb_eq in Ed; subst d.
    change (String.concat (String c EmptyString) (EmptyString :: p :: ps))
      with (String c (String.concat (String c EmptyString) (p :: ps))).
    now rewrite IH.
  - transitivity (String d (String.concat (String c EmptyString) (p :: ps))).
    + destruct ps; reflexivity.
    + now rewrite IH.
Qed.

Lemma replace_from_skip (old new x rest : string) :
  replace_from old new (String.length x) (x ++ rest)
  = replace_from old new 0 rest.
Proof.
  induction x as [|d x IH]; [reflexivity|].
  cbn [String.length append]. destruct rest; cbn [replace_from]; exact IH.
Qed.

(** Nothing changes where [old] does not occur. *)
Lemma replace_absent (old new s : string) :
  contains old s = false -> replace old new s = s.
Proof.
  unfold replace. induction s as [|d r IH]; intros H; [reflexivity|].
  rewrite contains_cons in H. apply orb_false_iff in H as [Hp Hr].
  cbn [replace_from]. rewrite Hp, (IH Hr). reflexivity.
Qed.

(** An occurrence at the start is replaced and the scan goes on behind
    it. *)
Lemma replace_prefix (c : ascii) (old' new rest : string) :
  replace (String c old') new (String c old' ++ rest)
  = (new ++ replace (String c old') new rest)%string.
Proof.
  unfold replace.
  change (String c old' ++ rest)%string with (String c (old' ++ rest)).
  cbn [replace_from].
  change (String c (old' ++ rest)) with (String c old' ++ rest)%string.
  rewrite prefix_append.
  change (String.length (String c old') - 1) with (String.length old' - 0).
  rewrite Nat.sub_0_r.
  now rewrite replace_from_skip.
Qed.

Lemma contains_prefix (x post : string) :
  contains x (x ++ post) = true.
Proof.
  apply contains_occurs. exists EmptyString, post. reflexivity.
Qed.

End TextFacts.

(* ------------------------------------------------------------------ *)
(** * Data source type and connection information *)

(** Decides the comparisons of two literal strings in the goal. *)
Ltac literal_eqb :=
  repeat match goal with
         | |- context [String.eqb ?a ?b] =>
             let v := eval vm_compute in (String.eqb a b) in
             match v with
             | true => change (String.eqb a b) with true
             | false => change (String.eqb a b) with false
             end
         end.

Section ConnectionFacts.
Import PyStr PyText Connection.

Lemma split_two (c : ascii) (a : string) :
  contains (String c EmptyString) a = true ->
  exists p q ps, split c a = p :: q :: ps.
Proof.
  induction a as [|d r IH]; intros H.
  - discriminate H.
  - rewrite contains_char_cons in H. cbn [split].
    destruct (Ascii.eqb d c).
    + destruct (split_nonempty c r) as (q & ps & ->).
      eexists; eexists; eexists; reflexivity.
    + destruct (IH H) as (p & q & ps & ->).
      eexists; eexists; eexists; reflexivity.
Qed.

(** X1.  A name of the documented form
    mssql://server/database/schema/table is typed sql_server and is taken
    apart into exactly these four parts, when none of them holds a slash
    and the prefix does not occur again behind the first. *)
Theorem mssql_name_parsed
        (table_guid server database schema table : string) :
  contains "/" server = false ->
  contains "/" database = false ->
  contains "/" schema = false ->
  contains "/" table = false ->
  contains "mssql://"
           (server ++ "/" ++ database ++ "/" ++ schema ++ "/" ++ table)%string
  = false ->
  _get_connection_info
    table_guid
    ("mssql://" ++ server ++ "/" ++ database ++ "/" ++ schema ++ "/"
                ++ table)%string
  = Some [ ("type", "sql_server");
           ("qualified_name",
            ("mssql://" ++ server ++ "/" ++ database ++ "/" ++ schema
                        ++ "/" ++ table)%string);
           ("server", server); ("database", database);
           ("schema", schema); ("table", table) ].
Proof.
  intros Hs Hd Hc Ht Hno.
  set (rest := (server ++ "/" ++ database ++ "/" ++ schema ++ "/"
                       ++ table)%string) in *.
  assert (Hty : _get_data_source_type ("mssql://" ++ rest) = "sql_server").
  { unfold _get_data_source_type. now rewrite contains_prefix. }
  unfold _get_connection_info. cbv zeta. rewrite Hty. literal_eqb. cbv iota.
  rewrite (replace_prefix "m" "ssql://" "" rest).
  change ("" ++ replace "mssql://" "" rest)%string
    with (replace "mssql://" "" rest).
  rewrite (replace_absent _ _ _ Hno).
  subst rest.
  change ("/" ++ ?x)%string with (String "/" x).
  rewrite (split_first "/" server _ Hs).
  change ("/" ++ schema ++ "/" ++ table)%string
    with (String "/" (schema ++ String "/" table)).
  rewrite (split_first "/" database _ Hd).
  rewrite (split_first "/" schema _ Hc).
  rewrite (split_single "/" table Ht).
  reflexivity.
Qed.

Lemma mssql_name_parsed_witness :
  _get_connection_info "guid-1" "mssql://srv.example.net/sales/dbo/orders"
  = Some [ ("type", "sql_server");
           ("qualified_name", "mssql://srv.example.net/sales/dbo/orders");
           ("server", "srv.example.net"); ("database", "sales");
           ("schema", "dbo"); ("table", "orders") ].
Proof.
  apply (mssql_name_parsed "guid-1" "srv.example.net" "sales" "dbo"
                           "orders"); reflexivity.
Defined.

(** X2.  A name that starts with sqlserver:// is typed sql_server too,
    but only the prefix mssql:// is removed before the name is split: the
    server is then "sqlserver:", the database is empty, and the host
    lands in the schema. *)
Theorem sqlserver_name_shifted (table_guid host tail : string) :
  contains "/" host = false ->
  contains "mssql://" ("sqlserver://" ++ host ++ "/" ++ tail)%string
  = false ->
  exists d,
    _get_connection_info table_guid
                         ("sqlserver://" ++ host ++ "/" ++ tail)%string
    = Some d /\
    dict_get "type" d = Some "sql_server" /\
    dict_get "server" d = Some "sqlserver:" /\
    dict_get "database" d = Some "" /\
    dict_get "schema" d = Some host /\
    dict_get "table" d = nth_error (split "/" tail) 0.
Proof.
  intros Hh Hno.
  set (qn := ("sqlserver://" ++ host ++ "/" ++ tail)%string) in *.
  assert (Hty : _get_data_source_type qn = "sql_server").
  { unfold _get_data_source_type. rewrite Hno.
    subst qn. now rewrite contains_prefix. }
  unfold _get_connection_info. cbv zeta. rewrite Hty. literal_eqb. cbv iota.
  rewrite (replace_absent _ _ _ Hno).
  assert (Hsplit : split "/" qn
                   = "sqlserver:" :: "" :: host :: split "/" tail).
  { subst qn.
    change ("sqlserver://" ++ host ++ "/" ++ tail)%string
      with ("sqlserver:" ++ String "/" ("" ++ String "/"
                                           (host ++ String "/" tail)))%string.
    rewrite (split_first "/" "sqlserver:" _ eq_refl).
    rewrite (split_first "/" "" _ eq_refl).
    now rewrite (split_first "/" host _ Hh). }
  rewrite Hsplit.
  destruct (split_nonempty "/" tail) as (p & ps & ->).
  eexists. split; [reflexivity|].
  repeat split; reflexivity.
Qed.

Lemma sqlserver_name_shifted_witness :
  exists d,
    _get_connection_info "guid-1" "sqlserver://srv/sales/dbo/orders"
    = Some d /\
    dict_get "type" d = Some "sql_server" /\
    dict_get "server" d = Some "sqlserver:" /\
    dict_get "database" d = Some "" /\
    dict_get "schema" d = Some "srv" /\
    dict_get "table" d = Some "sales".
Proof.
  apply (sqlserver_name_shifted "guid-1" "srv" "sales/dbo/orders");
    reflexivity.
Defined.

(** X3.  A name of the documented form
    abfss://container@account.host/path, typed azure_data_lake, gives the
    account up to its first dot, the container, and the whole path behind
    the first slash, slashes included. *)
Theorem abfss_name_parsed
        (table_guid container account host path : string) :
  contains "/" container = false -> contains "@" container = false ->
  contains "/" account = false -> contains "@" account = false ->
  contains "." account = false ->
  contains "/" host = false ->
  let rest :=
    (container ++ "@" ++ account ++ "." ++ host ++ "/" ++ path)%string in
  contains "abfss://" rest = false ->
  contains "mssql://" ("abfss://" ++ rest) = false ->
  contains "sqlserver://" ("abfss://" ++ rest) = false ->
  _get_connection_info table_guid ("abfss://" ++ rest)%string
  = Some [ ("type", "azure_data_lake");
           ("qualified_name", ("abfss://" ++ rest)%string);
           ("storage_account", account); ("container", container);
           ("path", path) ].
Proof.
  intros Hc1 Hc2 Ha1 Ha2 Ha3 Hh rest Hno Hms Hsq.
  assert (Hty : _get_data_source_type ("abfss://" ++ rest)
                = "azure_data_lake").
  { unfold _get_data_source_type. rewrite Hms, Hsq.
    now rewrite contains_prefix. }
  unfold _get_connection_info. cbv zeta. rewrite Hty. literal_eqb. cbv iota.
  rewrite contains_prefix.
  rewrite (replace_prefix "a" "bfss://" "" rest).
  change ("" ++ replace "abfss://" "" rest)%string
    with (replace "abfss://" "" rest).
  rewrite (replace_absent _ _ _ Hno).
  assert (Hat : contains "@" rest = true).
  { apply contains_occurs.
    exists container, (account ++ "." ++ host ++ "/" ++ path)%string.
    reflexivity. }
  rewrite Hat.
  set (ca := (container ++ "@" ++ account ++ "." ++ host)%string).
  assert (Erest : rest = (ca ++ String "/" path)%string).
  { subst rest ca. rewrite !append_assoc. reflexivity. }
  assert (Hca : contains "/" ca = false).
  { subst ca.
    destruct (contains "/" (container ++ "@" ++ account ++ "." ++ host))
      eqn:E; [|reflexivity].
    exfalso.
    change (container ++ "@" ++ account ++ "." ++ host)%string
      with (container ++ String "@" (account ++ String "." host))%string in E.
    revert E. clear - Hc1 Ha1 Hh.
    induction container as [|x c IH]; cbn [append].
    - rewrite contains_char_cons. cbn [orb Ascii.eqb Bool.eqb].
      change (Ascii.eqb "@" "/") with false. cbn [orb].
      induction account as [|y a IHa]; cbn [append].
      + rewrite contains_char_cons.
        change (Ascii.eqb "." "/") with false. cbn [orb].
        now rewrite Hh.
      + rewrite contains_char_cons in Ha1 |- *.
        apply orb_false_iff in Ha1 as [Hy Ha1]. rewrite Hy. cbn [orb].
        now apply IHa.
    - rewrite contains_char_cons in Hc1 |- *.
      apply orb_false_iff in Hc1 as [Hx Hc1]. rewrite Hx. cbn [orb].
      now apply IH. }
  rewrite Erest, (split_first "/" ca path Hca).
  cbn [nth_error tl].
  subst ca.
  change (container ++ "@" ++ account ++ "." ++ host)%string
    with (container ++ String "@" (account ++ String "." host))%string.
  rewrite (split_first "@" container _ Hc2).
  destruct (split_nonempty "@" (account ++ String "." host)) as (p & ps & E).
  assert (Ep : exists qs, split "." p = account :: qs).
  { assert (Hp : exists tail, p = (account ++ String "." tail)%string).
    { revert p ps E. clear - Ha2.
      induction account as [|y a IHa]; intros p ps E.
      - cbn [append split] in E. change (Ascii.eqb "." "@") with false in E.
        destruct (split_nonempty "@" host) as (q & qs & Eh).
        rewrite Eh in E. inversion E. now exists q.
      - rewrite contains_char_cons in Ha2.
        apply orb_false_iff in Ha2 as [Hy Ha2].
        cbn [append split] in E. rewrite Hy in E.
        destruct (split_nonempty "@" (a ++ String "." host)) as (q & qs & Eq).
        rewrite Eq in E. inversion E; subst.
        destruct (IHa Ha2 _ _ Eq) as (tail & ->).
        now exists tail. }
    destruct Hp as (tail & ->).
    rewrite (split_first "." account tail Ha3). now eexists. }
  destruct Ep as (qs & Ep).
  rewrite E.
  change (nth_error (container :: p :: ps) 0) with (Some container).
  change (nth_error (container :: p :: ps) 1) with (Some p).
  cbv iota. rewrite Ep.
  rewrite join_split. reflexivity.
Qed.

Lemma abfss_name_parsed_witness :
  _get_connection_info
    "guid-2" "abfss://raw@lake01.dfs.core.windows.net/sales/2024/orders.csv"
  = Some [ ("type", "azure_data_lake");
           ("qualified_name",
            "abfss://raw@lake01.dfs.core.windows.net/sales/2024/orders.csv");
           ("storage_account", "lake01"); ("container", "raw");
           ("path", "sales/2024/orders.csv") ].
Proof.
  apply (abfss_name_parsed "guid-2" "raw" "lake01" "dfs.core.windows.net"
                           "sales/2024/orders.csv"); reflexivity.
Defined.

End ConnectionFacts.

Section ConnectionResults.
Import PyStr PyText Connection.

Lemma nth_error_of_four {A : Type} (xs : list A) :
  (4 <=? List.length xs)%nat = true ->
  exists a b c d rest, xs = a :: b :: c :: d :: rest.
Proof.
  destruct xs as [|a [|b [|c [|d rest]]]]; try discriminate.
  intros _. now exists a, b, c, d, rest.
Qed.

Lemma split_one_piece (c : ascii) (a p : string) :
  split c a = [p] -> contains (String c EmptyString) a = false.
Proof.
  intros H.
  destruct (contains (String c EmptyString) a) eqn:E; [|reflexivity].
  destruct (split_two c a E) as (x & y & ys & E2).
  rewrite E2 in H. discriminate H.
Qed.

(** The two entries every answer starts with. *)
Lemma connection_info_head (table_guid qualified_name : string) (d : dict) :
  _get_connection_info table_guid qualified_name = Some d ->
  exists more,
    d = ("type", _get_data_source_type qualified_name)
        :: ("qualified_name", qualified_name) :: more.
Proof.
  unfold _get_connection_info. cbv zeta.
  repeat match goal with
         | |- context [if ?b then _ else _] => destruct b
         | |- context [match nth_error ?l ?n with _ => _ end] =>
             destruct (nth_error l n)
         end;
    intros H; inversion H; eexists; reflexivity.
Qed.

(** X4.  [_get_connection_info] answers [None] in one case only: the name
    is typed azure_data_lake and holds abfss://, and what is left without
    that prefix holds an "@", but none before its first slash.  There
    [split("@")[1]] raises, and the exception is turned into [None]. *)
Theorem connection_info_none_iff (table_guid qualified_name : string) :
  _get_connection_info table_guid qualified_name = None <->
  _get_data_source_type qualified_name = "azure_data_lake" /\
  contains "abfss://" qualified_name = true /\
  contains "@" (replace "abfss://" "" qualified_name) = true /\
  contains "@" (hd "" (split "/" (replace "abfss://" "" qualified_name)))
  = false.
Proof.
  unfold _get_connection_info. cbv zeta.
  set (ty := _get_data_source_type qualified_name).
  set (url := replace "abfss://" "" qualified_name).
  destruct (String.eqb ty "sql_server") eqn:Esql.
  { apply String.eqb_eq in Esql. split.
    - destruct (4 <=? _)%nat eqn:E4; [|discriminate].
      destruct (nth_error_of_four _ E4) as (a & b & c & d & rest & ->).
      discriminate.
    - intros (Hty & _). rewrite Hty in Esql. discriminate Esql. }
  destruct (String.eqb ty "azure_data_lake") eqn:Elake.
  2:{ split; [discriminate|].
      intros (Hty & _). rewrite Hty in Elake. discriminate Elake. }
  apply String.eqb_eq in Elake.
  destruct (contains "abfss://" qualified_name) eqn:Eab.
  2:{ split; [discriminate | intros (_ & H & _); discriminate H]. }
  destruct (contains "@" url) eqn:Eat.
  2:{ split; [discriminate | intros (_ & _ & H & _); discriminate H]. }
  destruct (split_nonempty "/" url) as (ca & segs & Eurl).
  rewrite Eurl. cbn [nth_error hd].
  destruct (split_nonempty "@" ca) as (container & more & Eca).
  rewrite Eca. cbn [nth_error].
  destruct more as [|account_host more].
  - split; [intros _ | reflexivity].
    repeat split; try assumption.
    apply (split_one_piece _ _ _ Eca).
  - destruct (split_nonempty "." account_host) as (account & hs & Eah).
    rewrite Eah. cbn [nth_error].
    split; [discriminate|].
    intros (_ & _ & _ & H).
    destruct (contains "@" ca) eqn:E; [discriminate H|].
    rewrite (split_single "@" ca E) in Eca. discriminate Eca.
Qed.

Lemma connection_info_none_iff_witness :
  _get_connection_info "guid-3" "abfss://raw/landing/user@example.csv"
  = None.
Proof.
  apply (proj2 (connection_info_none_iff
                  "guid-3" "abfss://raw/landing/user@example.csv")).
  repeat split; reflexivity.
Defined.

(** X5.  Every answer of [_get_connection_info] starts with the type of
    the name and the name itself; it has a server entry only for a
    sql_server name and a storage account only for an azure_data_lake
    name, and then the other entries of that kind as well. *)
Theorem connection_info_keys
        (table_guid qualified_name : string) (d : dict) :
  _get_connection_info table_guid qualified_name = Some d ->
  dict_get "type" d = Some (_get_data_source_type qualified_name) /\
  dict_get "qualified_name" d = Some qualified_name /\
  (dict_get "server" d <> None ->
   _get_data_source_type qualified_name = "sql_server" /\
   dict_get "database" d <> None /\ dict_get "schema" d <> None /\
   dict_get "table" d <> None) /\
  (dict_get "storage_account" d <> None ->
   _get_data_source_type qualified_name = "azure_data_lake" /\
   dict_get "container" d <> None /\ dict_get "path" d <> None).
Proof.
  unfold _get_connection_info. cbv zeta.
  set (ty := _get_data_source_type qualified_name).
  assert (Hplain :
            forall P Q : Prop,
              dict_get "type" [("type", ty);
                               ("qualified_name", qualified_name)] = Some ty /\
              dict_get "qualified_name"
                       [("type", ty); ("qualified_name", qualified_name)]
              = Some qualified_name /\
              (dict_get "server" [("type", ty);
                                  ("qualified_name", qualified_name)]
               <> None -> P) /\
              (dict_get "storage_account"
                        [("type", ty); ("qualified_name", qualified_name)]
               <> None -> Q)).
  { intros P Q. split; [reflexivity|]. split; [reflexivity|].
    split; intros F; now elim F. }
  destruct (String.eqb ty "sql_server") eqn:Esql.
  { apply String.eqb_eq in Esql.
    destruct (4 <=? _)%nat eqn:E4.
    - destruct (nth_error_of_four _ E4) as (a & b & c & e & rest & ->).
      cbn [nth_error]. intros H; inversion H; subst d.
      split; [reflexivity|]. split; [reflexivity|]. split.
      + intros _. split; [exact Esql|].
        repeat split; discriminate.
      + intros F. now elim F.
    - intros H; inversion H; subst d. apply Hplain. }
  destruct (String.eqb ty "azure_data_lake") eqn:Elake.
  2:{ intros H; inversion H; subst d. apply Hplain. }
  apply String.eqb_eq in Elake.
  destruct (contains "abfss://" qualified_name).
  2:{ intros H; inversion H; subst d. apply Hplain. }
  destruct (contains "@" _).
  2:{ intros H; inversion H; subst d. apply Hplain. }
  repeat match goal with
         | |- context [match nth_error ?l ?n with _ => _ end] =>
             destruct (nth_error l n)
         end; try discriminate.
  intros H; inversion H; subst d.
  split; [reflexivity|]. split; [reflexivity|]. split.
  - intros F. now elim F.
  - intros _. split; [exact Elake|]. split; discriminate.
Qed.

Lemma connection_info_keys_witness :
  dict_get "type"
           [ ("type", "azure_blob");
             ("qualified_name", "https://acct.blob.core.windows.net/c/f") ]
  = Some (_get_data_source_type "https://acct.blob.core.windows.net/c/f").
Proof.
  apply (proj1 (connection_info_keys
                  "guid-4" "https://acct.blob.core.windows.net/c/f" _
                  eq_refl)).
Defined.

End ConnectionResults.

(* ------------------------------------------------------------------ *)
(** * Sample retrieval and table analysis *)

Section AnalysisFacts.
Import PyStr PyText Py Pandas IndexHint Connection Analysis.

Variable get_entity_by_guid : string -> option Entity.
Variable read_sql :
  option string -> option string -> option string -> option string ->
  option DataFrame.
Variable download_file :
  option string -> option string -> option string -> option string.
Variable read_csv : string -> option DataFrame.
Variable read_parquet : string -> option DataFrame.

Abbreviation analyze :=
  (analyze_table_schema get_entity_by_guid read_sql download_file
                        read_csv read_parquet).
Abbreviation retrieve :=
  (_retrieve_sample_data read_sql download_file read_csv read_parquet).
Abbreviation retrieve_adls :=
  (_retrieve_adls_data download_file read_csv read_parquet).
Abbreviation columns_of entity :=
  (match entity_columns entity with
   | Some columns => collect_columns get_entity_by_guid columns
   | None => []
   end).
Abbreviation name_of entity :=
  (match entity_qualifiedName entity with
   | Some q => q
   | None => EmptyString
   end).

(** Where no sample is retrieved, the analysis answers from the
    metadata. *)
Lemma analyze_without_sample (table_guid : string) (entity : Entity) :
  get_entity_by_guid table_guid = Some entity ->
  (forall connection_info,
      _get_connection_info table_guid (name_of entity)
      = Some connection_info ->
      retrieve connection_info (name_of entity) (columns_of entity) = None) ->
  analyze table_guid
  = if negb (truthy (columns_of entity)) then Ok None
    else df <- _create_dataframe_from_metadata (columns_of entity) ;;
         Ok (Some df).
Proof.
  intros Hent Hnone. unfold analyze_table_schema. rewrite Hent.
  destruct (negb (truthy (columns_of entity))); [reflexivity|].
  destruct (_get_connection_info table_guid (name_of entity)) as [ci|] eqn:E;
    [|reflexivity].
  now rewrite (Hnone ci eq_refl).
Qed.

Lemma retrieve_adls_needs_extension
      (connection_info : dict) (columns_info : list ColumnInfo) :
  (forall path, conn_get "path" connection_info = Some path ->
                endswith ".csv" path = false /\
                endswith ".parquet" path = false) ->
  retrieve_adls connection_info columns_info = None.
Proof.
  intros H. unfold _retrieve_adls_data.
  destruct (download_file _ _ _); [|reflexivity].
  destruct (conn_get "path" connection_info) as [path|]; [|reflexivity].
  destruct (H path eq_refl) as [-> ->]. reflexivity.
Qed.

(** X6.  For a table whose name is typed neither sql_server nor
    azure_data_lake (azure_blob, cosmos_db, unknown) no store is read:
    whatever the stores would answer, the analysis is [None] when no
    column could be collected and the frame built from the metadata
    otherwise. *)
Theorem analysis_without_store (table_guid : string) (entity : Entity) :
  get_entity_by_guid table_guid = Some entity ->
  _get_data_source_type (name_of entity) <> "sql_server" ->
  _get_data_source_type (name_of entity) <> "azure_data_lake" ->
  analyze table_guid
  = if negb (truthy (columns_of entity)) then Ok None
    else df <- _create_dataframe_from_metadata (columns_of entity) ;;
         Ok (Some df).
Proof.
  intros Hent Hsql Hlake.
  apply (analyze_without_sample _ _ Hent).
  intros ci Hci.
  destruct (connection_info_head _ _ _ Hci) as (more & ->).
  unfold _retrieve_sample_data, conn_get. cbn [dict_get].
  literal_eqb. cbv iota.
  apply String.eqb_neq in Hsql. apply String.eqb_neq in Hlake.
  rewrite Hsql, Hlake.
  destruct (String.eqb _ "azure_blob"); reflexivity.
Qed.

(** X7.  For a table in the data lake a sample is read only from a path
    that ends in .csv or .parquet: for any other path, and where the name
    gave no path, the analysis answers from the metadata whatever the
    stores would answer. *)
Theorem lake_sample_needs_csv_or_parquet
        (table_guid : string) (entity : Entity) (connection_info : dict) :
  get_entity_by_guid table_guid = Some entity ->
  _get_connection_info table_guid (name_of entity) = Some connection_info ->
  _get_data_source_type (name_of entity) = "azure_data_lake" ->
  (forall path, conn_get "path" connection_info = Some path ->
                endswith ".csv" path = false /\
                endswith ".parquet" path = false) ->
  retrieve connection_info (name_of entity) (columns_of entity) = None /\
  analyze table_guid
  = if negb (truthy (columns_of entity)) then Ok None
    else df <- _create_dataframe_from_metadata (columns_of entity) ;;
         Ok (Some df).
Proof.
  intros Hent Hci Hlake Hpath.
  assert (Hnone : retrieve connection_info (name_of entity)
                           (columns_of entity) = None).
  { destruct (connection_info_head _ _ _ Hci) as (more & E).
    unfold _retrieve_sample_data, conn_get.
    rewrite E at 1. cbn [dict_get]. literal_eqb. cbv iota.
    rewrite Hlake. literal_eqb. cbv iota.
    now apply retrieve_adls_needs_extension. }
  split; [exact Hnone|].
  apply (analyze_without_sample _ _ Hent).
  intros ci Hci'. rewrite Hci in Hci'. inversion Hci'; subst ci.
  exact Hnone.
Qed.

(** X8.  A sample read from the data lake has at most ten rows in every
    column: it is the head of what the csv or the parquet reader gave. *)
Theorem lake_sample_at_most_ten_rows
        (connection_info : dict) (columns_info : list ColumnInfo)
        (df : DataFrame) :
  retrieve_adls connection_info columns_info = Some df ->
  (exists content source,
      (read_csv content = Some source \/ read_parquet content = Some source)
      /\ df = frame_head 10 source /\ map fst df = map fst source) /\
  Forall (fun c => (List.length (series_cells (snd c)) <= 10)%nat) df.
Proof.
  unfold _retrieve_adls_data.
  destruct (download_file _ _ _) as [content|]; [|discriminate].
  destruct (conn_get "path" connection_info) as [path|]; [|discriminate].
  assert (Hhead : forall source,
             map fst (frame_head 10 source) = map fst source /\
             Forall (fun c => (List.length (series_cells (snd c)) <= 10)%nat)
                    (frame_head 10 source)).
  { intros source. unfold frame_head. split.
    - rewrite map_map. reflexivity.
    - apply Forall_map, Forall_forall. intros c _.
      cbn [snd series_cells]. apply firstn_le_length. }
  destruct (endswith ".csv" path).
  - destruct (read_csv content) as [source|] eqn:E; [|discriminate].
    intros H; inversion H; subst df. split; [|apply Hhead].
    exists content, source. split; [now left|]. split; [reflexivity|].
    apply Hhead.
  - destruct (endswith ".parquet" path); [|discriminate].
    destruct (read_parquet content) as [source|] eqn:E; [|discriminate].
    intros H; inversion H; subst df. split; [|apply Hhead].
    exists content, source. split; [now right|]. split; [reflexivity|].
    apply Hhead.
Qed.

Lemma typed_or_untyped (columns_info : list ColumnInfo) :
  (forall c, In c columns_info -> info_data_type c <> None) \/
  (exists c, In c columns_info /\ info_data_type c = None).
Proof.
  induction columns_info as [|c0 rest [IH|IH]].
  - left. intros c [].
  - destruct (info_data_type c0) eqn:E.
    + left. intros c [<-|Hc]; [congruence | now apply IH].
    + right. exists c0. split; [now left | exact E].
  - right. destruct IH as (c & Hc & E). exists c. split; [now right | exact E].
Qed.

(** X9.  The three outcomes of [analyze_table_schema].  It answers [None]
    exactly when the table entity cannot be fetched or no column can be
    collected.  For columns with distinct names it raises only
    AttributeError, and only when it has collected a column without
    dataType; and with a dataType on every collected column, at least
    one, it answers a frame. *)
Theorem analysis_outcomes (table_guid : string) :
  (analyze_table_schema get_entity_by_guid read_sql download_file
                        read_csv read_parquet table_guid = Ok None <->
   get_entity_by_guid table_guid = None \/
   exists entity, get_entity_by_guid table_guid = Some entity /\
                  columns_of entity = []) /\
  (forall entity,
      get_entity_by_guid table_guid = Some entity ->
      NoDup (column_names (columns_of entity)) ->
      (forall e,
          analyze_table_schema get_entity_by_guid read_sql download_file
                               read_csv read_parquet table_guid = Raise e ->
          e = AttributeError /\
          exists c, In c (columns_of entity) /\ info_data_type c = None) /\
      (columns_of entity <> [] ->
       (forall c, In c (columns_of entity) -> info_data_type c <> None) ->
       exists df,
         analyze_table_schema get_entity_by_guid read_sql download_file
                              read_csv read_parquet table_guid
         = Ok (Some df))).
Proof.
  unfold analyze_table_schema.
  destruct (get_entity_by_guid table_guid) as [entity|] eqn:Hent.
  2:{ split.
      - split; [now left | reflexivity].
      - discriminate. }
  remember (columns_of entity) as cols eqn:Hcols.
  assert (Hmeta : forall r,
             (df <- _create_dataframe_from_metadata cols ;; Ok (Some df)) = r ->
             r <> Ok None /\
             (forall e, r = Raise e ->
                        e = AttributeError /\
                        exists c, In c cols /\ info_data_type c = None) /\
             ((forall c, In c cols -> info_data_type c <> None) ->
              exists df, r = Ok (Some df))).
  { intros r <-. rewrite create_is_set_dtypes.
    destruct (typed_or_untyped cols) as [Hall|Hex].
    - destruct (set_dtypes_returns cols Hall (empty_frame (column_names cols)))
        as (df & -> & _).
      cbn [bind]. split; [discriminate|]. split; [discriminate|].
      intros _. now exists df.
    - rewrite (set_dtypes_raises cols Hex). cbn [bind].
      split; [discriminate|]. split.
      + intros e H; inversion H. split; [reflexivity | exact Hex].
      + intros Hall. destruct Hex as (c & Hc & E). now elim (Hall c Hc). }
  destruct (truthy cols) eqn:Etr; cbn [negb].
  2:{ assert (Hnil : cols = []) by (destruct cols; [reflexivity | discriminate]).
      split.
      - split; [intros _; right | reflexivity].
        exists entity. split; [reflexivity | now rewrite <- Hcols].
      - intros entity' H _. inversion H; subst entity'. split.
        + discriminate.
        + intros Hne. rewrite <- Hcols in Hne. now elim Hne. }
  assert (Hres : exists r,
             match _get_connection_info table_guid (name_of entity) with
             | Some connection_info =>
                 match retrieve connection_info (name_of entity) cols with
                 | Some df => Ok (Some df)
                 | None =>
                     df <- _create_dataframe_from_metadata cols ;;
                     Ok (Some df)
                 end
             | None =>
                 df <- _create_dataframe_from_metadata cols ;; Ok (Some df)
             end = r /\
             (r <> Ok None /\
              (forall e, r = Raise e ->
                         e = AttributeError /\
                         exists c, In c cols /\ info_data_type c = None) /\
              ((forall c, In c cols -> info_data_type c <> None) ->
               exists df, r = Ok (Some df)))).
  { destruct (_get_connection_info table_guid (name_of entity)) as [ci|].
    - destruct (retrieve ci (name_of entity) cols) as [df|].
      + eexists. split; [reflexivity|].
        split; [discriminate|]. split; [discriminate|].
        intros _. now exists df.
      + eexists. split; [reflexivity|]. now apply Hmeta.
    - eexists. split; [reflexivity|]. now apply Hmeta. }
  destruct Hres as (r & -> & Hnot & Hraise & Hok).
  split.
  - split; [intros H; now elim Hnot|].
    intros [H | (entity' & H & Hempty)]; [discriminate H|].
    inversion H; subst entity'. rewrite <- Hcols in Hempty.
    rewrite Hempty in Etr. discriminate Etr.
  - intros entity' H _. inversion H; subst entity'. rewrite <- Hcols. split.
    + exact Hraise.
    + intros _. exact Hok.
Qed.

End AnalysisFacts.

Section AnalysisWitnesses.
Import PyStr PyText Py Pandas IndexHint Connection Analysis.

Lemma analysis_without_store_witness :
  analyze_table_schema
    (fun guid =>
       if String.eqb guid "t1"
       then Some (mkEntity (mkColumnAttrs (Some "orders") None None)
                           (Some "https://acct.blob.core.windows.net/c/orders")
                           (Some [Some "c1"; None; Some "c9"]))
       else if String.eqb guid "c1"
       then Some (mkEntity (mkColumnAttrs (Some "id") (Some "int") None)
                           None None)
       else None)
    (fun _ _ _ _ => Some [("x", mkSeries dt_object [Some (VStr "never")])])
    (fun _ _ _ => None) (fun _ => None) (fun _ => None)
    "t1"
  = Ok (Some [("id", mkSeries (dt_int true true W64) [])]).
Proof.
  apply (analysis_without_store
           (fun guid =>
              if String.eqb guid "t1"
              then Some (mkEntity
                           (mkColumnAttrs (Some "orders") None None)
                           (Some "https://acct.blob.core.windows.net/c/orders")
                           (Some [Some "c1"; None; Some "c9"]))
              else if String.eqb guid "c1"
              then Some (mkEntity (mkColumnAttrs (Some "id") (Some "int") None)
                                  None None)
              else None)
           (fun _ _ _ _ => Some [("x", mkSeries dt_object
                                                [Some (VStr "never")])])
           (fun _ _ _ => None) (fun _ => None) (fun _ => None)
           "t1" _ eq_refl).
  - intros H; vm_compute in H; discriminate H.
  - intros H; vm_compute in H; discriminate H.
Defined.

Lemma lake_sample_needs_csv_or_parquet_witness :
  analyze_table_schema
    (fun guid =>
       if String.eqb guid "t2"
       then Some (mkEntity
                    (mkColumnAttrs (Some "events") None None)
                    (Some "abfss://raw@lake01.dfs.core.windows.net/ev/e.json")
                    (Some [Some "c1"]))
       else if String.eqb guid "c1"
       then Some (mkEntity (mkColumnAttrs (Some "at") (Some "datetime2") None)
                           None None)
       else None)
    (fun _ _ _ _ => None)
    (fun _ _ _ => Some "content")
    (fun _ => Some [("x", mkSeries dt_object [Some (VStr "never")])])
    (fun _ => Some [("x", mkSeries dt_object [Some (VStr "never")])])
    "t2"
  = Ok (Some [("at", mkSeries (dt_datetime64 false) [])]).
Proof.
  apply (proj2 (lake_sample_needs_csv_or_parquet
           (fun guid =>
              if String.eqb guid "t2"
              then Some (mkEntity
                           (mkColumnAttrs (Some "events") None None)
                           (Some "abfss://raw@lake01.dfs.core.windows.net/ev/e.json")
                           (Some [Some "c1"]))
              else if String.eqb guid "c1"
              then Some (mkEntity
                           (mkColumnAttrs (Some "at") (Some "datetime2") None)
                           None None)
              else None)
           (fun _ _ _ _ => None)
           (fun _ _ _ => Some "content")
           (fun _ => Some [("x", mkSeries dt_object [Some (VStr "never")])])
           (fun _ => Some [("x", mkSeries dt_object [Some (VStr "never")])])
           "t2" _
           [ ("type", "azure_data_lake");
             ("qualified_name",
              "abfss://raw@lake01.dfs.core.windows.net/ev/e.json");
             ("storage_account", "lake01"); ("container", "raw");
             ("path", "ev/e.json") ]
           eq_refl eq_refl eq_refl
           (fun path H =>
              match H in (_ = p)
                    return match p with
                           | Some q => endswith ".csv" q = false /\
                                       endswith ".parquet" q = false
                           | None => True
                           end
              with eq_refl => conj eq_refl eq_refl end))).
Defined.

Lemma lake_sample_at_most_ten_rows_witness :
  Forall (fun c => (List.length (series_cells (snd c)) <= 10)%nat)
         (frame_head 10
            [("n", mkSeries (dt_int false true W64)
                            (map (fun z => Some (VInt z))
                                 [1; 2; 3; 4; 5; 6; 7; 8; 9; 10; 11; 12]%Z))]).
Proof.
  apply (proj2 (lake_sample_at_most_ten_rows
                  (fun _ _ _ => Some "n\n1\n2")
                  (fun _ =>
                     Some [("n", mkSeries (dt_int false true W64)
                                          (map (fun z => Some (VInt z))
                                               [1; 2; 3; 4; 5; 6; 7; 8; 9; 10;
                                                11; 12]%Z))])
                  (fun _ => None)
                  [("type", "azure_data_lake"); ("path", "dir/n.csv")]
                  [] _ eq_refl)).
Defined.

Lemma analysis_outcomes_witness :
  exists df,
    analyze_table_schema
      (fun guid =>
         if String.eqb guid "t1"
         then Some (mkEntity (mkColumnAttrs (Some "orders") None None)
                             (Some "cosmos://account/db/orders")
                             (Some [Some "c1"]))
         else if String.eqb guid "c1"
         then Some (mkEntity (mkColumnAttrs (Some "id") (Some "int") None)
                             None None)
         else None)
      (fun _ _ _ _ => None) (fun _ _ _ => None) (fun _ => None)
      (fun _ => None) "t1"
    = Ok (Some df).
Proof.
  refine (proj2 (proj2 (analysis_outcomes
           (fun guid =>
              if String.eqb guid "t1"
              then Some (mkEntity (mkColumnAttrs (Some "orders") None None)
                                  (Some "cosmos://account/db/orders")
                                  (Some [Some "c1"]))
              else if String.eqb guid "c1"
              then Some (mkEntity (mkColumnAttrs (Some "id") (Some "int") None)
                                  None None)
              else None)
           (fun _ _ _ _ => None) (fun _ _ _ => None) (fun _ => None)
           (fun _ => None) "t1") _ eq_refl _) _ _).
  - repeat constructor. intros [].
  - discriminate.
  - intros c [<- | []]. discriminate.
Defined.

End AnalysisWitnesses.

(* ------------------------------------------------------------------ *)
(** * purview_get_schema.py: search, schema and extracted fields *)

Section GetSchemaRange.

(** The mapper of purview_get_schema.py has four answers. *)
Lemma get_schema_answers (purview_type : option string) :
  In (GetSchema.map_purview_to_search purview_type)
     [GetSchema.EDM_STRING; GetSchema.EDM_BOOLEAN; GetSchema.EDM_INT32;
      GetSchema.EDM_DOUBLE].
Proof.
  rewrite get_schema_by_keywords. cbv zeta.
  repeat match goal with
         | |- context [if ?b then _ else _] => destruct b
         end; cbn; tauto.
Qed.

End GetSchemaRange.

Section SearchFacts.
Import Py Json GetSchemaMain.

Variable session_post : string -> string -> Response.
Variable session_get : json -> Response.

Abbreviation search := (search_data_assets session_post).
Abbreviation main_for := (main_for_collection session_post session_get).

Lemma for_each_ok {A : Type} (body : A -> result unit) (xs : list A) :
  for_each body xs = Ok tt -> Forall (fun x => body x = Ok tt) xs.
Proof.
  induction xs as [|x xs IH]; intros H; [constructor|].
  cbn [for_each] in H.
  destruct (body x) as [[]|] eqn:E; cbn [bind] in H; [|discriminate].
  constructor; [exact E | now apply IH].
Qed.

Lemma get_ok_object (key : string) (default d v : json) :
  get key default d = Ok v -> exists fields, d = JObj fields.
Proof. destruct d; try discriminate. intros _. now eexists. Qed.

(** X10.  [search_data_assets] answers [None] for every status other
    than 200, without reading the body; and whenever it returns, it
    returns [None] or a non-empty list of objects, never an empty list. *)
Theorem search_answers_none_or_assets
        (collection_name search_term : string) :
  (status_code (session_post collection_name search_term) <> 200%Z ->
   search collection_name search_term = Ok JNull) /\
  (forall r, search collection_name search_term = Ok r ->
             r = JNull \/
             exists asset assets,
               r = JArr (asset :: assets) /\
               Forall (fun a => exists fields, a = JObj fields)
                      (asset :: assets)).
Proof.
  unfold search_data_assets. cbv zeta.
  set (response := session_post collection_name search_term).
  split.
  - intros H. apply Z.eqb_neq in H. now rewrite H.
  - intros r.
    destruct (status_code response =? 200)%Z; [|intros H; inversion H; auto].
    destruct (response_json response) as [data|]; cbn [bind]; [|discriminate].
    destruct (get "@search.count" (JNum 0) data) as [search_count|];
      cbn [bind]; [|discriminate].
    destruct (get "value" (JArr []) data) as [assets|]; cbn [bind];
      [|discriminate].
    destruct (truthy assets) eqn:Etr; [|intros H; inversion H; auto].
    destruct (iterate assets) as [items|] eqn:Eit; cbn [bind]; [|discriminate].
    match goal with
    | |- context [for_each ?body items] =>
        destruct (for_each body items) as [[]|] eqn:Efor; cbn [bind];
          [|discriminate]
    end.
    intros H; inversion H; subst r. right.
    apply for_each_ok in Efor.
    assert (Hobj : Forall (fun a => exists fields, a = JObj fields) items).
    { eapply Forall_impl; [|exact Efor]. cbv beta. intros x Hx.
      destruct (get "name" JNull x) as [v|] eqn:E; [|discriminate Hx].
      exact (get_ok_object _ _ _ _ E). }
    destruct assets as [| | | s | l | fs]; try discriminate Eit;
      cbn [iterate] in Eit; inversion Eit; subst items.
    + destruct s as [|c s]; [discriminate Etr|].
      cbn [chars] in Hobj. inversion Hobj as [|? ? (f & F) _]. discriminate F.
    + destruct l as [|first more]; [discriminate Etr|].
      now exists first, more.
    + destruct fs as [|[k v] fs]; [discriminate Etr|].
      cbn [map fst] in Hobj. inversion Hobj as [|? ? (f & F) _].
      discriminate F.
Qed.

(** X11.  When the search finds nothing, [main] does not end quietly: for
    a status other than 200, and for an answer without assets, the loop
    over the assets raises TypeError, which [main] does not catch. *)
Theorem main_raises_without_assets (collection_name : string) :
  (status_code (session_post collection_name "*") <> 200%Z ->
   main_for collection_name = Raise TypeError) /\
  (forall fields,
      status_code (session_post collection_name "*") = 200%Z ->
      json_body (session_post collection_name "*") = Some (JObj fields) ->
      truthy (match lookup "value" fields with
              | Some v => v
              | None => JArr []
              end) = false ->
      main_for collection_name = Raise TypeError).
Proof.
  unfold main_for_collection, search_data_assets. cbv zeta.
  set (response := session_post collection_name "*").
  split.
  - intros H. apply Z.eqb_neq in H. now rewrite H.
  - intros fields Hst Hbody Hfalsy.
    rewrite Hst. cbn [Z.eqb Pos.eqb]. unfold response_json. rewrite Hbody.
    cbn [bind get]. now rewrite Hfalsy.
Qed.

End SearchFacts.

Section ExtractionFacts.
Import Py Json GetSchemaMain.

Lemma key_eqb_str (k : json) (n : string) :
  key_eqb k (JStr n) = true -> k = JStr n.
Proof.
  destruct k; try discriminate. cbn [key_eqb].
  intros H. apply String.eqb_eq in H. now subst.
Qed.

Lemma fields_get_put_same (n : string) (v : GetSchema.AzureSearchDataType)
      (d : fields) :
  fields_get (JStr n) (fields_put (JStr n) v d) = Some v.
Proof.
  induction d as [|[k w] d IH]; cbn [fields_put fields_get].
  - cbn [key_eqb]. now rewrite String.eqb_refl.
  - destruct (key_eqb k (JStr n)) eqn:E; cbn [fields_get]; rewrite E;
      [reflexivity | exact IH].
Qed.

Lemma fields_get_put_other (n m : string)
      (v : GetSchema.AzureSearchDataType) (d : fields) :
  n <> m ->
  fields_get (JStr m) (fields_put (JStr n) v d) = fields_get (JStr m) d.
Proof.
  intros Hne. induction d as [|[k w] d IH]; cbn [fields_put fields_get].
  - cbn [key_eqb]. apply String.eqb_neq in Hne. now rewrite Hne.
  - destruct (key_eqb k (JStr n)) eqn:E; cbn [fields_get].
    + apply key_eqb_str in E; subst k. cbn [key_eqb].
      apply String.eqb_neq in Hne. now rewrite Hne.
    + destruct (key_eqb k (JStr m)); [reflexivity | exact IH].
Qed.

(** A column entity with a name and a declared type, both non-empty
    strings under the keys the script reads. *)
Lemma add_column_typed (acc : fields) (col : json)
      (cf af : list (string * json)) (n t : string) :
  col = JObj cf ->
  lookup "attributes" cf = Some (JObj af) ->
  lookup "name" af = Some (JStr n) ->
  lookup "data_type" af = Some (JStr t) ->
  n <> "" -> t <> "" ->
  add_column acc col
  = Ok (fields_put (JStr n) (GetSchema.map_purview_to_search (Some t)) acc).
Proof.
  intros -> Ha Hn Ht Hne Hte. unfold add_column.
  cbn [get bind]. rewrite Ha. cbn [get bind]. rewrite Hn, Ht.
  cbn [truthy].
  apply String.eqb_neq in Hne. apply String.eqb_neq in Hte.
  rewrite Hne, Hte. reflexivity.
Qed.

Lemma add_columns_typed (cols : list json) (entries : list (string * string)) :
  Forall2 (fun col e =>
             exists cf af,
               col = JObj cf /\
               lookup "attributes" cf = Some (JObj af) /\
               lookup "name" af = Some (JStr (fst e)) /\
               lookup "data_type" af = Some (JStr (snd e)) /\
               fst e <> "" /\ snd e <> "") cols entries ->
  forall acc : fields,
  exists fs,
    add_columns acc cols = Ok fs /\
    (forall n, ~ In n (map fst entries) ->
               fields_get (JStr n) fs = fields_get (JStr n) acc) /\
    (forall before n t after,
        entries = before ++ (n, t) :: after ->
        ~ In n (map fst after) ->
        fields_get (JStr n) fs
        = Some (GetSchema.map_purview_to_search (Some t))).
Proof.
  induction 1 as [|col [n0 t0] cols entries
                   (cf & af & Hcol & Ha & Hn & Ht & Hne & Hte) _ IH];
    intros acc.
  - exists acc. split; [reflexivity|]. split; [reflexivity|].
    intros [|? ?] ? ? ? E; discriminate E.
  - cbn [fst snd] in *. cbn [add_columns].
    rewrite (add_column_typed acc col cf af n0 t0 Hcol Ha Hn Ht Hne Hte).
    cbn [bind].
    destruct (IH (fields_put (JStr n0)
                             (GetSchema.map_purview_to_search (Some t0)) acc))
      as (fs & Hrun & Hkeep & Hlast).
    exists fs. split; [exact Hrun|]. split.
    + intros n Hnot. cbn [map fst In] in Hnot.
      rewrite Hkeep by tauto.
      apply fields_get_put_other. intros ->. tauto.
    + intros before n t after E Hnot.
      destruct before as [|b before].
      * cbn [app] in E. inversion E; subst.
        rewrite (Hkeep _ Hnot). apply fields_get_put_same.
      * cbn [app] in E. inversion E; subst.
        now apply (Hlast before n t after).
Qed.

(** X12.  The fields extracted from a schema whose referred entities all
    carry a name and a declared type (non-empty strings under the keys
    name and data_type of their attributes): a name that no entity has
    gets no field, and a name gets the type that the mapper gives to the
    declared type of the last entity with that name. *)
Theorem extracted_fields_follow_last_entity
        (schema : json) (sf rf : list (string * json))
        (entries : list (string * string)) :
  schema = JObj sf ->
  lookup "referredEntities" sf = Some (JObj rf) ->
  Forall2 (fun col e =>
             exists cf af,
               col = JObj cf /\
               lookup "attributes" cf = Some (JObj af) /\
               lookup "name" af = Some (JStr (fst e)) /\
               lookup "data_type" af = Some (JStr (snd e)) /\
               fst e <> "" /\ snd e <> "") (map snd rf) entries ->
  exists fs,
    extract_search_fields schema = Ok fs /\
    (forall n, ~ In n (map fst entries) -> fields_get (JStr n) fs = None) /\
    (forall before n t after,
        entries = before ++ (n, t) :: after ->
        ~ In n (map fst after) ->
        fields_get (JStr n) fs
        = Some (GetSchema.map_purview_to_search (Some t))).
Proof.
  intros -> Hrf Hcols. unfold extract_search_fields.
  cbn [get bind]. rewrite Hrf. cbn [values bind].
  destruct (add_columns_typed _ _ Hcols []) as (fs & Hrun & Hkeep & Hlast).
  exists fs. split; [exact Hrun|]. split; [|exact Hlast].
  intros n Hn. now rewrite (Hkeep n Hn).
Qed.

Lemma extracted_fields_follow_last_entity_witness :
  exists fs,
    extract_search_fields
      (JObj [ ("entity", JObj [("typeName", JStr "azure_sql_table")]);
              ("referredEntities",
               JObj [ ("g1", JObj [("attributes",
                                    JObj [("name", JStr "id");
                                          ("data_type", JStr "bigint")])]);
                      ("g2", JObj [("attributes",
                                    JObj [("name", JStr "id");
                                          ("data_type", JStr "nvarchar")])])
                    ]) ])
    = Ok fs /\
    fields_get (JStr "id") fs = Some GetSchema.EDM_STRING /\
    fields_get (JStr "total") fs = None.
Proof.
  destruct (extracted_fields_follow_last_entity
              (JObj [ ("entity", JObj [("typeName", JStr "azure_sql_table")]);
                      ("referredEntities",
                       JObj [ ("g1", JObj [("attributes",
                                            JObj [("name", JStr "id");
                                                  ("data_type",
                                                   JStr "bigint")])]);
                              ("g2", JObj [("attributes",
                                            JObj [("name", JStr "id");
                                                  ("data_type",
                                                   JStr "nvarchar")])])
                            ]) ])
              _ _ [("id", "bigint"); ("id", "nvarchar")] eq_refl eq_refl)
    as (fs & Hrun & Hnone & Hlast).
  - repeat constructor; cbn [fst snd]; eexists; eexists;
      repeat split; try reflexivity; discriminate.
  - exists fs. split; [exact Hrun|]. split.
    + apply (Hlast [("id", "bigint")] "id" "nvarchar" []);
        [reflexivity | intros []].
    + apply Hnone. cbn. intuition discriminate.
Defined.

Lemma fields_put_range (P : GetSchema.AzureSearchDataType -> Prop)
      (key : json) (v : GetSchema.AzureSearchDataType) (d : fields) :
  P v -> Forall (fun kv => P (snd kv)) d ->
  Forall (fun kv => P (snd kv)) (fields_put key v d).
Proof.
  intros Hv. induction 1 as [|[k w] d Hw Hd IH]; cbn [fields_put].
  - repeat constructor; exact Hv.
  - destruct (key_eqb k key); constructor; assumption.
Qed.

Lemma add_columns_range (cols : list json) :
  forall acc fs,
    add_columns acc cols = Ok fs ->
    Forall (fun kv => In (snd kv)
                         [GetSchema.EDM_STRING; GetSchema.EDM_BOOLEAN;
                          GetSchema.EDM_INT32; GetSchema.EDM_DOUBLE]) acc ->
    Forall (fun kv => In (snd kv)
                         [GetSchema.EDM_STRING; GetSchema.EDM_BOOLEAN;
                          GetSchema.EDM_INT32; GetSchema.EDM_DOUBLE]) fs.
Proof.
  induction cols as [|col cols IH]; intros acc fs H Hacc.
  - inversion H; subst; exact Hacc.
  - cbn [add_columns] in H.
    destruct (add_column acc col) as [acc'|] eqn:E; cbn [bind] in H;
      [|discriminate].
    apply (IH acc' fs H).
    unfold add_column in E.
    destruct (get "attributes" (JObj []) col) as [attrs|]; cbn [bind] in E;
      [|discriminate].
    destruct (get "name" JNull attrs) as [name|]; cbn [bind] in E;
      [|discriminate].
    destruct (get "data_type" JNull attrs) as [dtype|]; cbn [bind] in E;
      [|discriminate].
    destruct (truthy name && truthy dtype); [|inversion E; subst; exact Hacc].
    destruct (map_purview_to_search_value dtype) as [v|] eqn:Ev;
      cbn [bind] in E; [|discriminate].
    unfold fields_set in E.
    destruct (hashable name); [|discriminate].
    inversion E; subst acc'.
    apply (fields_put_range
             (fun t => In t [GetSchema.EDM_STRING; GetSchema.EDM_BOOLEAN;
                             GetSchema.EDM_INT32; GetSchema.EDM_DOUBLE]));
      [|exact Hacc].
    unfold map_purview_to_search_value in Ev.
    destruct dtype; try (destruct (truthy _); [discriminate|]);
      inversion Ev; apply get_schema_answers.
Qed.

(** X13.  Whatever the schema, a field extracted by this script is typed
    Edm.String, Edm.Boolean, Edm.Int32 or Edm.Double: never Edm.Int64,
    Edm.DateTimeOffset or a collection. *)
Theorem extracted_types (schema : json) (fs : fields) :
  extract_search_fields schema = Ok fs ->
  Forall (fun kv => In (snd kv)
                       [GetSchema.EDM_STRING; GetSchema.EDM_BOOLEAN;
                        GetSchema.EDM_INT32; GetSchema.EDM_DOUBLE]) fs.
Proof.
  unfold extract_search_fields. intros H.
  destruct (get "referredEntities" (JObj []) schema) as [referred|];
    cbn [bind] in H; [|discriminate].
  destruct (values referred) as [cols|]; cbn [bind] in H; [|discriminate].
  apply (add_columns_range cols [] fs H). constructor.
Qed.

Lemma extracted_types_witness :
  Forall (fun kv => In (snd kv)
                       [GetSchema.EDM_STRING; GetSchema.EDM_BOOLEAN;
                        GetSchema.EDM_INT32; GetSchema.EDM_DOUBLE])
         [(JStr "id", GetSchema.EDM_INT32);
          (JStr "at", GetSchema.EDM_STRING)].
Proof.
  apply (extracted_types
           (JObj [ ("referredEntities",
                    JObj [ ("g1", JObj [("attributes",
                                         JObj [("name", JStr "id");
                                               ("data_type",
                                                JStr "bigint")])]);
                           ("g2", JObj [("attributes",
                                         JObj [("name", JStr "at");
                                               ("data_type",
                                                JStr "datetime2")])]);
                           ("g3", JObj [("attributes",
                                         JObj [("name", JStr "n");
                                               ("dataType",
                                                JStr "int")])]) ]) ])).
  reflexivity.
Defined.

End ExtractionFacts.

Section LogFacts.
Import Py Json GetSchemaMain.

Variable session_get : json -> Response.

Lemma log_asset_guid (log log' : list LogEntry) (asset : json) :
  log_asset session_get log asset = Ok log' ->
  exists guid,
    get "id" JNull asset = Ok guid /\
    ((truthy guid = false /\ log' = log) \/
     (truthy guid = true /\
      exists type_name search_fields,
        log' = log ++ [mkLogEntry type_name guid search_fields])).
Proof.
  unfold log_asset. intros H.
  destruct (get "id" JNull asset) as [guid|]; cbn [bind] in H; [|discriminate].
  exists guid. split; [reflexivity|].
  destruct (truthy guid); cbn [negb] in H.
  - right. split; [reflexivity|].
    destruct (get_asset_schema session_get guid) as [schema|];
      cbn [bind] in H; [|discriminate].
    destruct (extract_search_fields schema) as [fs|]; cbn [bind] in H;
      [|discriminate].
    destruct (get "entity" (JObj []) schema) as [table|]; cbn [bind] in H;
      [|discriminate].
    destruct (get "typeName" JNull table) as [type_name|]; cbn [bind] in H;
      [|discriminate].
    inversion H. now exists type_name, fs.
  - left. inversion H. now split.
Qed.

Lemma log_assets_guids (assets : list json) :
  forall log log',
    log_assets session_get log assets = Ok log' ->
    map log_guid log'
    = map log_guid log
      ++ filter truthy
           (flat_map (fun asset =>
                        match get "id" JNull asset with
                        | Ok guid => [guid]
                        | Raise _ => []
                        end) assets).
Proof.
  induction assets as [|asset assets IH]; intros log log' H.
  - inversion H. cbn. now rewrite app_nil_r.
  - cbn [log_assets] in H.
    destruct (log_asset session_get log asset) as [log1|] eqn:E;
      cbn [bind] in H; [|discriminate].
    rewrite (IH _ _ H). cbn [flat_map].
    destruct (log_asset_guid _ _ _ E) as (guid & -> & Hcases).
    cbn [app filter].
    destruct Hcases as [(Hf & ->) | (Ht & type_name & fs & ->)].
    + now rewrite Hf.
    + rewrite Ht, map_app. cbn [map log_guid]. now rewrite <- app_assoc.
Qed.

(** X14.  When the loop of [main] over the assets ends, the log has one
    line for every asset with a GUID, in the order of the assets, and
    none for an asset whose id is missing, null, empty or zero. *)
Theorem one_line_per_asset_with_guid (assets : list json)
        (log : list LogEntry) :
  log_assets session_get [] assets = Ok log ->
  map log_guid log
  = filter truthy
      (flat_map (fun asset =>
                   match get "id" JNull asset with
                   | Ok guid => [guid]
                   | Raise _ => []
                   end) assets) /\
  Forall (fun entry => truthy (log_guid entry) = true) log.
Proof.
  intros H. pose proof (log_assets_guids _ _ _ H) as E. cbn [map app] in E.
  split; [exact E|].
  assert (Hall : Forall (fun g => truthy g = true) (map log_guid log)).
  { rewrite E. apply Forall_forall. intros g Hg.
    now apply filter_In in Hg. }
  rewrite Forall_map in Hall. exact Hall.
Qed.

(** X15.  A schema request that fails (a status other than 200) does not
    stop the loop: [get_asset_schema] answers an empty dict, and the
    asset is logged without type name and without fields. *)
Theorem failed_schema_request_is_logged_empty
        (log : list LogEntry) (asset guid : json) :
  get "id" JNull asset = Ok guid ->
  truthy guid = true ->
  status_code (session_get guid) <> 200%Z ->
  get_asset_schema session_get guid = Ok (JObj []) /\
  log_asset session_get log asset = Ok (log ++ [mkLogEntry JNull guid []]).
Proof.
  intros Hid Htr Hst.
  assert (Hschema : get_asset_schema session_get guid = Ok (JObj [])).
  { unfold get_asset_schema. apply Z.eqb_neq in Hst. now rewrite Hst. }
  split; [exact Hschema|].
  unfold log_asset. rewrite Hid. cbn [bind]. rewrite Htr. cbn [negb].
  rewrite Hschema. reflexivity.
Qed.

End LogFacts.

Section GetSchemaWitnesses.
Import Py Json GetSchemaMain.

Lemma search_answers_none_or_assets_witness :
  search_data_assets (fun _ _ => mkResponse 401 None) "sales" "*"
  = Ok JNull.
Proof.
  apply (proj1 (search_answers_none_or_assets
                  (fun _ _ => mkResponse 401 None) "sales" "*")).
  discriminate.
Defined.

Lemma main_raises_without_assets_witness :
  main_for_collection
    (fun _ _ =>
       mkResponse 200 (Some (JObj [("@search.count", JNum 0);
                                   ("value", JArr [])])))
    (fun _ => mkResponse 404 None) "sales"
  = Raise TypeError.
Proof.
  apply (proj2 (main_raises_without_assets
                  (fun _ _ =>
                     mkResponse 200 (Some (JObj [("@search.count", JNum 0);
                                                 ("value", JArr [])])))
                  (fun _ => mkResponse 404 None) "sales")
               [("@search.count", JNum 0); ("value", JArr [])]);
    reflexivity.
Defined.

Lemma one_line_per_asset_with_guid_witness :
  map log_guid
      [mkLogEntry JNull (JStr "g1") []; mkLogEntry JNull (JStr "g3") []]
  = [JStr "g1"; JStr "g3"].
Proof.
  apply (proj1 (one_line_per_asset_with_guid
                  (fun _ => mkResponse 500 None)
                  [ JObj [("id", JStr "g1")]; JObj [("name", JStr "n")];
                    JObj [("id", JStr "g3")] ]
                  [mkLogEntry JNull (JStr "g1") [];
                   mkLogEntry JNull (JStr "g3") []]
                  eq_refl)).
Defined.

Lemma failed_schema_request_is_logged_empty_witness :
  log_asset (fun _ => mkResponse 503 None) [] (JObj [("id", JStr "g1")])
  = Ok [mkLogEntry JNull (JStr "g1") []].
Proof.
  apply (proj2 (failed_schema_request_is_logged_empty
                  (fun _ => mkResponse 503 None) []
                  (JObj [("id", JStr "g1")]) (JStr "g1")
                  eq_refl eq_refl
                  (fun H : 503%Z = 200%Z =>
                     match H in (_ = z)
                           return match z with
                                  | 503%Z => True
                                  | _ => False
                                  end
                     with eq_refl => I end))).
Defined.

End GetSchemaWitnesses.

(* ------------------------------------------------------------------ *)
(** * More on the builder and the classifier *)

Section BuilderFacts.
Import Py Pandas IndexHint.
Open Scope Z_scope.

(** The fields of a descriptor, read off the loop body. *)
Lemma infer_column_fields (column : string) (series : Series)
      (info : ColumnTypeInfo) :
  infer_column column series = Ok info ->
  column_name info = column /\
  sample_values info = head 10 (dropna (series_cells series)) /\
  nullable info = isnull_any (series_cells series) /\
  is_collection info = match dropna (series_cells series) with
                       | [] => false
                       | first_value :: _ => is_container first_value
                       end /\
  _map_python_type_to_azure_search
    (python_type info) (is_collection info) (Some (sample_values info))
  = Ok (azure_search_type info).
Proof.
  unfold infer_column.
  match goal with
  | |- context [bind ?r _] => destruct r as [ft|] eqn:E; cbn [bind]
  end; intros H; inversion H; subst info; cbn.
  repeat split; try reflexivity. exact E.
Qed.

(** X16.  The sample values of a descriptor are the first ten non-null
    cells of the column, in order: the non-null cells cut after the
    tenth, so ten of them when the column has ten or more and all of
    them when it has fewer; the i-th sample is the i-th non-null cell;
    and no sample is an absent cell. *)
Theorem sample_values_are_first_ten
        (column : string) (series : Series) (info : ColumnTypeInfo) :
  infer_column column series = Ok info ->
  sample_values info = firstn 10 (dropna (series_cells series)) /\
  List.length (sample_values info)
  = Nat.min 10 (List.length (dropna (series_cells series))) /\
  (forall i : nat,
      (i < 10)%nat ->
      nth_error (sample_values info) i
      = nth_error (dropna (series_cells series)) i) /\
  (forall i : nat,
      (10 <= i)%nat -> nth_error (sample_values info) i = None) /\
  (exists rest, dropna (series_cells series) = sample_values info ++ rest) /\
  ((List.length (dropna (series_cells series)) <= 10)%nat ->
   sample_values info = dropna (series_cells series)) /\
  (forall v, In v (sample_values info) -> In (Some v) (series_cells series)).
Proof.
  intros H. destruct (infer_column_fields _ _ _ H) as (_ & -> & _).
  unfold head. split; [reflexivity|].
  split; [apply length_firstn|].
  split; [|split; [|split; [|split]]].
  - intros i Hi. rewrite nth_error_firstn.
    apply Nat.ltb_lt in Hi. now rewrite Hi.
  - intros i Hi. apply nth_error_None.
    rewrite length_firstn. lia.
  - exists (skipn 10 (dropna (series_cells series))).
    symmetry. apply firstn_skipn.
  - intros Hlen. now apply firstn_all2.
  - intros v Hv. apply (in_head 10) in Hv.
    induction (series_cells series) as [|[w|] cells IH]; cbn [dropna] in Hv.
    + contradiction.
    + destruct Hv as [-> | Hv]; [now left | right; now apply IH].
    + right; now apply IH.
Qed.

Lemma sample_values_are_first_ten_witness :
  sample_values
    (mkColumnTypeInfo "n" ty_np_int64 true false EDM_INT64
                      (map VInt [1; 2; 3; 4; 5; 6; 7; 8; 9; 10]))
  = map VInt [1; 2; 3; 4; 5; 6; 7; 8; 9; 10].
Proof.
  apply (proj1 (sample_values_are_first_ten
                  "n" (mkSeries (dt_int true true W64)
                                (None :: map (fun z => Some (VInt z))
                                             [1; 2; 3; 4; 5; 6; 7; 8; 9;
                                              10; 11; 12]))
                  _ eq_refl)).
Defined.

(** X17.  A descriptor is nullable exactly when some cell of the column
    is absent, and it is a collection exactly when the first non-null
    cell is a container: later cells are not looked at. *)
Theorem nullable_and_collection_flags
        (column : string) (series : Series) (info : ColumnTypeInfo) :
  infer_column column series = Ok info ->
  (nullable info = true <-> In None (series_cells series)) /\
  (is_collection info = true <->
   exists items rest,
     dropna (series_cells series) = VSeq items :: rest) /\
  (forall v rest, dropna (series_cells series) = v :: rest ->
                  is_container v = false -> is_collection info = false).
Proof.
  intros H.
  destruct (infer_column_fields _ _ _ H) as (_ & _ & -> & -> & _).
  split; [|split].
  - unfold isnull_any. rewrite existsb_exists. split.
    + intros ([v|] & Hin & Hc); [discriminate | exact Hin].
    + intros Hin. now exists None.
  - destruct (dropna (series_cells series)) as [|v vs].
    + split; [discriminate | intros (? & ? & E); discriminate E].
    + split.
      * destruct v; try discriminate. intros _. now eexists; eexists.
      * intros (items & rest & E). inversion E. reflexivity.
  - intros v rest -> Hv. exact Hv.
Qed.

Lemma nullable_and_collection_flags_witness :
  is_collection
    (mkColumnTypeInfo "mixed" ty_str true false EDM_STRING
                      [VStr "a"; VSeq [VStr "b"]]) = false.
Proof.
  apply (proj2 (proj2 (nullable_and_collection_flags
                         "mixed"
                         (mkSeries dt_object
                                   [None; Some (VStr "a");
                                    Some (VSeq [VStr "b"])])
                         _ eq_refl))
               (VStr "a") [VSeq [VStr "b"]]); reflexivity.
Defined.

(** X18.  The type of a scalar column follows from its dtype alone; the
    values do not count.  Object and string columns are Edm.String
    whatever they hold, int32 is Edm.Int32, any other integer dtype
    Edm.Int64, floats Edm.Double, booleans Edm.Boolean, datetime64
    Edm.DateTimeOffset; a categorical column is Edm.Boolean when its
    categories are booleans and Edm.String otherwise; timedelta64,
    complex, period and interval columns are Edm.String. *)
Theorem scalar_type_follows_dtype
        (column : string) (series : Series) (info : ColumnTypeInfo) :
  well_typed series = true ->
  infer_column column series = Ok info ->
  is_collection info = false ->
  azure_search_type info =
  match series_dtype series with
  | dt_object | dt_string => EDM_STRING
  | dt_int false true W32 => EDM_INT32
  | dt_int _ _ _ => EDM_INT64
  | dt_float _ _ => EDM_DOUBLE
  | dt_bool _ => EDM_BOOLEAN
  | dt_datetime64 _ => EDM_DATETIME_OFFSET
  | dt_category boolean_categories =>
      if boolean_categories then EDM_BOOLEAN else EDM_STRING
  | dt_other _ => EDM_STRING
  end.
Proof.
  destruct series as [d cells]. intros Hwt H Hsc.
  destruct (infer_column_fields _ _ _ H) as (_ & _ & _ & Hcoll & _).
  rewrite Hsc in Hcoll. cbn [series_cells] in Hcoll.
  assert (Hscalar : match dropna cells with
                    | [] => true
                    | v :: _ => negb (is_container v)
                    end = true).
  { destruct (dropna cells) as [|v vs]; [reflexivity|]. now rewrite <- Hcoll. }
  destruct (eq_int32 d) eqn:Ed.
  - destruct d as [| |m s w|m w|m|tz|b|n]; try discriminate Ed.
    destruct m, s, w; try discriminate Ed.
    destruct (infer_int32_column column cells Hwt) as (zs & _ & R).
    rewrite R in H. inversion H. reflexivity.
  - rewrite (infer_column_scalar _ _ _ Hscalar) in H.
    cbn [series_dtype].
    destruct d as [| |m s w|m w|m|tz|b|n];
      try (inversion H; reflexivity).
    + destruct m, s, w; try discriminate Ed; inversion H; reflexivity.
    + destruct b; inversion H; reflexivity.
Qed.

Lemma scalar_type_follows_dtype_witness :
  azure_search_type
    (mkColumnTypeInfo "amount" ty_str false false EDM_STRING
                      [VInt 1; VInt 2; VObj ty_Decimal])
  = EDM_STRING /\
  azure_search_type
    (mkColumnTypeInfo "active" ty_bool true false EDM_BOOLEAN
                      [VBool true; VBool false])
  = EDM_BOOLEAN.
Proof.
  split.
  - apply (scalar_type_follows_dtype
             "amount"
             (mkSeries dt_object
                       [Some (VInt 1); Some (VInt 2); Some (VObj ty_Decimal)])
             _ eq_refl eq_refl eq_refl).
  - apply (scalar_type_follows_dtype
             "active"
             (mkSeries (dt_category true)
                       [Some (VBool true); None; Some (VBool false)])
             _ eq_refl eq_refl eq_refl).
Defined.

(** X19.  The classifier has no answer for geography points and complex
    types: neither the scalar nor the collection member of either is ever
    returned, by the classifier or in a descriptor of the builder. *)
Theorem geography_and_complex_never_inferred :
  (forall (python_type : type) (is_coll : bool)
          (samples : option (list Py.value)) (ft : AzureSearchDataType),
      _map_python_type_to_azure_search python_type is_coll samples = Ok ft ->
      ~ In ft [EDM_GEOGRAPHY_POINT; EDM_COMPLEX_TYPE;
               COLLECTION_EDM_GEOGRAPHY_POINT; COLLECTION_EDM_COMPLEX_TYPE]) /\
  (forall (df : DataFrame) (infos : list ColumnTypeInfo),
      _infer_column_types df = Ok infos ->
      Forall (fun info =>
                ~ In (azure_search_type info)
                     [EDM_GEOGRAPHY_POINT; EDM_COMPLEX_TYPE;
                      COLLECTION_EDM_GEOGRAPHY_POINT;
                      COLLECTION_EDM_COMPLEX_TYPE]) infos).
Proof.
  assert (Hmap : forall python_type is_coll samples ft,
             _map_python_type_to_azure_search python_type is_coll samples
             = Ok ft ->
             ~ In ft [EDM_GEOGRAPHY_POINT; EDM_COMPLEX_TYPE;
                      COLLECTION_EDM_GEOGRAPHY_POINT;
                      COLLECTION_EDM_COMPLEX_TYPE]).
  { unfold _map_python_type_to_azure_search. intros ? ? ? ft H.
    repeat match type of H with
           | context [if ?b then _ else _] => destruct b
           | context [bind ?r _] => destruct r; cbn [bind] in H
           end; inversion H; cbn; intuition discriminate. }
  split; [exact Hmap|].
  intros df infos H.
  apply (Forall_impl _ (P := fun info =>
                              exists column series,
                                infer_column column series = Ok info)).
  - intros info (column & series & E1).
    destruct (infer_column_fields _ _ _ E1) as (_ & _ & _ & _ & Hft).
    exact (Hmap _ _ _ _ Hft).
  - exact (infer_columns_each df (map fst df) infos H).
Qed.

Lemma geography_and_complex_never_inferred_witness :
  ~ In EDM_DOUBLE [EDM_GEOGRAPHY_POINT; EDM_COMPLEX_TYPE;
                   COLLECTION_EDM_GEOGRAPHY_POINT;
                   COLLECTION_EDM_COMPLEX_TYPE].
Proof.
  apply (proj1 geography_and_complex_never_inferred
               ty_float false None EDM_DOUBLE eq_refl).
Defined.

End BuilderFacts.

Section ClassifierErrors.
Import Py Pandas IndexHint.

Lemma max_from_strings (ss : list string) : forall best : string,
  exists hi, max_from (VStr best) (map VStr ss) = Ok (VStr hi).
Proof.
  induction ss as [|s ss IH]; intros best.
  - now exists best.
  - cbn [map max_from]. unfold gt at 1. cbn [compare as_number bind].
    destruct (String.compare s best); apply IH.
Qed.

Lemma min_from_strings (ss : list string) : forall best : string,
  exists lo, min_from (VStr best) (map VStr ss) = Ok (VStr lo).
Proof.
  induction ss as [|s ss IH]; intros best.
  - now exists best.
  - cbn [map min_from]. unfold lt at 1. cbn [compare as_number bind].
    destruct (String.compare s best); apply IH.
Qed.

(** X20.  The guard of the integer branch is for an empty sample only.
    Called with the type int (or np.int32) and a non-empty sample of
    strings, the classifier finds their maximum and minimum and then
    raises TypeError on comparing a string with the 32-bit bound. *)
Theorem string_samples_raise
        (python_type : type) (s : string) (ss : list string) :
  type_in python_type [ty_int; ty_np_int32] = true ->
  _map_python_type_to_azure_search python_type false
                                   (Some (map VStr (s :: ss)))
  = Raise TypeError.
Proof.
  intros Hty. unfold _map_python_type_to_azure_search. rewrite Hty.
  replace (type_eqb python_type ty_str) with false
    by (destruct (int_family _ Hty) as [-> | ->]; reflexivity).
  cbn [map truthy Py.max Py.min].
  destruct (max_from_strings ss s) as (hi & ->).
  destruct (min_from_strings ss s) as (lo & ->).
  reflexivity.
Qed.

Lemma string_samples_raise_witness :
  _map_python_type_to_azure_search ty_int false
                                   (Some [VStr "12"; VStr "7"])
  = Raise TypeError.
Proof.
  apply (string_samples_raise ty_int "12" ["7"]). reflexivity.
Defined.

End ClassifierErrors.

(* ------------------------------------------------------------------ *)
(** * More on the declared-type mappers *)

Section Suffixes.
Import PyStr.

Lemma prefix_before_separator (c : ascii) (b : string) :
  forall k x : string,
    contains (String c EmptyString) k = false ->
    String.prefix k (x ++ String c b) = String.prefix k x.
Proof.
  intros k x; revert k. induction x as [|d x IH]; intros k Hk.
  - destruct k as [|e k]; [reflexivity|].
    rewrite contains_char_cons in Hk. apply orb_false_iff in Hk as [He _].
    cbn [append String.prefix].
    destruct (ascii_dec e c) as [->|]; [|reflexivity].
    now rewrite Ascii.eqb_refl in He.
  - destruct k as [|e k]; [reflexivity|].
    rewrite contains_char_cons in Hk. apply orb_false_iff in Hk as [_ Hk].
    cbn [append String.prefix].
    destruct (ascii_dec e d); [|reflexivity].
    apply IH, Hk.
Qed.

(** A keyword without the separator occurs on one of its sides. *)
Lemma contains_across_separator (c : ascii) (k a b : string) :
  contains (String c EmptyString) k = false ->
  k <> EmptyString ->
  contains k (a ++ String c b) = contains k a || contains k b.
Proof.
  intros Hk Hne. induction a as [|d a IH].
  - cbn [append]. rewrite contains_cons, contains_empty.
    change (String c b) with (EmptyString ++ String c b)%string.
    rewrite (prefix_before_separator c b k EmptyString Hk).
    reflexivity.
  - change (String d a ++ String c b)%string
      with (String d (a ++ String c b)).
    rewrite !contains_cons, IH.
    change (String d (a ++ String c b))
      with (String d a ++ String c b)%string.
    rewrite (prefix_before_separator c b k (String d a) Hk).
    now rewrite orb_assoc.
Qed.

Lemma suffix_chars_lower (args : string) :
  forallb (fun c => existsb (Ascii.eqb c)
                            (list_ascii_of_string "0123456789,) "))
          (list_ascii_of_string args) = true ->
  lower args = args.
Proof.
  induction args as [|c args IH]; intros H; [reflexivity|].
  change (list_ascii_of_string (String c args))
    with (c :: list_ascii_of_string args) in H.
  cbn [forallb] in H.
  apply andb_true_iff in H as [Hc Hrest].
  cbn [lower]. rewrite (IH Hrest). f_equal.
  cbn [list_ascii_of_string existsb] in Hc.
  repeat (apply orb_true_iff in Hc as [Hc|Hc];
          [apply Ascii.eqb_eq in Hc; subst c; reflexivity|]).
  discriminate Hc.
Qed.

Lemma suffix_chars_no_letter (e : ascii) (args : string) :
  existsb (Ascii.eqb e) (list_ascii_of_string "0123456789,) ") = false ->
  forallb (fun c => existsb (Ascii.eqb c)
                            (list_ascii_of_string "0123456789,) "))
          (list_ascii_of_string args) = true ->
  contains (String e EmptyString) args = false.
Proof.
  intros He. induction args as [|c args IH]; intros H; [reflexivity|].
  change (list_ascii_of_string (String c args))
    with (c :: list_ascii_of_string args) in H.
  cbn [forallb] in H.
  apply andb_true_iff in H as [Hc Hrest].
  rewrite contains_char_cons, (IH Hrest), orb_false_r.
  destruct (Ascii.eqb c e) eqn:E; [|reflexivity].
  apply Ascii.eqb_eq in E; subst c. rewrite He in Hc. discriminate Hc.
Qed.

(** A keyword that starts with a letter and holds no parenthesis is found
    in a type name with a suffix exactly when it is found in the name. *)
Lemma keyword_ignores_suffix (e : ascii) (k' a args : string) :
  contains "(" (String e k') = false ->
  existsb (Ascii.eqb e) (list_ascii_of_string "0123456789,) ") = false ->
  forallb (fun c => existsb (Ascii.eqb c)
                            (list_ascii_of_string "0123456789,) "))
          (list_ascii_of_string args) = true ->
  contains (String e k') (a ++ String "(" args) = contains (String e k') a.
Proof.
  intros Hpar He Hargs.
  rewrite (contains_across_separator "(" _ a args Hpar) by discriminate.
  rewrite (contains_none (String e EmptyString) (String e k') args).
  - apply orb_false_r.
  - rewrite contains_char_cons. now rewrite Ascii.eqb_refl.
  - now apply suffix_chars_no_letter.
Qed.

(** X21.  A suffix in parentheses that holds digits, commas and blanks
    only, as in nvarchar(50) or decimal(10, 2), changes the answer of
    neither mapper. *)
Theorem precision_suffix_is_ignored (s args : string) :
  forallb (fun c => existsb (Ascii.eqb c)
                            (list_ascii_of_string "0123456789,) "))
          (list_ascii_of_string args) = true ->
  Inference.map_purview_to_search (s ++ "(" ++ args)
  = Inference.map_purview_to_search s /\
  GetSchema.map_purview_to_search (Some (s ++ "(" ++ args)%string)
  = GetSchema.map_purview_to_search (Some s).
Proof.
  intros Hargs.
  assert (Hlow : lower (s ++ "(" ++ args) = (lower s ++ String "(" args)%string).
  { rewrite lower_append. change ("(" ++ args)%string with (String "(" args).
    cbn [lower]. now rewrite (suffix_chars_lower args Hargs). }
  rewrite !inference_by_keywords, !get_schema_by_keywords.
  unfold GetSchema.or_empty. cbv zeta. rewrite Hlow.
  repeat match goal with
         | |- context [contains (String ?e ?k') (lower s ++ String "(" args)] =>
             rewrite (keyword_ignores_suffix e k' (lower s) args
                                             eq_refl eq_refl Hargs)
         end.
  split; reflexivity.
Qed.

Lemma precision_suffix_is_ignored_witness :
  Inference.map_purview_to_search "decimal(10, 2)"
  = Inference.map_purview_to_search "decimal" /\
  GetSchema.map_purview_to_search (Some "decimal(10, 2)")
  = GetSchema.map_purview_to_search (Some "decimal").
Proof.
  apply (precision_suffix_is_ignored "decimal" "10, 2)"). reflexivity.
Defined.

End Suffixes.

Section ThreeMappings.
Import PyStr Py Pandas IndexHint.

(** X22.  The three ways of the repository to type a declared type part
    on the fixed-precision names: a type name that holds real, numeric or
    money (and no keyword of another family) is Edm.Double for both
    declared-type mappers, and Edm.String on the metadata-only path,
    whose dtype rule knows float, double and decimal only. *)
Theorem fixed_precision_names_differ
        (name s : string) (is_nullable : bool) :
  name <> "" ->
  any_in ["real"; "numeric"; "money"] (lower s) = true ->
  any_in [ "char"; "text"; "string"; "uniqueidentifier"; "int"; "bit";
           "float"; "double"; "decimal"; "bool"; "date"; "time" ]
         (lower s) = false ->
  Inference.map_purview_to_search s = Inference.EDM_DOUBLE /\
  GetSchema.map_purview_to_search (Some s) = GetSchema.EDM_DOUBLE /\
  (df <- _create_dataframe_from_metadata
           [mkColumnInfo (Some name) (Some s) is_nullable] ;;
   _infer_column_types df)
  = Ok [mkColumnTypeInfo name ty_str false false EDM_STRING []].
Proof.
  intros Hname Hfix Hnone.
  cbn [any_in existsb] in Hfix, Hnone.
  repeat (apply orb_false_iff in Hnone; destruct Hnone as [? Hnone]).
  assert (Hbig : contains "bigint" (lower s) = false)
    by (apply (contains_none "int" "bigint"); [reflexivity | assumption]).
  assert (H64 : contains "int64" (lower s) = false)
    by (apply (contains_none "int" "int64"); [reflexivity | assumption]).
  assert (Hinteger : contains "integer" (lower s) = false)
    by (apply (contains_none "int" "integer"); [reflexivity | assumption]).
  rewrite orb_false_r in Hfix.
  split; [|split].
  - rewrite inference_by_keywords. cbv zeta.
    repeat match goal with
           | E : contains _ (lower s) = false |- _ => rewrite E; clear E
           end.
    cbn [orb].
    destruct (contains "real" (lower s)), (contains "numeric" (lower s)),
      (contains "money" (lower s)); try discriminate Hfix; reflexivity.
  - rewrite get_schema_by_keywords. unfold GetSchema.or_empty. cbv zeta.
    repeat match goal with
           | E : contains _ (lower s) = false |- _ => rewrite E; clear E
           end.
    cbn [orb].
    destruct (contains "real" (lower s)), (contains "numeric" (lower s)),
      (contains "money" (lower s)); try discriminate Hfix; reflexivity.
  - unfold _create_dataframe_from_metadata.
    cbn [truthy negb column_names info_name set_dtypes info_data_type bind].
    apply String.eqb_neq in Hname. rewrite Hname.
    cbn [empty_frame map set_dtype info_name has_column existsb fst].
    rewrite String.eqb_refl. cbn [orb update_column map fst snd].
    rewrite String.eqb_refl.
    unfold _infer_column_types, getitem.
    cbn [map fst infer_columns getitem filter].
    unfold getitem. cbn [filter fst]. rewrite String.eqb_refl. cbn [snd].
    unfold dtype_of_data_type.
    repeat match goal with
           | E : contains _ (lower s) = false |- _ => rewrite E; clear E
           end.
    reflexivity.
Qed.

Lemma fixed_precision_names_differ_witness :
  Inference.map_purview_to_search "smallmoney" = Inference.EDM_DOUBLE /\
  GetSchema.map_purview_to_search (Some "smallmoney") = GetSchema.EDM_DOUBLE /\
  (df <- _create_dataframe_from_metadata
           [mkColumnInfo (Some "price") (Some "smallmoney") true] ;;
   _infer_column_types df)
  = Ok [mkColumnTypeInfo "price" ty_str false false EDM_STRING []].
Proof.
  apply (fixed_precision_names_differ "price" "smallmoney" true);
    [discriminate | reflexivity | reflexivity].
Defined.

End ThreeMappings.
